(** * SharePoint schema generator

    A shallow embedding of the schema pipeline of [app.py] and [main.py]:
    field classification ([get_column_type]), collection and field
    filtering ([fetch_sharepoint_lists], [fetch_columns]) and graph
    assembly ([generate_uml_graph]), with the properties the
    specification states about them.

    The payloads of the Graph API are JSON documents decoded by
    [response.json()], so the functions are modelled over JSON values,
    with the Python exceptions ([TypeError], [KeyError], [AttributeError])
    that the code can raise on them as explicit results, and with the
    [logger] calls as a log that is written to. *)

From Stdlib Require Import String Ascii List ZArith Bool Lia DecimalString.
Import ListNotations.
Local Open Scope string_scope.
Local Open Scope list_scope.

(** ** JSON values as Python sees them

    [response.json()] yields [None], [bool], [int], [str], [list] and
    [dict] objects.  JSON numbers are integers here; numbers with a
    fraction or an exponent play no role in the program and are left
    out.  A [dict] is an association list read by its first binding of
    a key, which is the only binding a decoded object has. *)

#[warnings="-register-all"]
Inductive json : Type :=
| JNull
| JBool (b : bool)
| JNum (n : Z)
| JStr (s : string)
| JArr (items : list json)
| JObj (fields : list (string * json)).

Definition pydict := list (string * json).

(** [d.get(key)] on a dict, [None] when the key is absent. *)
Fixpoint dict_get (d : pydict) (key : string) : option json :=
  match d with
  | [] => None
  | (k, v) :: rest => if String.eqb k key then Some v else dict_get rest key
  end.

(** [key in d] on a dict. *)
Definition dict_has (d : pydict) (key : string) : bool :=
  match dict_get d key with
  | Some _ => true
  | None => false
  end.

Definition str_in (s : string) (l : list string) : bool :=
  existsb (String.eqb s) l.

(** The keys of a dict in insertion order, each once. *)
Fixpoint dict_keys_from (seen : list string) (d : pydict) : list string :=
  match d with
  | [] => []
  | (k, _) :: rest =>
      if str_in k seen then dict_keys_from seen rest
      else k :: dict_keys_from (k :: seen) rest
  end.

Definition dict_keys (d : pydict) : list string := dict_keys_from [] d.

(** Python's [bool(x)]. *)
Definition truthy (x : json) : bool :=
  match x with
  | JNull => false
  | JBool b => b
  | JNum n => negb (n =? 0)%Z
  | JStr s => negb (String.eqb s "")
  | JArr items => match items with [] => false | _ => true end
  | JObj fields => match fields with [] => false | _ => true end
  end.

(** Python's [a == b] on decoded JSON: [True == 1], lists compare
    element by element, dicts compare as key/value sets. *)
Fixpoint py_eq (a b : json) {struct a} : bool :=
  match a, b with
  | JNull, JNull => true
  | JBool x, JBool y => Bool.eqb x y
  | JBool x, JNum n => (n =? Z.b2z x)%Z
  | JNum n, JBool x => (n =? Z.b2z x)%Z
  | JNum n, JNum m => (n =? m)%Z
  | JStr s, JStr t => String.eqb s t
  | JArr xs, JArr ys =>
      (fix all2 (xs ys : list json) {struct xs} : bool :=
         match xs, ys with
         | [], [] => true
         | x :: xs', y :: ys' => py_eq x y && all2 xs' ys'
         | _, _ => false
         end) xs ys
  | JObj d1, JObj d2 =>
      (fix sub (seen : list string) (d : pydict) {struct d} : bool :=
         match d with
         | [] => true
         | (k, v) :: rest =>
             (if str_in k seen then true
              else match dict_get d2 k with
                   | Some v' => py_eq v v'
                   | None => false
                   end)
             && sub (k :: seen) rest
         end) [] d1
      && forallb (fun kv => dict_has d1 (fst kv)) d2
  | _, _ => false
  end.

(** [pat in s] on two strings: [pat] occurs in [s]. *)
Fixpoint is_substring (pat s : string) : bool :=
  String.prefix pat s
  || match s with
     | EmptyString => false
     | String _ rest => is_substring pat rest
     end.

(** ** Exceptions and the log *)

Inductive exn : Type := TypeError | KeyError | AttributeError.

Inductive result (A : Type) : Type :=
| Ok (a : A)
| Raise (e : exn).

Arguments Ok {A} a.
Arguments Raise {A} e.

(** Hashable values, the keys a Python dict accepts: a decoded list or
    dict is not one. *)
Inductive pykey : Type :=
| KNone
| KBool (b : bool)
| KInt (n : Z)
| KStr (s : string).

(** Equality of dict keys: [hash] and [==] agree on [True] and [1]. *)
Definition key_eqb (a b : pykey) : bool :=
  match a, b with
  | KNone, KNone => true
  | KBool x, KBool y => Bool.eqb x y
  | KBool x, KInt n => (n =? Z.b2z x)%Z
  | KInt n, KBool x => (n =? Z.b2z x)%Z
  | KInt n, KInt m => (n =? m)%Z
  | KStr s, KStr t => String.eqb s t
  | _, _ => false
  end.

(** The key a value is stored under; [TypeError: unhashable type]
    for a list or a dict. *)
Definition hash_key (x : json) : result pykey :=
  match x with
  | JNull => Ok KNone
  | JBool b => Ok (KBool b)
  | JNum n => Ok (KInt n)
  | JStr s => Ok (KStr s)
  | JArr _ => Raise TypeError
  | JObj _ => Raise TypeError
  end.

Definition key_truthy (k : pykey) : bool :=
  match k with
  | KNone => false
  | KBool b => b
  | KInt n => negb (n =? 0)%Z
  | KStr s => negb (String.eqb s "")
  end.

(** [str(k)], as an f-string formats it. *)
Definition py_str (k : pykey) : string :=
  match k with
  | KNone => "None"
  | KBool true => "True"
  | KBool false => "False"
  | KInt n => NilZero.string_of_int (Z.to_int n)
  | KStr s => s
  end.

(** What [logger] is asked to record. *)
Inductive log_record : Type :=
| Error_request_failed
| Error_fetch_lists_failed
| Warning_unexpected_item (item : json)
| Error_fetch_columns_failed (list_id : json)
| Info_generating_table (list_name : pykey)
| Error_no_lists_found
| Info_diagram_saved.

(** A computation that logs and may raise. *)
Definition M (A : Type) : Type := list log_record * result A.

Class Monad (m : Type -> Type) : Type := {
  ret : forall {A}, A -> m A;
  bind : forall {A B}, m A -> (A -> m B) -> m B
}.

#[export] Instance result_monad : Monad result := {
  ret := fun A a => Ok a;
  bind := fun A B r k => match r with Ok a => k a | Raise e => Raise e end
}.

#[export] Instance M_monad : Monad M := {
  ret := fun A a => ([], Ok a);
  bind := fun A B c k =>
    match c with
    | (l1, Ok a) => let (l2, r) := k a in (l1 ++ l2, r)
    | (l1, Raise e) => (l1, Raise e)
    end
}.

Notation "x <- c ;; k" := (bind c (fun x => k))
  (at level 61, c at next level, right associativity).
Notation "c ;;; k" := (bind c (fun _ => k))
  (at level 61, right associativity).

Definition lift {A} (r : result A) : M A := ([], r).
Definition log (rec : log_record) : M unit := ([rec], Ok tt).

Definition logged {A} (c : M A) : list log_record := fst c.
Definition outcome {A} (c : M A) : result A := snd c.

(** ** Python operations on a decoded value *)

(** [key in x] for a string [key]. *)
Definition py_contains (key : string) (x : json) : result bool :=
  match x with
  | JObj d => Ok (dict_has d key)
  | JArr items => Ok (existsb (fun e => py_eq e (JStr key)) items)
  | JStr s => Ok (is_substring key s)
  | _ => Raise TypeError
  end.

(** [x[key]] for a string [key]. *)
Definition py_getitem (x : json) (key : string) : result json :=
  match x with
  | JObj d => match dict_get d key with
              | Some v => Ok v
              | None => Raise KeyError
              end
  | _ => Raise TypeError
  end.

(** [x.get(key, default)]: only a dict has the method. *)
Definition py_get (x : json) (key : string) (default : json) : result json :=
  match x with
  | JObj d => match dict_get d key with
              | Some v => Ok v
              | None => Ok default
              end
  | _ => Raise AttributeError
  end.

(** A string stands for the UTF-8 encoding of a Python [str]; a
    character is a byte that is no continuation byte ([10xxxxxx]),
    with the continuation bytes that follow it. *)
Definition is_continuation (c : ascii) : bool :=
  match c with
  | Ascii _ _ _ _ _ _ b6 b7 => b7 && negb b6
  end.

Fixpoint split_chars (s : string) : list string :=
  match s with
  | EmptyString => []
  | String c rest =>
      match split_chars rest with
      | String c' first :: others =>
          if is_continuation c' then String c (String c' first) :: others
          else String c EmptyString :: String c' first :: others
      | others => String c EmptyString :: others
      end
  end.

Definition chars (s : string) : list json := map JStr (split_chars s).

(** The items [for item in x] runs over: the elements of a list, the
    keys of a dict, the characters of a string. *)
Definition py_iter (x : json) : result (list json) :=
  match x with
  | JArr items => Ok items
  | JObj d => Ok (map JStr (dict_keys d))
  | JStr s => Ok (chars s)
  | _ => Raise TypeError
  end.

(** [x in l] for a list [l] of strings. *)
Definition py_in_strs (x : json) (l : list string) : bool :=
  match x with
  | JStr s => str_in s l
  | _ => false
  end.

(** ** Field classifier: [get_column_type] *)

(** [{"type": ..., "details": ...}] *)
Record type_details : Type := {
  td_type : string;
  td_details : json
}.

(** The dict [type_mappings], in insertion order, as [.items()] yields it. *)
Definition type_mappings : list (string * string) :=
  [ ("text", "text");
    ("lookup", "lookup");
    ("dateTime", "dateTime");
    ("number", "number");
    ("choice", "choice");
    ("boolean", "boolean");
    ("person", "person");
    ("calculated", "calculated") ].

Fixpoint get_column_type_loop (items : list (string * string)) (column : json)
  : result type_details :=
  match items with
  | [] => Ok {| td_type := "unknown"; td_details := JObj [] |}
  | (key, value) :: rest =>
      found <- py_contains key column ;;
      if (found : bool) then
        details <- py_getitem column key ;;
        Ok {| td_type := value; td_details := details |}
      else get_column_type_loop rest column
  end.

Definition get_column_type (column : json) : result type_details :=
  get_column_type_loop type_mappings column.

(** ** Regular expressions: [re.match]

    The fragment of the pattern syntax that [COLUMN_PATTERN_TO_IGNORE]
    uses: literal characters, [.] (any character but a newline) and a
    postfix [*].  [re.match] succeeds when some prefix of the subject
    matches, which the derivatives of the expression decide. *)

Inductive regex : Type :=
| Empty
| Eps
| Dot
| Chr (c : ascii)
| Alt (r1 r2 : regex)
| Cat (r1 r2 : regex)
| Star (r : regex).

Definition newline : ascii := ascii_of_nat 10.

Fixpoint nullable (r : regex) : bool :=
  match r with
  | Empty => false
  | Eps => true
  | Dot => false
  | Chr _ => false
  | Alt r1 r2 => nullable r1 || nullable r2
  | Cat r1 r2 => nullable r1 && nullable r2
  | Star _ => true
  end.

Fixpoint deriv (c : ascii) (r : regex) : regex :=
  match r with
  | Empty => Empty
  | Eps => Empty
  | Dot => if Ascii.eqb c newline then Empty else Eps
  | Chr c' => if Ascii.eqb c c' then Eps else Empty
  | Alt r1 r2 => Alt (deriv c r1) (deriv c r2)
  | Cat r1 r2 =>
      if nullable r1 then Alt (Cat (deriv c r1) r2) (deriv c r2)
      else Cat (deriv c r1) r2
  | Star r1 => Cat (deriv c r1) (Star r1)
  end.

Fixpoint re_match_str (r : regex) (s : string) : bool :=
  nullable r
  || match s with
     | EmptyString => false
     | String c rest => re_match_str (deriv c r) rest
     end.

Definition atom (c : ascii) : regex :=
  if Ascii.eqb c "."%char then Dot else Chr c.

Fixpoint re_compile (pattern : string) : regex :=
  match pattern with
  | EmptyString => Eps
  | String c rest =>
      match rest with
      | String star rest' =>
          if Ascii.eqb star "*"%char then Cat (Star (atom c)) (re_compile rest')
          else Cat (atom c) (re_compile rest)
      | EmptyString => Cat (atom c) (re_compile rest)
      end
  end.

(** The strings a regular expression matches, in full. *)
Inductive matches : regex -> string -> Prop :=
| matches_eps : matches Eps ""
| matches_dot (c : ascii) : c <> newline -> matches Dot (String c "")
| matches_chr (c : ascii) : matches (Chr c) (String c "")
| matches_alt_l (r1 r2 : regex) (s : string) :
    matches r1 s -> matches (Alt r1 r2) s
| matches_alt_r (r1 r2 : regex) (s : string) :
    matches r2 s -> matches (Alt r1 r2) s
| matches_cat (r1 r2 : regex) (s1 s2 : string) :
    matches r1 s1 -> matches r2 s2 -> matches (Cat r1 r2) (s1 ++ s2)
| matches_star_nil (r : regex) : matches (Star r) ""
| matches_star_cons (r : regex) (s1 s2 : string) :
    matches r s1 -> matches (Star r) s2 -> matches (Star r) (s1 ++ s2).

(** The string has no newline. *)
Fixpoint one_line (s : string) : bool :=
  match s with
  | EmptyString => true
  | String c rest => negb (Ascii.eqb c newline) && one_line rest
  end.

(** ** Constants *)

Definition COLUMNS_TO_IGNORE : list string :=
  [ "_ColorTag"; "ComplianceAssetId"; "_UIVersionString"; "Attachments";
    "Edit"; "LinkTitleNoMenu"; "LinkTitle"; "DocIcon"; "ItemChildCount";
    "FolderChildCount"; "_ComplianceFlags"; "_ComplianceTag";
    "_ComplianceTagWrittenTime"; "_ComplianceTagUserId"; "_IsRecord";
    "AppAuthor"; "AppEditor"; "ID"; "ContentType" ].

Definition COLUMN_PATTERN_TO_IGNORE : string := ".*x003a.*".

(** ** The Metadata Source

    What [requests.get] answers on the two endpoints the program
    calls: the lists of the site, and the columns of the list with a
    given id.  [None] is a request that failed with a
    [RequestException]; the token, the headers and the site id are
    passed through to the transport and do not appear.  The answer to
    a columns request is a function of the list id, which is all of
    the URL that varies within a run. *)

Record MetadataSource : Type := {
  lists_response : option json;
  columns_response : json -> option json
}.

(** [fetch_data]: the decoded body, or [None] after logging the failure. *)
Definition fetch_data (response : option json) : M json :=
  match response with
  | Some body => ret body
  | None => log Error_request_failed ;;; ret JNull
  end.

(** [for x in xs: s = body(s, x)] *)
Fixpoint for_each {m : Type -> Type} `{Monad m} {A S : Type}
    (xs : list A) (body : S -> A -> m S) (s : S) : m S :=
  match xs with
  | [] => ret s
  | x :: rest => s' <- body s x ;; for_each rest body s'
  end.

(** [not data or 'value' not in data], the test both fetchers start with. *)
Definition no_value (data : json) : result bool :=
  if negb (truthy data) then Ok true
  else found <- py_contains "value" data ;; Ok (negb found).

(** ** The name-keyed collection map [lists_dict]

    A Python dict keeps its keys in the order of their first insertion;
    assigning to a key that is present replaces the value in place. *)

Definition lists_map := list (pykey * json).

Fixpoint dict_set (d : lists_map) (key : pykey) (value : json) : lists_map :=
  match d with
  | [] => [(key, value)]
  | (k, v) :: rest =>
      if key_eqb k key then (k, value) :: rest
      else (k, v) :: dict_set rest key value
  end.

Fixpoint dict_lookup (d : lists_map) (key : pykey) : option json :=
  match d with
  | [] => None
  | (k, v) :: rest => if key_eqb k key then Some v else dict_lookup rest key
  end.

(** ** Columns and the graph *)

(** The dict [fetch_columns] builds for a column it keeps. *)
Record column : Type := {
  col_name : string;
  col_id : json;
  col_required : json;
  col_type_details : type_details
}.

(** [(list_name, list_id_lookup, column_name)] *)
Definition relationship := (pykey * json * string)%type.

(** The [Digraph] object, as the calls [graph.node(name, label=...)] and
    [graph.edge(tail, head, label=...)] made on it; rendering it
    ([graph.pipe()]) is the Graph Renderer's.  [graph.node] quotes the
    name it is given and raises [TypeError] on a name that is not a
    string.  [graph.edge] is only ever called, after all the nodes are
    made, with the names of two of them. *)
Record Digraph : Type := {
  nodes : list (pykey * string);
  edges : list (pykey * pykey * string)
}.

Definition empty_graph : Digraph := {| nodes := []; edges := [] |}.

(** The key is a [str]. *)
Definition string_key (k : pykey) : bool :=
  match k with
  | KStr _ => true
  | _ => false
  end.

Definition graph_node (graph : Digraph) (name : pykey) (label : string)
  : result Digraph :=
  if string_key name
  then Ok {| nodes := nodes graph ++ [(name, label)]; edges := edges graph |}
  else Raise TypeError.

Definition graph_edge (graph : Digraph) (tail head : pykey) (label : string) : Digraph :=
  {| nodes := nodes graph; edges := edges graph ++ [(tail, head, label)] |}.

Definition nl : string := String newline EmptyString.

Definition table_open : string :=
  "<<TABLE BORDER='0' CELLBORDER='1' CELLSPACING='0'>" ++ nl.

Definition table_header (list_name : pykey) : string :=
  "<TR><TD COLSPAN='2'><B>" ++ py_str list_name ++ "</B></TD></TR>" ++ nl.

Definition table_row (column_name column_type : string) : string :=
  "<TR><TD>" ++ column_name ++ "</TD><TD>" ++ column_type ++ "</TD></TR>" ++ nl.

Definition table_close : string := "</TABLE>>".

(** ** The pipeline *)

Section Pipeline.

(** The collection ignore-set, which differs between the two entry
    points, and the source that is queried. *)
Variable LISTS_TO_IGNORE : list string.
Variable source : MetadataSource.

(** *** [fetch_sharepoint_lists] *)

(** One turn of [for item in lists_data['value']]. *)
Definition keep_list (lists_dict : lists_map) (item : json) : M lists_map :=
  match item with
  | JObj d =>
      if dict_has d "displayName" && dict_has d "id" then
        displayName <- lift (py_getitem item "displayName") ;;
        if negb (py_in_strs displayName LISTS_TO_IGNORE) then
          id <- lift (py_getitem item "id") ;;
          key <- lift (hash_key displayName) ;;
          ret (dict_set lists_dict key id)
        else ret lists_dict
      else log (Warning_unexpected_item item) ;;; ret lists_dict
  | _ => log (Warning_unexpected_item item) ;;; ret lists_dict
  end.

Definition fetch_sharepoint_lists : M lists_map :=
  lists_data <- fetch_data (lists_response source) ;;
  missing <- lift (no_value lists_data) ;;
  if (missing : bool) then log Error_fetch_lists_failed ;;; ret []
  else
    value <- lift (py_getitem lists_data "value") ;;
    items <- lift (py_iter value) ;;
    for_each items keep_list [].

(** *** [fetch_columns] *)

(** One turn of [for col in columns_data['value']].  [re.match] raises
    [TypeError] on a name that is not a string, and such a name is in
    no list of strings, so the test reaches it. *)
Definition keep_column (columns : list column) (col : json) : result (list column) :=
  name <- py_get col "name" (JStr "") ;;
  match name with
  | JStr s =>
      if negb (str_in s COLUMNS_TO_IGNORE)
         && negb (re_match_str (re_compile COLUMN_PATTERN_TO_IGNORE) s)
      then
        id <- py_get col "id" JNull ;;
        required <- py_get col "required" (JBool false) ;;
        details <- get_column_type col ;;
        Ok (columns ++ [ {| col_name := s;
                            col_id := id;
                            col_required := required;
                            col_type_details := details |} ])
      else Ok columns
  | _ => Raise TypeError
  end.

Definition fetch_columns (list_id : json) : M (list column) :=
  columns_data <- fetch_data (columns_response source list_id) ;;
  missing <- lift (no_value columns_data) ;;
  if (missing : bool) then log (Error_fetch_columns_failed list_id) ;;; ret []
  else
    value <- lift (py_getitem columns_data "value") ;;
    cols <- lift (py_iter value) ;;
    lift (for_each cols keep_column []).

(** *** [generate_uml_graph] *)

(** One turn of [for column in columns], on the label and the
    relationships collected so far. *)
Definition add_row (list_name : pykey) (acc : string * list relationship)
    (column : column) : result (string * list relationship) :=
  let (label, relationships) := acc in
  let column_name := col_name column in
  let column_type := td_type (col_type_details column) in
  let label := (label ++ table_row column_name column_type)%string in
  if String.eqb column_type "lookup" then
    list_id_lookup <- py_get (td_details (col_type_details column)) "listId" JNull ;;
    if truthy list_id_lookup then
      Ok (label, relationships ++ [(list_name, list_id_lookup, column_name)])
    else Ok (label, relationships)
  else Ok (label, relationships).

(** One turn of [for list_name, list_id in lists_dict.items()]. *)
Definition add_table (acc : Digraph * list relationship)
    (entry : pykey * json) : M (Digraph * list relationship) :=
  let (graph, relationships) := acc in
  let (list_name, list_id) := entry in
  columns <- fetch_columns list_id ;;
  log (Info_generating_table list_name) ;;;
  let label := (table_open ++ table_header list_name)%string in
  filled <- lift (for_each columns (add_row list_name) (label, relationships)) ;;
  let (label, relationships) := filled : string * list relationship in
  let label := (label ++ table_close)%string in
  graph <- lift (graph_node graph list_name label) ;;
  ret (graph, relationships).

(** The search for the target table in [app.py]: the first entry of
    [lists_dict] whose id equals the target id. *)
Fixpoint find_target_table (items : lists_map) (target_list_id : json) : option pykey :=
  match items with
  | [] => None
  | (table_name, table_id) :: rest =>
      if py_eq table_id target_list_id then Some table_name
      else find_target_table rest target_list_id
  end.

(** The same search in [main.py]:
    [next((name for name, id_ in lists_dict.items() if id_ == target_list_id), None)]. *)
Definition next_target_table (items : lists_map) (target_list_id : json) : option pykey :=
  hd_error (map fst (filter (fun entry => py_eq (snd entry) target_list_id) items)).

Section Edges.

Variable lookup_target : lists_map -> json -> option pykey.
Variable lists_dict : lists_map.

(** One turn of [for source_table, target_list_id, column_name in relationships]:
    the search gives [None] or a name, and [if target_table:] asks for
    a name that is truthy. *)
Definition add_edge (graph : Digraph) (rel : relationship) : Digraph :=
  let '(source_table, target_list_id, column_name) := rel in
  match lookup_target lists_dict target_list_id with
  | Some target_table =>
      if key_truthy target_table
      then graph_edge graph source_table target_table column_name
      else graph
  | None => graph
  end.

Definition generate_with : M Digraph :=
  tables <- for_each lists_dict add_table (empty_graph, []) ;;
  let (graph, relationships) := tables : Digraph * list relationship in
  ret (fold_left add_edge relationships graph).

End Edges.

Definition generate_uml_graph (lists_dict : lists_map) : M Digraph :=
  generate_with find_target_table lists_dict.

Definition generate_uml_graph_main (lists_dict : lists_map) : M Digraph :=
  generate_with next_target_table lists_dict.

(** *** [main]: fetch, then assemble unless nothing was retained.
    The result is the graph whose rendering is written out. *)
Definition main : M (option Digraph) :=
  lists_dict <- fetch_sharepoint_lists ;;
  match lists_dict with
  | [] => log Error_no_lists_found ;;; ret None
  | _ :: _ =>
      graph <- generate_uml_graph_main lists_dict ;;
      log Info_diagram_saved ;;;
      ret (Some graph)
  end.

End Pipeline.

(** ** The two entry points *)

(** [app.py]: the web form.  [index] fetches the lists and stores them
    in the session; [view_results] and [view_schema] assemble the graph
    from the dict they read back.  The session is not modelled:
    [generate_uml_graph] takes the dict it is handed. *)
Module App.

Definition LISTS_TO_IGNORE : list string :=
  ["Documents"; "Liens de partage"; "Extensions de modèle web"; "User"].

Definition fetch_sharepoint_lists (source : MetadataSource) : M lists_map :=
  fetch_sharepoint_lists LISTS_TO_IGNORE source.

Definition generate_uml_graph (source : MetadataSource) (lists_dict : lists_map)
  : M Digraph :=
  generate_uml_graph source lists_dict.

End App.

(** [main.py]: the command line. *)
Module Main.

Definition LISTS_TO_IGNORE : list string :=
  ["Documents"; "Liens de partage"; "Extensions de modèle web"; "User";
   "Web Template Extensions"].

Definition fetch_sharepoint_lists (source : MetadataSource) : M lists_map :=
  fetch_sharepoint_lists LISTS_TO_IGNORE source.

Definition generate_uml_graph (source : MetadataSource) (lists_dict : lists_map)
  : M Digraph :=
  generate_uml_graph_main source lists_dict.

Definition main (source : MetadataSource) : M (option Digraph) :=
  main LISTS_TO_IGNORE source.

End Main.

(** ** The assembled graph, as a function of what was fetched

    The loops of [generate_uml_graph] written as maps over the
    collection map: a table per entry, and the edges of the
    relationships of all tables.  [generate_with_assemble] below shows
    that the loops compute exactly this. *)

(** [for x in xs: ys.append(f(x))], stopping at the first exception. *)
Fixpoint traverse {A B : Type} (f : A -> result B) (xs : list A) : result (list B) :=
  match xs with
  | [] => Ok []
  | x :: rest => y <- f x ;; ys <- traverse f rest ;; Ok (y :: ys)
  end.

(** The relationship a column gives rise to: one when the column is a
    lookup whose detail has a truthy [listId], none otherwise. *)
Definition column_relationship (list_name : pykey) (c : column)
  : result (list relationship) :=
  if String.eqb (td_type (col_type_details c)) "lookup" then
    list_id_lookup <- py_get (td_details (col_type_details c)) "listId" JNull ;;
    Ok (if truthy list_id_lookup then [(list_name, list_id_lookup, col_name c)] else [])
  else Ok [].

Definition column_row (c : column) : string :=
  table_row (col_name c) (td_type (col_type_details c)).

Definition table_rows (columns : list column) : string :=
  String.concat "" (map column_row columns).

(** The label of the node of a collection: the header row with its
    name, then one row per column. *)
Definition table_label (list_name : pykey) (columns : list column) : string :=
  ((table_open ++ table_header list_name) ++ table_rows columns) ++ table_close.

Record table : Type := {
  t_name : pykey;
  t_columns : list column;
  t_relationships : list relationship
}.

Definition table_of (source : MetadataSource) (entry : pykey * json) : result table :=
  columns <- outcome (fetch_columns source (snd entry)) ;;
  rels <- traverse (column_relationship (fst entry)) columns ;;
  Ok {| t_name := fst entry; t_columns := columns; t_relationships := concat rels |}.

Definition table_node (t : table) : pykey * string :=
  (t_name t, table_label (t_name t) (t_columns t)).

(** The edge a relationship gives rise to: one when the target id is
    the id of an entry of the map and the name found is truthy. *)
Definition edge_of (lookup_target : lists_map -> json -> option pykey)
    (lists_dict : lists_map) (rel : relationship) : list (pykey * pykey * string) :=
  let '(source_table, target_list_id, column_name) := rel in
  match lookup_target lists_dict target_list_id with
  | Some target_table =>
      if key_truthy target_table then [(source_table, target_table, column_name)]
      else []
  | None => []
  end.

(** The table of a collection, once its node is made: [graph.node]
    comes after the rows, and wants a string for a name. *)
Definition node_table (source : MetadataSource) (entry : pykey * json) : result table :=
  t <- table_of source entry ;;
  if string_key (fst entry) then Ok t else Raise TypeError.

Definition assemble (lookup_target : lists_map -> json -> option pykey)
    (source : MetadataSource) (lists_dict : lists_map) : result Digraph :=
  tables <- traverse (node_table source) lists_dict ;;
  Ok {| nodes := map table_node tables;
        edges := flat_map (edge_of lookup_target lists_dict)
                   (flat_map t_relationships tables) |}.

(** ** Notions used in the statements *)

(** What the listing of the site is read as: nothing when the payload
    is unusable, the items of its [value] otherwise. *)
Definition listed_items (response : option json) : result (list json) :=
  let data := match response with Some body => body | None => JNull end in
  missing <- no_value data ;;
  if (missing : bool) then Ok []
  else value <- py_getitem data "value" ;; py_iter value.

(** The two programs, for the statements that hold of both. *)
Inductive program : Type := app_py | main_py.

Definition LISTS_TO_IGNORE_of (p : program) : list string :=
  match p with
  | app_py => App.LISTS_TO_IGNORE
  | main_py => Main.LISTS_TO_IGNORE
  end.

Definition fetch_sharepoint_lists_of (p : program) (source : MetadataSource)
  : M lists_map :=
  match p with
  | app_py => App.fetch_sharepoint_lists source
  | main_py => Main.fetch_sharepoint_lists source
  end.

Definition generate_uml_graph_of (p : program) (source : MetadataSource)
    (lists_dict : lists_map) : M Digraph :=
  match p with
  | app_py => App.generate_uml_graph source lists_dict
  | main_py => Main.generate_uml_graph source lists_dict
  end.

(** The display name of an item can be a key: it is not a list or a dict. *)
Definition hashable_name (item : json) : bool :=
  match item with
  | JObj d =>
      match dict_get d "displayName" with
      | Some (JArr _) => false
      | Some (JObj _) => false
      | _ => true
      end
  | _ => true
  end.

(** The item is a collection descriptor of that display name. *)
Definition describes (name : string) (item : json) : bool :=
  match item with
  | JObj d =>
      match dict_get d "displayName", dict_get d "id" with
      | Some (JStr s), Some _ => String.eqb s name
      | _, _ => false
      end
  | _ => false
  end.

(** No two keys of the map are equal, as in every Python dict. *)
Inductive distinct_keys : lists_map -> Prop :=
| distinct_nil : distinct_keys []
| distinct_cons (k : pykey) (v : json) (d : lists_map) :
    (forall k', In k' (map fst d) -> key_eqb k k' = false) ->
    distinct_keys d ->
    distinct_keys ((k, v) :: d).

(** [isinstance(item, dict) and 'displayName' in item and 'id' in item] *)
Definition is_collection_descriptor (item : json) : bool :=
  match item with
  | JObj d => dict_has d "displayName" && dict_has d "id"
  | _ => false
  end.

(** A name passes the field filter. *)
Definition kept_name (s : string) : bool :=
  negb (str_in s COLUMNS_TO_IGNORE)
  && negb (re_match_str (re_compile COLUMN_PATTERN_TO_IGNORE) s).

(** [name] is the first entry of the map, in its order, whose id equals
    the target id. *)
Definition resolves_to (lists_dict : lists_map) (target_list_id : json)
    (name : pykey) : Prop :=
  exists earlier id later,
    lists_dict = earlier ++ (name, id) :: later
    /\ py_eq id target_list_id = true
    /\ Forall (fun entry => py_eq (snd entry) target_list_id = false) earlier.

(** No entry of the map has the target id. *)
Definition dangling (lists_dict : lists_map) (target_list_id : json) : Prop :=
  Forall (fun entry => py_eq (snd entry) target_list_id = false) lists_dict.

(** The edges that one column of a collection contributes. *)
Definition field_edges (lists_dict : lists_map) (list_name : pykey) (c : column)
  : list (pykey * pykey * string) :=
  match column_relationship list_name c with
  | Ok rels => flat_map (edge_of find_target_table lists_dict) rels
  | Raise _ => []
  end.

Definition table_edges (lists_dict : lists_map) (t : table)
  : list (pykey * pykey * string) :=
  flat_map (field_edges lists_dict (t_name t)) (t_columns t).

(** The lookup field [c] refers to the collection [name] of the map,
    and that name is truthy (for a string: not empty). *)
Definition lookup_to (lists_dict : lists_map) (c : column) (name : pykey) : Prop :=
  exists target,
    td_type (col_type_details c) = "lookup"
    /\ py_get (td_details (col_type_details c)) "listId" JNull = Ok target
    /\ truthy target = true
    /\ resolves_to lists_dict target name
    /\ key_truthy name = true.

(** The call failed, or it answered an object without a [value] key. *)
Definition listing_failed (response : option json) : Prop :=
  response = None
  \/ exists d, response = Some (JObj d) /\ dict_has d "value" = false.

Definition empty_table (list_name : pykey) : table :=
  {| t_name := list_name; t_columns := []; t_relationships := [] |}.

(** ** Scenarios *)

Definition listing (items : list json) : json := JObj [("value", JArr items)].

Definition collection (displayName id : string) : json :=
  JObj [("id", JStr id); ("displayName", JStr displayName)].

(** Scenario B: the source lists [Documents] and [Tasks]. *)
Definition scenario_B : MetadataSource := {|
  lists_response := Some (listing [collection "Documents" "D0"; collection "Tasks" "T1"]);
  columns_response := fun list_id =>
    Some (listing [JObj [("name", JStr "Title"); ("text", JObj [])]])
|}.

Definition graph_B : Digraph := {|
  nodes := [(KStr "Tasks", table_label (KStr "Tasks")
               [ {| col_name := "Title"; col_id := JNull;
                    col_required := JBool false;
                    col_type_details :=
                      {| td_type := "text"; td_details := JObj [] |} |} ])];
  edges := []
|}.

(** Two collections of the same display name, the later with id [id2]. *)
Definition scenario_same_name : MetadataSource := {|
  lists_response :=
    Some (listing [collection "Tasks" "T1"; collection "Orders" "O1";
                   collection "Tasks" "T2"]);
  columns_response := fun list_id => Some (listing [])
|}.

(** A listing of columns whose one field descriptor has no [name]. *)
Definition scenario_nameless : MetadataSource := {|
  lists_response := Some (listing [collection "Tasks" "T1"]);
  columns_response := fun list_id =>
    Some (listing [JObj [("id", JStr "c1"); ("text", JObj [])]])
|}.

Definition text_column (name : string) : json :=
  JObj [("name", JStr name); ("text", JObj [])].

Definition lookup_column (name target : string) : json :=
  JObj [("name", JStr name); ("lookup", JObj [("listId", JStr target)])].

Definition kept_column (name type : string) (details : json) : column :=
  {| col_name := name; col_id := JNull; col_required := JBool false;
     col_type_details := {| td_type := type; td_details := details |} |}.

(** Scenario A: [Orders] refers to [Customers] through [CustomerRef];
    it also has a system field, a field with an encoded colon and a
    lookup into a list that is not retained. *)
Definition scenario_A : MetadataSource := {|
  lists_response :=
    Some (listing [collection "Orders" "O1"; collection "Customers" "C1"]);
  columns_response := fun list_id =>
    if py_eq list_id (JStr "O1") then
      Some (listing [text_column "Title";
                     JObj [("name", JStr "ID"); ("number", JObj [])];
                     lookup_column "Author_x003a_Name" "U1";
                     lookup_column "CustomerRef" "C1";
                     lookup_column "ArchiveRef" "Z9"])
    else if py_eq list_id (JStr "C1") then Some (listing [text_column "Name"])
    else None
|}.

Definition lists_A : lists_map := [(KStr "Orders", JStr "O1"); (KStr "Customers", JStr "C1")].

Definition columns_A_orders : list column :=
  [ kept_column "Title" "text" (JObj []);
    kept_column "CustomerRef" "lookup" (JObj [("listId", JStr "C1")]);
    kept_column "ArchiveRef" "lookup" (JObj [("listId", JStr "Z9")]) ].

Definition graph_A : Digraph := {|
  nodes := [ (KStr "Orders", table_label (KStr "Orders") columns_A_orders);
             (KStr "Customers",
              table_label (KStr "Customers") [kept_column "Name" "text" (JObj [])]) ];
  edges := [ (KStr "Orders", KStr "Customers", "CustomerRef") ]
|}.

Definition tables_A : list table :=
  [ {| t_name := KStr "Orders"; t_columns := columns_A_orders;
       t_relationships := [ (KStr "Orders", JStr "C1", "CustomerRef");
                            (KStr "Orders", JStr "Z9", "ArchiveRef") ] |};
    {| t_name := KStr "Customers";
       t_columns := [kept_column "Name" "text" (JObj [])];
       t_relationships := [] |} ].

(** A collection with an empty display name, and a lookup that refers
    to it. *)
Definition scenario_unnamed : MetadataSource := {|
  lists_response :=
    Some (listing [collection "" "L0"; collection "Orders" "O1"]);
  columns_response := fun list_id =>
    if py_eq list_id (JStr "O1") then Some (listing [lookup_column "Ref" "L0"])
    else Some (listing [])
|}.

Definition lists_unnamed : lists_map := [(KStr "", JStr "L0"); (KStr "Orders", JStr "O1")].

Definition tables_unnamed : list table :=
  [ {| t_name := KStr ""; t_columns := []; t_relationships := [] |};
    {| t_name := KStr "Orders";
       t_columns := [kept_column "Ref" "lookup" (JObj [("listId", JStr "L0")])];
       t_relationships := [(KStr "Orders", JStr "L0", "Ref")] |} ].

Definition graph_unnamed : Digraph := {|
  nodes := map table_node tables_unnamed;
  edges := []
|}.

(** Scenario D: two lookups of [Orders], into [Customers] and [Products]. *)
Definition scenario_D : MetadataSource := {|
  lists_response :=
    Some (listing [collection "Orders" "O1"; collection "Customers" "C1";
                   collection "Products" "P1"]);
  columns_response := fun list_id =>
    if py_eq list_id (JStr "O1") then
      Some (listing [lookup_column "CustomerRef" "C1"; text_column "Title";
                     lookup_column "ProductRef" "P1"])
    else Some (listing [])
|}.

Definition lists_D : lists_map :=
  [(KStr "Orders", JStr "O1"); (KStr "Customers", JStr "C1");
   (KStr "Products", JStr "P1")].

Definition graph_D : Digraph := {|
  nodes :=
    [ (KStr "Orders",
       table_label (KStr "Orders")
         [ kept_column "CustomerRef" "lookup" (JObj [("listId", JStr "C1")]);
           kept_column "Title" "text" (JObj []);
           kept_column "ProductRef" "lookup" (JObj [("listId", JStr "P1")]) ]);
      (KStr "Customers", table_label (KStr "Customers") []);
      (KStr "Products", table_label (KStr "Products") []) ];
  edges := [ (KStr "Orders", KStr "Customers", "CustomerRef");
             (KStr "Orders", KStr "Products", "ProductRef") ]
|}.

(** Scenario C: the field listing of [Tasks] fails. *)
Definition scenario_C : MetadataSource := {|
  lists_response := Some (listing [collection "Tasks" "T1"; collection "Orders" "O1"]);
  columns_response := fun list_id =>
    if py_eq list_id (JStr "T1") then None
    else Some (listing [text_column "Title"])
|}.

Definition lists_C : lists_map := [(KStr "Tasks", JStr "T1"); (KStr "Orders", JStr "O1")].

Definition graph_C : Digraph := {|
  nodes := [ (KStr "Tasks", table_label (KStr "Tasks") []);
             (KStr "Orders",
              table_label (KStr "Orders") [kept_column "Title" "text" (JObj [])]) ];
  edges := []
|}.

(** ** Notions used in the further properties *)

(** The entry that an item of the listing of collections adds to the
    map: none for an item that is no collection descriptor, whose
    display name is ignored, or whose display name is no dict key. *)
Definition entry_of (ignore : list string) (item : json) : list (pykey * json) :=
  match item with
  | JObj d =>
      match dict_get d "displayName", dict_get d "id" with
      | Some displayName, Some id =>
          if py_in_strs displayName ignore then []
          else match hash_key displayName with
               | Ok key => [(key, id)]
               | Raise _ => []
               end
      | _, _ => []
      end
  | _ => []
  end.

(** The warnings that a listing of collections gives rise to. *)
Definition warnings_of (items : list json) : list log_record :=
  map Warning_unexpected_item
      (filter (fun item => negb (is_collection_descriptor item)) items).

(** The map without the entry of a display name. *)
Definition without_name (name : string) (lists_dict : lists_map) : lists_map :=
  filter (fun entry => negb (key_eqb (fst entry) (KStr name))) lists_dict.

(** The result of a computation, mapped. *)
Definition map_outcome {A B : Type} (f : A -> B) (c : M A) : M B :=
  (logged c, match outcome c with Ok a => Ok (f a) | Raise e => Raise e end).

(** What is wrong with an item of a listing of columns, for
    [fetch_columns]: it has no [get] method, or its name is no string. *)
Definition bad_descriptor (item : json) : option exn :=
  match item with
  | JObj d =>
      match dict_get d "name" with
      | None => None
      | Some (JStr _) => None
      | Some _ => Some TypeError
      end
  | _ => Some AttributeError
  end.

(** [col.get("name", "")] on a field descriptor. *)
Definition name_of (item : json) : string :=
  match item with
  | JObj d => match dict_get d "name" with Some (JStr s) => s | _ => "" end
  | _ => ""
  end.

(** The details of a lookup column are a dict. *)
Definition lookup_details_ok (c : column) : bool :=
  if String.eqb (td_type (col_type_details c)) "lookup" then
    match td_details (col_type_details c) with
    | JObj _ => true
    | _ => false
    end
  else true.

(** The record is a [Generating table for ...] line. *)
Definition is_info (record : log_record) : bool :=
  match record with
  | Info_generating_table _ => true
  | _ => false
  end.

(** The facet that classifies a field descriptor as a lookup, when it
    is one, is a dict. *)
Definition lookup_facet_ok (item : json) : bool :=
  match item with
  | JObj d =>
      if dict_has d "text" then true
      else match dict_get d "lookup" with
           | Some (JObj _) => true
           | Some _ => false
           | None => true
           end
  | _ => true
  end.

(** The display name of an item, when it has one, is a string. *)
Definition string_name (item : json) : bool :=
  match item with
  | JObj d =>
      match dict_get d "displayName" with
      | Some (JStr _) => true
      | Some _ => false
      | None => true
      end
  | _ => true
  end.

(** A source that answers as the Graph API documents: the listing of
    collections and every listing of columns is unusable or a list of
    items, the display names are strings, the field descriptors are
    dicts with string names, and lookup facets are dicts. *)
Definition conformant (source : MetadataSource) : Prop :=
  (exists items,
      listed_items (lists_response source) = Ok items
      /\ Forall (fun item => string_name item = true) items)
  /\ forall list_id,
       exists cols,
         listed_items (columns_response source list_id) = Ok cols
         /\ Forall (fun col => bad_descriptor col = None) cols
         /\ Forall (fun col => lookup_facet_ok col = true) cols.

(** The column that [fetch_columns] keeps for a field descriptor, if
    it keeps one. *)
Definition column_of (item : json) : list column :=
  match item with
  | JObj d =>
      if kept_name (name_of item) then
        match get_column_type item with
        | Ok details =>
            [ {| col_name := name_of item;
                 col_id := match dict_get d "id" with
                           | Some id => id
                           | None => JNull
                           end;
                 col_required := match dict_get d "required" with
                                 | Some required => required
                                 | None => JBool false
                                 end;
                 col_type_details := details |} ]
        | Raise _ => []
        end
      else []
  | _ => []
  end.

(** Every collection descriptor of the listing that has the target id
    has a display name of the ignore-set. *)
Definition only_ignored (ignore : list string) (items : list json) (target : json)
  : Prop :=
  forall d id,
    In (JObj d) items ->
    dict_get d "id" = Some id ->
    py_eq id target = true ->
    exists name, dict_get d "displayName" = Some (JStr name) /\ In name ignore.

(** * Properties *)

(** ** The Python operations at work *)

Example membership_in_a_string :
  py_contains "value" (JStr "no value here") = Ok true
  /\ py_getitem (JStr "no value here") "value" = Raise TypeError.
Proof. split; reflexivity. Qed.

Example membership_in_a_number : no_value (JNum 5) = Raise TypeError.
Proof. reflexivity. Qed.

Example empty_payloads_have_no_value :
  no_value JNull = Ok true /\ no_value (JObj []) = Ok true
  /\ no_value (JArr []) = Ok true /\ no_value (JStr "") = Ok true.
Proof. repeat split; reflexivity. Qed.

Example true_and_one_are_one_key :
  dict_set [(KBool true, JStr "a")] (KInt 1) (JStr "b") = [(KBool true, JStr "b")].
Proof. reflexivity. Qed.

Example dicts_compare_as_sets :
  py_eq (JObj [("a", JNum 1); ("b", JArr [JBool true])])
        (JObj [("b", JArr [JNum 1]); ("a", JBool true)]) = true.
Proof. reflexivity. Qed.

Example classifier_on_a_string : get_column_type (JStr "context") = Raise TypeError.
Proof. reflexivity. Qed.

Example name_that_is_not_a_string :
  keep_column [] (JObj [("name", JNull)]) = Raise TypeError
  /\ keep_column [] (JStr "name") = Raise AttributeError.
Proof. split; reflexivity. Qed.

Example lookup_details_that_are_no_dict :
  add_row (KStr "Orders") ("", [])
    {| col_name := "Ref"; col_id := JNull; col_required := JBool false;
       col_type_details := {| td_type := "lookup"; td_details := JNull |} |}
  = Raise AttributeError.
Proof. reflexivity. Qed.

Example pattern_on_names :
  map (re_match_str (re_compile COLUMN_PATTERN_TO_IGNORE))
      ["Author_x003a_Name"; "x003a"; "Title"; "x003"; String newline "x003a"]
  = [true; true; false; false; false].
Proof. reflexivity. Qed.

Example scenario_nameless_columns :
  fetch_columns scenario_nameless (JStr "T1")
  = ([], Ok [ {| col_name := ""; col_id := JStr "c1"; col_required := JBool false;
                 col_type_details := {| td_type := "text"; td_details := JObj [] |} |} ]).
Proof. reflexivity. Qed.

(** ** Strings and lists of strings *)

Lemma append_assoc (a b c : string) : ((a ++ b) ++ c = a ++ (b ++ c))%string.
Proof.
  induction a as [|ch a IH]; simpl; [reflexivity | now rewrite IH].
Qed.

Lemma append_empty_r (a : string) : (a ++ "" = a)%string.
Proof.
  induction a as [|ch a IH]; simpl; [reflexivity | now rewrite IH].
Qed.

Lemma concat_empty_cons (x : string) (xs : list string) :
  String.concat "" (x :: xs) = (x ++ String.concat "" xs)%string.
Proof.
  destruct xs as [|y ys]; simpl.
  - now rewrite append_empty_r.
  - reflexivity.
Qed.

Lemma str_in_In (s : string) (l : list string) : str_in s l = true <-> In s l.
Proof.
  unfold str_in. rewrite existsb_exists. split.
  - intros [x [Hin Heq]]. apply String.eqb_eq in Heq. now subst.
  - intros Hin. exists s. split; [assumption | apply String.eqb_refl].
Qed.

Lemma str_in_false (s : string) (l : list string) : str_in s l = false <-> ~ In s l.
Proof.
  rewrite <- str_in_In. destruct (str_in s l); split; congruence.
Qed.

(** ** The monads *)

Lemma outcome_bind {A B} (c : M A) (k : A -> M B) :
  outcome (bind c k)
  = match outcome c with Ok a => outcome (k a) | Raise e => Raise e end.
Proof.
  destruct c as [l [a|e]]; simpl; [|reflexivity].
  now destruct (k a).
Qed.

Lemma logged_bind {A B} (c : M A) (k : A -> M B) :
  logged (bind c k)
  = logged c ++ match outcome c with Ok a => logged (k a) | Raise _ => [] end.
Proof.
  destruct c as [l [a|e]]; simpl.
  - now destruct (k a).
  - now rewrite app_nil_r.
Qed.

Lemma outcome_lift {A} (r : result A) : outcome (lift r) = r.
Proof. reflexivity. Qed.

Lemma outcome_fetch_data (response : option json) :
  outcome (fetch_data response)
  = Ok match response with Some body => body | None => JNull end.
Proof. now destruct response. Qed.

Lemma traverse_app {A B} (f : A -> result B) (xs ys : list A) :
  traverse f (xs ++ ys)
  = (us <- traverse f xs ;; vs <- traverse f ys ;; Ok (us ++ vs)).
Proof.
  induction xs as [|x xs IH]; simpl.
  - now destruct (traverse f ys).
  - destruct (f x) as [y|e]; [|reflexivity].
    rewrite IH. destruct (traverse f xs) as [us|e]; [|reflexivity].
    now destruct (traverse f ys).
Qed.

Lemma traverse_Forall2 {A B} (f : A -> result B) (xs : list A) (ys : list B) :
  traverse f xs = Ok ys <-> Forall2 (fun x y => f x = Ok y) xs ys.
Proof.
  revert ys. induction xs as [|x xs IH]; intros ys; simpl.
  - split.
    + intros H. injection H as <-. constructor.
    + intros H. now inversion H.
  - split.
    + destruct (f x) as [y|e] eqn:Hx; [|discriminate].
      destruct (traverse f xs) as [zs|e] eqn:Hxs; [|discriminate].
      intros H. injection H as <-. constructor; [assumption | now apply IH].
    + intros H. inversion H as [|x' y xs' zs Hx Hrest]; subst.
      rewrite Hx. apply IH in Hrest. now rewrite Hrest.
Qed.

(** ** The loops of [generate_uml_graph] *)

Lemma add_row_relationship (list_name : pykey) (label : string)
    (rels : list relationship) (c : column) :
  add_row list_name (label, rels) c
  = (r <- column_relationship list_name c ;;
     Ok ((label ++ column_row c)%string, rels ++ r)).
Proof.
  unfold add_row, column_relationship, column_row.
  destruct (String.eqb (td_type (col_type_details c)) "lookup"); simpl.
  - destruct (py_get (td_details (col_type_details c)) "listId" JNull) as [v|e];
      simpl; [|reflexivity].
    destruct (truthy v); simpl; [reflexivity | now rewrite app_nil_r].
  - now rewrite app_nil_r.
Qed.

Lemma add_rows_relationships (list_name : pykey) (columns : list column) :
  forall (label : string) (rels : list relationship),
    for_each columns (add_row list_name) (label, rels)
    = (rs <- traverse (column_relationship list_name) columns ;;
       Ok ((label ++ table_rows columns)%string, rels ++ concat rs)).
Proof.
  induction columns as [|c columns IH]; intros label rels.
  - simpl. now rewrite append_empty_r, app_nil_r.
  - cbn [for_each traverse]. rewrite add_row_relationship.
    unfold table_rows. cbn [map]. rewrite concat_empty_cons.
    cbn [bind result_monad].
    destruct (column_relationship list_name c) as [r|e]; [|reflexivity].
    rewrite IH. cbn [bind result_monad].
    destruct (traverse (column_relationship list_name) columns) as [rs|e];
      [|reflexivity].
    cbn [concat]. now rewrite append_assoc, app_assoc.
Qed.

Lemma add_table_table_of (source : MetadataSource) (graph : Digraph)
    (rels : list relationship) (entry : pykey * json) :
  outcome (add_table source (graph, rels) entry)
  = (t <- node_table source entry ;;
     Ok ({| nodes := nodes graph ++ [table_node t]; edges := edges graph |},
         rels ++ t_relationships t)).
Proof.
  destruct entry as [list_name list_id].
  unfold add_table, node_table, table_of. rewrite outcome_bind. cbn [fst snd].
  cbn [bind result_monad].
  destruct (outcome (fetch_columns source list_id)) as [columns|e]; [|reflexivity].
  rewrite outcome_bind. cbn [log outcome snd].
  rewrite outcome_bind, outcome_lift, add_rows_relationships.
  cbn [bind result_monad].
  destruct (traverse (column_relationship list_name) columns) as [rs|e];
    [|reflexivity].
  rewrite outcome_bind, outcome_lift. unfold graph_node.
  destruct (string_key list_name); reflexivity.
Qed.

Lemma add_tables_traverse (source : MetadataSource) (lists_dict : lists_map) :
  forall (graph : Digraph) (rels : list relationship),
    outcome (for_each lists_dict (add_table source) (graph, rels))
    = (tables <- traverse (node_table source) lists_dict ;;
       Ok ({| nodes := nodes graph ++ map table_node tables;
              edges := edges graph |},
           rels ++ flat_map t_relationships tables)).
Proof.
  induction lists_dict as [|entry rest IH]; intros graph rels.
  - simpl. rewrite !app_nil_r. now destruct graph.
  - cbn [for_each traverse]. rewrite outcome_bind, add_table_table_of.
    cbn [bind result_monad].
    destruct (node_table source entry) as [t|e]; [|reflexivity].
    rewrite IH. cbn [bind result_monad].
    destruct (traverse (node_table source) rest) as [tables|e]; [|reflexivity].
    cbn [map flat_map nodes edges].
    now rewrite <- !app_assoc.
Qed.

Lemma add_edges_edge_of (lookup_target : lists_map -> json -> option pykey)
    (lists_dict : lists_map) (rels : list relationship) :
  forall graph : Digraph,
    fold_left (add_edge lookup_target lists_dict) rels graph
    = {| nodes := nodes graph;
         edges := edges graph ++ flat_map (edge_of lookup_target lists_dict) rels |}.
Proof.
  induction rels as [|[[source_table target] column_name] rels IH]; intros graph.
  - simpl. rewrite app_nil_r. now destruct graph.
  - cbn [fold_left flat_map]. rewrite IH. unfold add_edge, edge_of.
    destruct (lookup_target lists_dict target) as [name|]; [|reflexivity].
    destruct (key_truthy name); [|reflexivity].
    cbn [graph_edge nodes edges]. now rewrite <- app_assoc.
Qed.

(** The loops of [generate_uml_graph] compute [assemble]. *)
Lemma generate_with_assemble (lookup_target : lists_map -> json -> option pykey)
    (source : MetadataSource) (lists_dict : lists_map) :
  outcome (generate_with source lookup_target lists_dict)
  = assemble lookup_target source lists_dict.
Proof.
  unfold generate_with, assemble. rewrite outcome_bind, add_tables_traverse.
  cbn [bind result_monad].
  destruct (traverse (node_table source) lists_dict) as [tables|e]; [|reflexivity].
  cbn [outcome snd ret M_monad empty_graph nodes edges app].
  now rewrite add_edges_edge_of.
Qed.

(** The two searches for the target table are the same function. *)
Lemma next_target_table_find (items : lists_map) (target_list_id : json) :
  next_target_table items target_list_id = find_target_table items target_list_id.
Proof.
  unfold next_target_table.
  induction items as [|[table_name table_id] rest IH]; [reflexivity|].
  cbn [filter snd find_target_table].
  destruct (py_eq table_id target_list_id); [reflexivity | exact IH].
Qed.

(** ** Field classifier *)

Lemma get_column_type_loop_first (d : pydict) (items : list (string * string)) :
  forall (i : nat) (key tag : string) (v : json),
    nth_error items i = Some (key, tag) ->
    dict_get d key = Some v ->
    (forall j key' tag', j < i -> nth_error items j = Some (key', tag') ->
                         dict_has d key' = false) ->
    get_column_type_loop items (JObj d) = Ok {| td_type := tag; td_details := v |}.
Proof.
  induction items as [|[k t] items IH]; intros i key tag v Hnth Hget Hbefore.
  - now destruct i.
  - destruct i as [|i]; simpl in Hnth.
    + injection Hnth as -> ->. simpl. unfold dict_has. now rewrite Hget.
    + simpl. rewrite (Hbefore 0 k t); [|lia|reflexivity].
      apply (IH i key tag v); [assumption | assumption |].
      intros j key' tag' Hlt Hj. apply (Hbefore (S j) key' tag'); [lia | exact Hj].
Qed.

Lemma get_column_type_loop_none (d : pydict) (items : list (string * string)) :
  (forall key, In key (map fst items) -> dict_has d key = false) ->
  get_column_type_loop items (JObj d)
  = Ok {| td_type := "unknown"; td_details := JObj [] |}.
Proof.
  induction items as [|[k t] items IH]; intros Hnone; [reflexivity|].
  simpl. rewrite (Hnone k); [|now left].
  apply IH. intros key Hin. apply Hnone. now right.
Qed.

Lemma get_column_type_loop_total (d : pydict) (items : list (string * string)) :
  exists details, get_column_type_loop items (JObj d) = Ok details.
Proof.
  induction items as [|[k t] items IH]; simpl.
  - eexists. reflexivity.
  - unfold dict_has. destruct (dict_get d k) as [v|]; [|exact IH].
    eexists. reflexivity.
Qed.

(** C1.  In a field descriptor, the classifier key that comes first in
    the fixed order [text, lookup, dateTime, number, choice, boolean,
    person, calculated] decides the classification, however many of
    the other keys the descriptor has: when the key at position [i] of
    the order is in the descriptor and no key at an earlier position
    is, [get_column_type] returns the tag of that key with the
    descriptor's value at that key as the details. *)
Theorem get_column_type_first_match_wins (d : pydict) (i : nat)
    (key tag : string) (v : json) :
  nth_error type_mappings i = Some (key, tag) ->
  dict_get d key = Some v ->
  (forall j key' tag', j < i -> nth_error type_mappings j = Some (key', tag') ->
                       dict_has d key' = false) ->
  get_column_type (JObj d) = Ok {| td_type := tag; td_details := v |}
  /\ tag = key
  /\ map fst type_mappings
     = ["text"; "lookup"; "dateTime"; "number"; "choice"; "boolean"; "person";
        "calculated"].
Proof.
  intros Hnth Hget Hbefore. split; [|split].
  - now apply (get_column_type_loop_first d type_mappings i key).
  - do 8 (destruct i as [|i]; [injection Hnth as <- <-; reflexivity|]).
    now destruct i.
  - reflexivity.
Qed.

(** A descriptor with both [calculated] and [lookup] (and a [name]) is
    a lookup field, and its details are the value at [lookup]. *)
Lemma get_column_type_first_match_wins_witness :
  get_column_type
    (JObj [("name", JStr "Total"); ("calculated", JObj [("format", JStr "sum")]);
           ("lookup", JObj [("listId", JStr "L7")])])
  = Ok {| td_type := "lookup"; td_details := JObj [("listId", JStr "L7")] |}.
Proof.
  apply (get_column_type_first_match_wins
           [("name", JStr "Total"); ("calculated", JObj [("format", JStr "sum")]);
            ("lookup", JObj [("listId", JStr "L7")])] 1 "lookup" "lookup").
  - reflexivity.
  - reflexivity.
  - intros j key' tag' Hlt Hnth. destruct j as [|j]; [|lia].
    injection Hnth as <- _. reflexivity.
Defined.

(** C9.  A field descriptor with none of the eight classifier keys is
    classified [unknown] with an empty details object; and on every
    descriptor, whatever its keys, [get_column_type] returns a
    classification and raises nothing. *)
Theorem get_column_type_unknown (d : pydict) :
  (forall key, In key (map fst type_mappings) -> dict_has d key = false) ->
  get_column_type (JObj d) = Ok {| td_type := "unknown"; td_details := JObj [] |}
  /\ (forall column : pydict, exists details, get_column_type (JObj column) = Ok details).
Proof.
  intros Hnone. split.
  - now apply get_column_type_loop_none.
  - intros column. apply get_column_type_loop_total.
Qed.

Lemma get_column_type_unknown_witness :
  get_column_type (JObj [("name", JStr "Title"); ("id", JStr "c1")])
  = Ok {| td_type := "unknown"; td_details := JObj [] |}.
Proof.
  apply (get_column_type_unknown [("name", JStr "Title"); ("id", JStr "c1")]).
  intros key Hin. simpl in Hin.
  repeat (destruct Hin as [<-|Hin]; [reflexivity|]). destruct Hin.
Defined.

(** ** The collection map *)

Lemma key_eqb_refl (k : pykey) : key_eqb k k = true.
Proof.
  destruct k as [|b|n|s]; simpl.
  - reflexivity.
  - now destruct b.
  - apply Z.eqb_refl.
  - apply String.eqb_refl.
Qed.

Lemma key_eqb_sym (a b : pykey) : key_eqb a b = key_eqb b a.
Proof.
  destruct a as [|x|n|s], b as [|y|m|t]; simpl; try reflexivity.
  - now destruct x, y.
  - apply Z.eqb_sym.
  - apply String.eqb_sym.
Qed.

Lemma key_eqb_trans (a b c : pykey) :
  key_eqb a b = true -> key_eqb b c = true -> key_eqb a c = true.
Proof.
  destruct a as [|x|n|s], b as [|y|m|t], c as [|z|o|u]; simpl;
    try discriminate; try reflexivity;
    rewrite ?Z.eqb_eq, ?String.eqb_eq, ?Bool.eqb_true_iff;
    intros H1 H2; subst; try reflexivity;
    repeat match goal with x : bool |- _ => destruct x end;
    simpl in *; congruence.
Qed.

Lemma key_eqb_str (k : pykey) (s : string) :
  key_eqb k (KStr s) = true -> k = KStr s.
Proof.
  destruct k as [|b|n|t]; simpl; try discriminate.
  intros H. apply String.eqb_eq in H. now subst.
Qed.

Lemma dict_set_keys (d : lists_map) (key : pykey) (value : json) (k : pykey) :
  In k (map fst (dict_set d key value)) -> In k (map fst d) \/ k = key.
Proof.
  induction d as [|[k0 v0] d IH]; simpl.
  - intros [<-|[]]. now right.
  - destruct (key_eqb k0 key); simpl.
    + intros [<-|H]; left; [now left | now right].
    + intros [<-|H]; [left; now left|].
      destruct (IH H) as [H'|H']; [left; now right | now right].
Qed.

Lemma dict_set_values (d : lists_map) (key : pykey) (value : json) (v : json) :
  In v (map snd (dict_set d key value)) -> In v (map snd d) \/ v = value.
Proof.
  induction d as [|[k0 v0] d IH]; simpl.
  - intros [<-|[]]. now right.
  - destruct (key_eqb k0 key); simpl.
    + intros [<-|H]; [now right | left; now right].
    + intros [<-|H]; [left; now left|].
      destruct (IH H) as [H'|H']; [left; now right | now right].
Qed.

Lemma dict_lookup_set (d : lists_map) (key : pykey) (value : json) (k : pykey) :
  dict_lookup (dict_set d key value) k
  = if key_eqb key k then Some value else dict_lookup d k.
Proof.
  induction d as [|[k0 v0] d IH]; simpl.
  - reflexivity.
  - destruct (key_eqb k0 key) eqn:H0; simpl.
    + destruct (key_eqb k0 k) eqn:H1.
      * rewrite (key_eqb_trans key k0 k); [reflexivity | | assumption].
        now rewrite key_eqb_sym.
      * destruct (key_eqb key k) eqn:H2; [|reflexivity].
        now rewrite (key_eqb_trans k0 key k H0 H2) in H1.
    + destruct (key_eqb k0 k) eqn:H1; [|exact IH].
      destruct (key_eqb key k) eqn:H2; [|reflexivity].
      rewrite key_eqb_sym in H2.
      now rewrite (key_eqb_trans k0 k key H1 H2) in H0.
Qed.

(** ** [fetch_sharepoint_lists] *)

(** The entry of the map an item of the listing stands for, if any. *)
Lemma keep_list_outcome (ignore : list string) (lists_dict : lists_map) (item : json) :
  outcome (keep_list ignore lists_dict item)
  = match item with
    | JObj d =>
        match dict_get d "displayName", dict_get d "id" with
        | Some displayName, Some id =>
            if py_in_strs displayName ignore then Ok lists_dict
            else key <- hash_key displayName ;; Ok (dict_set lists_dict key id)
        | _, _ => Ok lists_dict
        end
    | _ => Ok lists_dict
    end.
Proof.
  destruct item as [| | | | |d]; try reflexivity.
  unfold keep_list, dict_has, py_getitem.
  destruct (dict_get d "displayName") as [displayName|]; [|reflexivity].
  destruct (dict_get d "id") as [id|]; [|reflexivity].
  cbn [andb]. rewrite outcome_bind, outcome_lift.
  destruct (py_in_strs displayName ignore); [reflexivity|].
  cbn [negb]. rewrite outcome_bind, outcome_lift, outcome_bind, outcome_lift.
  now destruct (hash_key displayName).
Qed.

Lemma for_each_invariant {A S : Type} (P : S -> Prop) (body : S -> A -> M S)
    (xs : list A) :
  (forall s x s', In x xs -> P s -> outcome (body s x) = Ok s' -> P s') ->
  forall s s', P s -> outcome (for_each xs body s) = Ok s' -> P s'.
Proof.
  induction xs as [|x xs IH]; intros Hstep s s' Hs Hrun.
  - simpl in Hrun. injection Hrun as <-. exact Hs.
  - cbn [for_each] in Hrun. rewrite outcome_bind in Hrun.
    destruct (outcome (body s x)) as [s1|e] eqn:Hx; [|discriminate].
    apply (IH (fun s0 y s0' Hy => Hstep s0 y s0' (or_intror Hy)) s1 s');
      [|exact Hrun].
    apply (Hstep s x s1); [now left | exact Hs | exact Hx].
Qed.

Lemma fetch_sharepoint_lists_outcome (ignore : list string) (source : MetadataSource) :
  outcome (fetch_sharepoint_lists ignore source)
  = (items <- listed_items (lists_response source) ;;
     outcome (for_each items (keep_list ignore) [])).
Proof.
  unfold fetch_sharepoint_lists, listed_items.
  rewrite outcome_bind, outcome_fetch_data, outcome_bind, outcome_lift.
  cbn [bind result_monad].
  destruct (no_value _) as [[|]|e]; [reflexivity | | reflexivity].
  rewrite outcome_bind, outcome_lift.
  destruct (py_getitem _ "value") as [value|e]; [|reflexivity].
  rewrite outcome_bind, outcome_lift. cbn [bind result_monad].
  now destruct (py_iter value).
Qed.

Lemma fetch_sharepoint_lists_of_eq (p : program) (source : MetadataSource) :
  fetch_sharepoint_lists_of p source
  = fetch_sharepoint_lists (LISTS_TO_IGNORE_of p) source.
Proof. now destruct p. Qed.

(** Both programs assemble the same graph. *)
Lemma generate_uml_graph_of_assemble (p : program) (source : MetadataSource)
    (lists_dict : lists_map) :
  outcome (generate_uml_graph_of p source lists_dict)
  = assemble find_target_table source lists_dict.
Proof.
  destruct p; cbn [generate_uml_graph_of].
  - apply generate_with_assemble.
  - unfold Main.generate_uml_graph, generate_uml_graph_main.
    rewrite generate_with_assemble. unfold assemble.
    destruct (traverse (node_table source) lists_dict) as [tables|e]; [|reflexivity].
    cbn [bind result_monad]. do 2 f_equal.
    apply flat_map_ext. intros [[s t] c]. unfold edge_of.
    now rewrite next_target_table_find.
Qed.

Lemma main_outcome (source : MetadataSource) (g : Digraph) :
  outcome (Main.main source) = Ok (Some g)
  <-> exists lists_dict,
        lists_dict <> []
        /\ outcome (fetch_sharepoint_lists_of main_py source) = Ok lists_dict
        /\ outcome (generate_uml_graph_of main_py source lists_dict) = Ok g.
Proof.
  unfold Main.main, main. rewrite outcome_bind.
  cbn [fetch_sharepoint_lists_of generate_uml_graph_of].
  unfold Main.fetch_sharepoint_lists, Main.generate_uml_graph.
  destruct (outcome (fetch_sharepoint_lists Main.LISTS_TO_IGNORE source))
    as [[|entry rest]|e].
  - split; [discriminate|]. intros [ld [Hne [Heq _]]]. injection Heq as <-.
    now elim Hne.
  - rewrite outcome_bind.
    destruct (outcome (generate_uml_graph_main source (entry :: rest)))
      as [g'|e] eqn:Hgen.
    + rewrite outcome_bind. cbn [log outcome snd ret M_monad]. split.
      * intros H. injection H as <-. exists (entry :: rest).
        repeat split; [discriminate | assumption].
      * intros [ld [_ [Heq Hg]]]. injection Heq as <-. congruence.
    + split; [discriminate|]. intros [ld [_ [Heq Hg]]].
      injection Heq as <-. congruence.
  - split; [discriminate|]. intros [ld [_ [Heq _]]]. discriminate.
Qed.

(** The nodes are made when the tables are built and the names are
    strings. *)
Lemma node_table_ok (source : MetadataSource) (entry : pykey * json) (t : table) :
  node_table source entry = Ok t
  <-> table_of source entry = Ok t /\ string_key (fst entry) = true.
Proof.
  unfold node_table.
  destruct (table_of source entry) as [t'|e]; cbn [bind result_monad];
    destruct (string_key (fst entry)); split;
    try discriminate; try (intros [H1 H2]; discriminate);
    try (intros [H1 H2]; assumption); intros H; split; auto.
Qed.

Lemma node_tables_tables (source : MetadataSource) (lists_dict : lists_map)
    (tables : list table) :
  traverse (node_table source) lists_dict = Ok tables
  <-> traverse (table_of source) lists_dict = Ok tables
      /\ Forall (fun entry => string_key (fst entry) = true) lists_dict.
Proof.
  rewrite !traverse_Forall2. split.
  - induction 1 as [|entry t ld ts Ht _ [IH1 IH2]]; [split; constructor|].
    apply node_table_ok in Ht. destruct Ht as [Ht Hkey].
    split; constructor; assumption.
  - intros [Htables Hkeys].
    induction Htables as [|entry t ld ts Ht _ IH]; [constructor|].
    inversion Hkeys as [|? ? Hkey Hrest]; subst.
    constructor; [|now apply IH]. apply node_table_ok. now split.
Qed.

Lemma assemble_tables (lookup_target : lists_map -> json -> option pykey)
    (source : MetadataSource) (lists_dict : lists_map) (g : Digraph) :
  assemble lookup_target source lists_dict = Ok g ->
  exists tables,
    traverse (table_of source) lists_dict = Ok tables
    /\ nodes g = map table_node tables
    /\ edges g = flat_map (edge_of lookup_target lists_dict)
                   (flat_map t_relationships tables).
Proof.
  unfold assemble.
  destruct (traverse (node_table source) lists_dict) as [tables|e] eqn:Hn;
    [|discriminate].
  apply node_tables_tables in Hn. destruct Hn as [Ht _].
  cbn [bind result_monad]. intros H. injection H as <-. now exists tables.
Qed.

Lemma table_of_name (source : MetadataSource) (entry : pykey * json) (t : table) :
  table_of source entry = Ok t -> t_name t = fst entry.
Proof.
  unfold table_of.
  destruct (outcome (fetch_columns source (snd entry))) as [columns|e];
    [|discriminate].
  cbn [bind result_monad].
  destruct (traverse _ columns) as [rels|e]; [|discriminate].
  intros H. now injection H as <-.
Qed.

Lemma traverse_table_names (source : MetadataSource) (lists_dict : lists_map)
    (tables : list table) :
  traverse (table_of source) lists_dict = Ok tables ->
  map t_name tables = map fst lists_dict.
Proof.
  rewrite traverse_Forall2. induction 1 as [|entry t ld ts Ht _ IH]; simpl.
  - reflexivity.
  - now rewrite (table_of_name source entry t Ht), IH.
Qed.

(** A node is made for every entry of the collection map, under its key,
    and for nothing else. *)
Lemma assemble_node_names (lookup_target : lists_map -> json -> option pykey)
    (source : MetadataSource) (lists_dict : lists_map) (g : Digraph) :
  assemble lookup_target source lists_dict = Ok g ->
  map fst (nodes g) = map fst lists_dict.
Proof.
  intros H. destruct (assemble_tables _ _ _ _ H) as [tables [Ht [Hn _]]].
  rewrite Hn, map_map. cbn [table_node fst].
  now apply (traverse_table_names source).
Qed.

Lemma fetch_sharepoint_lists_not_ignored (ignore : list string)
    (source : MetadataSource) (lists_dict : lists_map) (name : string) :
  In name ignore ->
  outcome (fetch_sharepoint_lists ignore source) = Ok lists_dict ->
  ~ In (KStr name) (map fst lists_dict).
Proof.
  intros Hname. rewrite fetch_sharepoint_lists_outcome.
  destruct (listed_items (lists_response source)) as [items|e]; [|discriminate].
  cbn [bind result_monad].
  apply (for_each_invariant (fun ld => ~ In (KStr name) (map fst ld))).
  - intros ld item ld' _ Hld. rewrite keep_list_outcome.
    destruct item as [| | | | |d]; try (intros H; now injection H as <-).
    destruct (dict_get d "displayName") as [displayName|];
      [|intros H; now injection H as <-].
    destruct (dict_get d "id") as [id|]; [|intros H; now injection H as <-].
    destruct (py_in_strs displayName ignore) eqn:Hign;
      [intros H; now injection H as <-|].
    destruct (hash_key displayName) as [key|e] eqn:Hkey; [|discriminate].
    cbn [bind result_monad]. intros H. injection H as <-.
    intros Hin. apply dict_set_keys in Hin. destruct Hin as [Hin|Heq].
    + now apply Hld.
    + subst key. destruct displayName; try discriminate.
      simpl in Hkey. injection Hkey as ->. simpl in Hign.
      apply str_in_false in Hign. now apply Hign.
  - simpl. tauto.
Qed.

(** ** Ignored collections *)

(** C4.  A collection whose display name is in the ignore-set of the
    program is not retained by [fetch_sharepoint_lists], whatever the
    source lists, and the graph assembled from the retained
    collections has no node of that name; so has the graph that
    [main] of [main.py] builds. *)
Theorem ignored_collection_has_no_node (p : program) (source : MetadataSource)
    (name : string) (lists_dict : lists_map) (g : Digraph) :
  In name (LISTS_TO_IGNORE_of p) ->
  outcome (fetch_sharepoint_lists_of p source) = Ok lists_dict ->
  outcome (generate_uml_graph_of p source lists_dict) = Ok g ->
  ~ In (KStr name) (map fst lists_dict)
  /\ ~ In (KStr name) (map fst (nodes g))
  /\ (forall g', p = main_py -> outcome (Main.main source) = Ok (Some g') ->
                 ~ In (KStr name) (map fst (nodes g'))).
Proof.
  intros Hname Hfetch Hgen.
  assert (Hkeys : forall ld, outcome (fetch_sharepoint_lists_of p source) = Ok ld ->
                             ~ In (KStr name) (map fst ld)).
  { intros ld Hld. rewrite fetch_sharepoint_lists_of_eq in Hld.
    now apply (fetch_sharepoint_lists_not_ignored (LISTS_TO_IGNORE_of p) source). }
  assert (Hnodes : forall ld g0, outcome (fetch_sharepoint_lists_of p source) = Ok ld ->
                     outcome (generate_uml_graph_of p source ld) = Ok g0 ->
                     ~ In (KStr name) (map fst (nodes g0))).
  { intros ld g0 Hld Hg0. rewrite generate_uml_graph_of_assemble in Hg0.
    rewrite (assemble_node_names _ _ _ _ Hg0). now apply Hkeys. }
  split; [now apply Hkeys | split; [now apply (Hnodes lists_dict)|]].
  intros g' -> Hmain. apply main_outcome in Hmain.
  destruct Hmain as [ld [_ [Hld Hg']]]. now apply (Hnodes ld).
Qed.

(** Scenario B: [Documents] is listed by the source and the graph has
    the one node [Tasks]. *)
Lemma ignored_collection_has_no_node_witness :
  outcome (Main.main scenario_B) = Ok (Some graph_B)
  /\ ~ In (KStr "Documents") (map fst (nodes graph_B)).
Proof.
  split; [reflexivity|].
  refine (proj1 (proj2 (ignored_collection_has_no_node main_py scenario_B
                          "Documents" [(KStr "Tasks", JStr "T1")] graph_B _ _ _))).
  - simpl. tauto.
  - reflexivity.
  - reflexivity.
Defined.

(** ** Last write wins *)

Lemma for_each_app_outcome {A S : Type} (body : S -> A -> M S) (xs ys : list A) :
  forall s : S,
    outcome (for_each (xs ++ ys) body s)
    = match outcome (for_each xs body s) with
      | Ok s' => outcome (for_each ys body s')
      | Raise e => Raise e
      end.
Proof.
  induction xs as [|x xs IH]; intros s; [reflexivity|].
  cbn [app for_each]. rewrite !outcome_bind.
  destruct (outcome (body s x)) as [s1|e]; [apply IH | reflexivity].
Qed.

Lemma dict_set_distinct (d : lists_map) (key : pykey) (value : json) :
  distinct_keys d -> distinct_keys (dict_set d key value).
Proof.
  induction 1 as [|k v d Hk Hd IH]; simpl.
  - constructor; [intros k' []|constructor].
  - destruct (key_eqb k key) eqn:Heq.
    + now constructor.
    + constructor; [|exact IH].
      intros k' Hin. apply dict_set_keys in Hin. destruct Hin as [Hin| ->].
      * now apply Hk.
      * exact Heq.
Qed.

Lemma distinct_keys_lookup (d : lists_map) (k : pykey) (v : json) :
  distinct_keys d -> In (k, v) d -> dict_lookup d k = Some v.
Proof.
  induction 1 as [|k0 v0 d Hk Hd IH]; simpl; [intros []|].
  intros [Heq|Hin].
  - injection Heq as -> ->. now rewrite key_eqb_refl.
  - rewrite (Hk k); [now apply IH|].
    apply (in_map fst) in Hin. exact Hin.
Qed.

Lemma keep_list_total (ignore : list string) (lists_dict : lists_map) (item : json) :
  hashable_name item = true ->
  exists lists_dict', outcome (keep_list ignore lists_dict item) = Ok lists_dict'.
Proof.
  intros Hhash. rewrite keep_list_outcome.
  destruct item as [| | | | |d]; try (eexists; reflexivity).
  simpl in Hhash.
  destruct (dict_get d "displayName") as [displayName|]; [|eexists; reflexivity].
  destruct (dict_get d "id") as [id|]; [|eexists; reflexivity].
  destruct (py_in_strs displayName ignore); [eexists; reflexivity|].
  destruct displayName; try discriminate; eexists; reflexivity.
Qed.

Lemma keep_lists_total (ignore : list string) (items : list json) :
  Forall (fun item => hashable_name item = true) items ->
  forall lists_dict,
  exists lists_dict', outcome (for_each items (keep_list ignore) lists_dict) = Ok lists_dict'.
Proof.
  induction 1 as [|item items Hitem _ IH]; intros ld.
  - exists ld. reflexivity.
  - cbn [for_each]. rewrite outcome_bind.
    destruct (keep_list_total ignore ld item Hitem) as [ld1 ->]. apply IH.
Qed.

Lemma keep_list_distinct (ignore : list string) (lists_dict lists_dict' : lists_map)
    (item : json) :
  distinct_keys lists_dict ->
  outcome (keep_list ignore lists_dict item) = Ok lists_dict' ->
  distinct_keys lists_dict'.
Proof.
  intros Hd. rewrite keep_list_outcome.
  destruct item as [| | | | |d]; try (intros H; now injection H as <-).
  destruct (dict_get d "displayName") as [displayName|];
    [|intros H; now injection H as <-].
  destruct (dict_get d "id") as [id|]; [|intros H; now injection H as <-].
  destruct (py_in_strs displayName ignore); [intros H; now injection H as <-|].
  destruct (hash_key displayName) as [key|e]; [|discriminate].
  cbn [bind result_monad]. intros H. injection H as <-.
  now apply dict_set_distinct.
Qed.

Lemma keep_list_other_name (ignore : list string) (lists_dict lists_dict' : lists_map)
    (item : json) (name : string) :
  describes name item = false ->
  outcome (keep_list ignore lists_dict item) = Ok lists_dict' ->
  dict_lookup lists_dict' (KStr name) = dict_lookup lists_dict (KStr name).
Proof.
  intros Hother. rewrite keep_list_outcome.
  destruct item as [| | | | |d]; try (intros H; now injection H as <-).
  simpl in Hother.
  destruct (dict_get d "displayName") as [displayName|];
    [|intros H; now injection H as <-].
  destruct (dict_get d "id") as [id|]; [|intros H; now injection H as <-].
  destruct (py_in_strs displayName ignore); [intros H; now injection H as <-|].
  destruct (hash_key displayName) as [key|e] eqn:Hkey; [|discriminate].
  cbn [bind result_monad]. intros H. injection H as <-.
  rewrite dict_lookup_set.
  destruct (key_eqb key (KStr name)) eqn:Heq; [|reflexivity].
  apply key_eqb_str in Heq. subst key.
  destruct displayName; try discriminate.
  simpl in Hkey. injection Hkey as ->. now rewrite String.eqb_refl in Hother.
Qed.

Lemma keep_list_named (ignore : list string) (lists_dict : lists_map)
    (d : pydict) (name : string) (id : json) :
  dict_get d "displayName" = Some (JStr name) ->
  dict_get d "id" = Some id ->
  ~ In name ignore ->
  outcome (keep_list ignore lists_dict (JObj d))
  = Ok (dict_set lists_dict (KStr name) id).
Proof.
  intros Hname Hid Hign. rewrite keep_list_outcome, Hname, Hid.
  cbn [py_in_strs]. apply str_in_false in Hign. now rewrite Hign.
Qed.

Lemma listed_items_value (response : pydict) (items : list json) :
  dict_get response "value" = Some (JArr items) ->
  listed_items (Some (JObj response)) = Ok items.
Proof.
  intros Hvalue. unfold listed_items, no_value.
  assert (Htruthy : truthy (JObj response) = true).
  { destruct response; [discriminate | reflexivity]. }
  rewrite Htruthy. cbn [negb py_contains bind result_monad].
  unfold dict_has. rewrite Hvalue. cbn [negb py_getitem]. now rewrite Hvalue.
Qed.

Lemma fetch_sharepoint_lists_distinct (ignore : list string)
    (source : MetadataSource) (lists_dict : lists_map) :
  outcome (fetch_sharepoint_lists ignore source) = Ok lists_dict ->
  distinct_keys lists_dict.
Proof.
  rewrite fetch_sharepoint_lists_outcome.
  destruct (listed_items (lists_response source)) as [items|e]; [|discriminate].
  cbn [bind result_monad].
  apply (for_each_invariant distinct_keys); [|constructor].
  intros ld item ld' _. apply keep_list_distinct.
Qed.

(** C7.  When the source lists two collections of the same display
    name, which is not in the ignore-set, [fetch_sharepoint_lists]
    returns a map (it does not raise) in which that name has the id of
    the later of the two, the last collection of that name in the
    listing, and has no other id.  The other items of the listing are
    arbitrary, provided their display names can be dict keys. *)
Theorem later_collection_wins (p : program) (source : MetadataSource)
    (response : pydict) (before between after : list json) (first later : pydict)
    (name : string) (id1 id2 : json) :
  lists_response source = Some (JObj response) ->
  dict_get response "value"
  = Some (JArr (before ++ JObj first :: between ++ JObj later :: after)) ->
  dict_get first "displayName" = Some (JStr name) ->
  dict_get first "id" = Some id1 ->
  dict_get later "displayName" = Some (JStr name) ->
  dict_get later "id" = Some id2 ->
  ~ In name (LISTS_TO_IGNORE_of p) ->
  Forall (fun item => describes name item = false) after ->
  Forall (fun item => hashable_name item = true) (before ++ between ++ after) ->
  exists lists_dict,
    outcome (fetch_sharepoint_lists_of p source) = Ok lists_dict
    /\ dict_lookup lists_dict (KStr name) = Some id2
    /\ (forall id, In (KStr name, id) lists_dict -> id = id2).
Proof.
  intros Hresp Hvalue Hn1 Hi1 Hn2 Hi2 Hign Hlast Hhash.
  apply Forall_app in Hhash. destruct Hhash as [Hbefore Hhash].
  apply Forall_app in Hhash. destruct Hhash as [Hbetween Hafter].
  set (ignore := LISTS_TO_IGNORE_of p) in *.
  destruct (keep_lists_total ignore before Hbefore []) as [ld0 H0].
  destruct (keep_lists_total ignore between Hbetween (dict_set ld0 (KStr name) id1))
    as [ld1 H1].
  destruct (keep_lists_total ignore after Hafter (dict_set ld1 (KStr name) id2))
    as [ld2 H2].
  assert (Hrun : outcome (fetch_sharepoint_lists ignore source) = Ok ld2).
  { rewrite fetch_sharepoint_lists_outcome, Hresp.
    rewrite (listed_items_value response _ Hvalue). cbn [bind result_monad].
    rewrite for_each_app_outcome, H0. cbn [for_each]. rewrite outcome_bind.
    rewrite (keep_list_named ignore ld0 first name id1 Hn1 Hi1 Hign).
    rewrite for_each_app_outcome, H1. cbn [for_each]. rewrite outcome_bind.
    rewrite (keep_list_named ignore ld1 later name id2 Hn2 Hi2 Hign).
    exact H2. }
  exists ld2. rewrite fetch_sharepoint_lists_of_eq. fold ignore.
  assert (Hlookup : dict_lookup ld2 (KStr name) = Some id2).
  { revert H2.
    apply (for_each_invariant (fun ld => dict_lookup ld (KStr name) = Some id2)).
    - intros ld item ld' Hin Hld Hstep.
      rewrite (keep_list_other_name ignore ld ld' item name); [exact Hld| |exact Hstep].
      rewrite Forall_forall in Hlast. now apply Hlast.
    - rewrite dict_lookup_set. now rewrite key_eqb_refl. }
  split; [exact Hrun | split; [exact Hlookup|]].
  intros id Hin.
  pose proof (fetch_sharepoint_lists_distinct ignore source ld2 Hrun) as Hd.
  rewrite (distinct_keys_lookup ld2 (KStr name) id Hd Hin) in Hlookup.
  now injection Hlookup.
Qed.

Lemma later_collection_wins_witness :
  exists lists_dict,
    outcome (Main.fetch_sharepoint_lists scenario_same_name) = Ok lists_dict
    /\ dict_lookup lists_dict (KStr "Tasks") = Some (JStr "T2")
    /\ (forall id, In (KStr "Tasks", id) lists_dict -> id = JStr "T2").
Proof.
  apply (later_collection_wins main_py scenario_same_name
           [("value", JArr [collection "Tasks" "T1"; collection "Orders" "O1";
                            collection "Tasks" "T2"])]
           [] [collection "Orders" "O1"] []
           [("id", JStr "T1"); ("displayName", JStr "Tasks")]
           [("id", JStr "T2"); ("displayName", JStr "Tasks")]
           "Tasks" (JStr "T1") (JStr "T2")); try reflexivity.
  - simpl. intros H. repeat (destruct H as [H|H]; [discriminate|]). exact H.
  - constructor.
  - repeat constructor.
Defined.

(** ** Malformed descriptors *)

Lemma keep_list_malformed (ignore : list string) (lists_dict : lists_map) (item : json) :
  is_collection_descriptor item = false ->
  keep_list ignore lists_dict item = ([Warning_unexpected_item item], Ok lists_dict).
Proof.
  intros Hbad. destruct item as [| | | | |d]; try reflexivity.
  unfold keep_list. simpl in Hbad. now rewrite Hbad.
Qed.

Lemma keep_lists_warn (ignore : list string) (item : json) (items : list json) :
  is_collection_descriptor item = false ->
  In item items ->
  forall lists_dict lists_dict',
    outcome (for_each items (keep_list ignore) lists_dict) = Ok lists_dict' ->
    In (Warning_unexpected_item item)
       (logged (for_each items (keep_list ignore) lists_dict)).
Proof.
  intros Hbad. induction items as [|x items IH]; intros Hin ld ld' Hrun; [destruct Hin|].
  cbn [for_each] in *. rewrite outcome_bind in Hrun. rewrite logged_bind.
  apply in_or_app. destruct Hin as [->|Hin].
  - left. rewrite keep_list_malformed by assumption. now left.
  - right. destruct (outcome (keep_list ignore ld x)) as [ld1|e]; [|discriminate].
    now apply (IH Hin ld1 ld').
Qed.

Lemma fetch_sharepoint_lists_warns (ignore : list string) (source : MetadataSource)
    (items : list json) (item : json) (lists_dict : lists_map) :
  listed_items (lists_response source) = Ok items ->
  In item items ->
  is_collection_descriptor item = false ->
  outcome (fetch_sharepoint_lists ignore source) = Ok lists_dict ->
  In (Warning_unexpected_item item) (logged (fetch_sharepoint_lists ignore source)).
Proof.
  intros Hitems Hin Hbad. rewrite fetch_sharepoint_lists_outcome, Hitems.
  cbn [bind result_monad]. intros Hrun.
  unfold fetch_sharepoint_lists. unfold listed_items in Hitems.
  rewrite logged_bind, outcome_fetch_data. apply in_or_app. right.
  rewrite logged_bind, outcome_lift. cbn [lift logged fst app].
  destruct (no_value _) as [[|]|e]; cbn [bind result_monad] in Hitems.
  - injection Hitems as <-. destruct Hin.
  - rewrite logged_bind, outcome_lift. cbn [lift logged fst app].
    destruct (py_getitem _ "value") as [value|e]; [|discriminate].
    cbn [bind result_monad] in Hitems.
    rewrite logged_bind, outcome_lift, Hitems. cbn [lift logged fst app].
    now apply (keep_lists_warn ignore item items Hbad Hin [] lists_dict).
  - discriminate.
Qed.

Lemma fetch_sharepoint_lists_provenance (ignore : list string)
    (source : MetadataSource) (lists_dict : lists_map) (key : pykey) :
  outcome (fetch_sharepoint_lists ignore source) = Ok lists_dict ->
  In key (map fst lists_dict) ->
  exists items d displayName,
    listed_items (lists_response source) = Ok items
    /\ In (JObj d) items
    /\ dict_get d "displayName" = Some displayName
    /\ hash_key displayName = Ok key
    /\ dict_has d "id" = true.
Proof.
  rewrite fetch_sharepoint_lists_outcome.
  destruct (listed_items (lists_response source)) as [items|e]; [|discriminate].
  cbn [bind result_monad]. intros Hrun Hkey. exists items.
  assert (Hall : forall key, In key (map fst lists_dict) ->
            exists d displayName,
              In (JObj d) items
              /\ dict_get d "displayName" = Some displayName
              /\ hash_key displayName = Ok key /\ dict_has d "id" = true);
    [|destruct (Hall key Hkey) as [d [dn H]]; exists d, dn; now split].
  clear key Hkey. revert Hrun.
  apply (for_each_invariant
           (fun ld => forall key, In key (map fst ld) ->
              exists d displayName,
                In (JObj d) items
                /\ dict_get d "displayName" = Some displayName
                /\ hash_key displayName = Ok key /\ dict_has d "id" = true)).
  - intros ld item ld' Hitem Hld. rewrite keep_list_outcome.
    destruct item as [| | | | |d]; try (intros H; now injection H as <-).
    destruct (dict_get d "displayName") as [displayName|] eqn:Hname;
      [|intros H; now injection H as <-].
    destruct (dict_get d "id") as [id|] eqn:Hid; [|intros H; now injection H as <-].
    destruct (py_in_strs displayName ignore); [intros H; now injection H as <-|].
    destruct (hash_key displayName) as [k|e] eqn:Hk; [|discriminate].
    cbn [bind result_monad]. intros H. injection H as <-.
    intros key Hin. apply dict_set_keys in Hin. destruct Hin as [Hin| ->].
    + now apply Hld.
    + exists d, displayName. unfold dict_has. rewrite Hid. auto.
  - intros key [].
Qed.

Lemma keep_column_nameless (columns : list column) (d : pydict) :
  dict_has d "name" = false ->
  exists details,
    get_column_type (JObj d) = Ok details
    /\ keep_column columns (JObj d)
       = Ok (columns ++ [ {| col_name := "";
                             col_id := match dict_get d "id" with
                                       | Some id => id
                                       | None => JNull
                                       end;
                             col_required := match dict_get d "required" with
                                             | Some required => required
                                             | None => JBool false
                                             end;
                             col_type_details := details |} ]).
Proof.
  intros Hname. destruct (get_column_type_loop_total d type_mappings) as [details Hd].
  exists details. split; [exact Hd|].
  unfold keep_column, py_get. unfold dict_has in Hname.
  destruct (dict_get d "name"); [discriminate|].
  cbn [bind result_monad].
  change (str_in "" COLUMNS_TO_IGNORE) with false.
  change (re_match_str (re_compile COLUMN_PATTERN_TO_IGNORE) "") with false.
  cbn [negb andb]. unfold get_column_type. rewrite Hd.
  destruct (dict_get d "id"), (dict_get d "required"); reflexivity.
Qed.

(** C6, as the specification has it, fails on fields: a listing whose
    field descriptors all lack a [name] does not yield an empty field
    list. *)
Lemma nameless_field_enters_field_list :
  ~ (forall (source : MetadataSource) (list_id : json) (response : pydict)
            (items : list json) (columns : list column),
        columns_response source list_id = Some (JObj response) ->
        dict_get response "value" = Some (JArr items) ->
        Forall (fun item => exists d, item = JObj d /\ dict_has d "name" = false)
               items ->
        outcome (fetch_columns source list_id) = Ok columns ->
        columns = []).
Proof.
  intros Hclaim.
  specialize (Hclaim scenario_nameless (JStr "T1")
                [("value", JArr [JObj [("id", JStr "c1"); ("text", JObj [])]])]
                [JObj [("id", JStr "c1"); ("text", JObj [])]]
                [ {| col_name := ""; col_id := JStr "c1";
                     col_required := JBool false;
                     col_type_details :=
                       {| td_type := "text"; td_details := JObj [] |} |} ]
                eq_refl eq_refl).
  assert (H : Forall (fun item => exists d, item = JObj d /\ dict_has d "name" = false)
                [JObj [("id", JStr "c1"); ("text", JObj [])]]).
  { constructor; [|constructor]. eexists. split; reflexivity. }
  specialize (Hclaim H eq_refl). discriminate.
Qed.

(** C6, amended.  An item of the listing of collections that is not a
    dict with both a [displayName] and an [id] key is left out of the
    collection map, with a warning in the log, and the fetch goes on:
    every key of the map comes from an item with both keys.  A field
    descriptor without a [name] key is not left out: [fetch_columns]
    keeps it under the empty name, classified as usual, and raises
    nothing. *)
Theorem malformed_descriptors (p : program) (item : json) :
  is_collection_descriptor item = false ->
  (forall lists_dict,
      keep_list (LISTS_TO_IGNORE_of p) lists_dict item
      = ([Warning_unexpected_item item], Ok lists_dict))
  /\ (forall source items lists_dict,
         listed_items (lists_response source) = Ok items ->
         In item items ->
         outcome (fetch_sharepoint_lists_of p source) = Ok lists_dict ->
         In (Warning_unexpected_item item)
            (logged (fetch_sharepoint_lists_of p source)))
  /\ (forall source lists_dict key,
         outcome (fetch_sharepoint_lists_of p source) = Ok lists_dict ->
         In key (map fst lists_dict) ->
         exists items d displayName,
           listed_items (lists_response source) = Ok items
           /\ In (JObj d) items
           /\ is_collection_descriptor (JObj d) = true
           /\ dict_get d "displayName" = Some displayName
           /\ hash_key displayName = Ok key)
  /\ (forall columns d,
         dict_has d "name" = false ->
         exists details,
           get_column_type (JObj d) = Ok details
           /\ keep_column columns (JObj d)
              = Ok (columns ++ [ {| col_name := "";
                                    col_id := match dict_get d "id" with
                                              | Some id => id
                                              | None => JNull
                                              end;
                                    col_required := match dict_get d "required" with
                                                    | Some required => required
                                                    | None => JBool false
                                                    end;
                                    col_type_details := details |} ])).
Proof.
  intros Hbad. repeat split.
  - intros ld. now apply keep_list_malformed.
  - intros source items ld Hitems Hin. rewrite fetch_sharepoint_lists_of_eq.
    now apply (fetch_sharepoint_lists_warns _ source items).
  - intros source ld key Hrun Hkey. rewrite fetch_sharepoint_lists_of_eq in Hrun.
    destruct (fetch_sharepoint_lists_provenance _ source ld key Hrun Hkey)
      as [items [d [dn [H1 [H2 [H3 [H4 H5]]]]]]].
    exists items, d, dn. repeat split; try assumption.
    cbn [is_collection_descriptor]. unfold dict_has at 1. now rewrite H3, H5.
  - intros columns d. apply keep_column_nameless.
Qed.

Lemma malformed_descriptors_witness :
  keep_list Main.LISTS_TO_IGNORE [(KStr "Tasks", JStr "T1")]
            (JObj [("displayName", JStr "Orders")])
  = ([Warning_unexpected_item (JObj [("displayName", JStr "Orders")])],
     Ok [(KStr "Tasks", JStr "T1")]).
Proof.
  apply (proj1 (malformed_descriptors main_py (JObj [("displayName", JStr "Orders")])
                  eq_refl)).
Defined.

(** ** Regular expressions *)

Section RegularExpressions.

Local Open Scope string_scope.

Lemma append_nil_inv (a b : string) : a ++ b = "" -> a = "" /\ b = "".
Proof. destruct a; simpl; [auto | discriminate]. Qed.


Lemma matches_cat_inv (r1 r2 : regex) (s : string) :
  matches (Cat r1 r2) s ->
  exists s1 s2, s = s1 ++ s2 /\ matches r1 s1 /\ matches r2 s2.
Proof. intros H. inversion H; subst. eauto. Qed.

Lemma matches_alt_inv (r1 r2 : regex) (s : string) :
  matches (Alt r1 r2) s -> matches r1 s \/ matches r2 s.
Proof. intros H. inversion H; subst; auto. Qed.

Lemma nullable_matches (r : regex) : nullable r = true <-> matches r "".
Proof.
  induction r; simpl.
  - split; [discriminate | intros H; inversion H].
  - split; [constructor | reflexivity].
  - split; [discriminate | intros H; inversion H].
  - split; [discriminate | intros H; inversion H].
  - rewrite orb_true_iff, IHr1, IHr2. split.
    + intros [H|H]; [now apply matches_alt_l | now apply matches_alt_r].
    + intros H. inversion H; auto.
  - rewrite andb_true_iff, IHr1, IHr2. split.
    + intros [H1 H2]. now apply (matches_cat r1 r2 "" "").
    + intros H. apply matches_cat_inv in H.
      destruct H as [s1 [s2 [Heq [H1 H2]]]]. symmetry in Heq.
      apply append_nil_inv in Heq. destruct Heq as [-> ->]. auto.
  - split; [constructor | reflexivity].
Qed.

Lemma matches_star_deriv (c : ascii) (r : regex) :
  (forall s, matches r (String c s) -> matches (deriv c r) s) ->
  forall t, matches (Star r) t ->
  forall s, t = String c s -> matches (Cat (deriv c r) (Star r)) s.
Proof.
  intros IH t Ht. remember (Star r) as sr eqn:Hsr.
  induction Ht as [| | | | | | |r0 s1 s2 H1 _ H2 IH2]; try discriminate.
  injection Hsr as ->. intros s Heq.
  destruct s1 as [|c1 s1]; simpl in Heq.
  - now apply IH2.
  - injection Heq as -> <-. constructor; [now apply IH | exact H2].
Qed.

Lemma deriv_matches (c : ascii) (r : regex) :
  forall s, matches (deriv c r) s <-> matches r (String c s).
Proof.
  induction r; intros s; simpl.
  - split; intros H; inversion H.
  - split; intros H; inversion H.
  - destruct (Ascii.eqb c newline) eqn:Hc.
    + split; intros H; inversion H; subst.
      apply Ascii.eqb_eq in Hc. contradiction.
    + apply Ascii.eqb_neq in Hc. split; intros H; inversion H; subst.
      * now constructor.
      * constructor.
  - destruct (Ascii.eqb c c0) eqn:Hc.
    + apply Ascii.eqb_eq in Hc. subst c0. split; intros H; inversion H; subst; constructor.
    + apply Ascii.eqb_neq in Hc. split; intros H; inversion H; subst. congruence.
  - split; intros H; inversion H; subst.
    + apply matches_alt_l. now apply IHr1.
    + apply matches_alt_r. now apply IHr2.
    + apply matches_alt_l. now apply IHr1.
    + apply matches_alt_r. now apply IHr2.
  - destruct (nullable r1) eqn:Hn.
    + split.
      * intros H. apply matches_alt_inv in H. destruct H as [H|H].
        -- apply matches_cat_inv in H. destruct H as [s1 [s2 [-> [Ha Hb]]]].
           apply IHr1 in Ha. now apply (matches_cat r1 r2 (String c s1) s2).
        -- apply IHr2 in H. apply nullable_matches in Hn.
           now apply (matches_cat r1 r2 "" (String c s)).
      * intros H. apply matches_cat_inv in H. destruct H as [s1 [s2 [Heq [Ha Hb]]]].
        destruct s1 as [|c1 s1]; simpl in Heq.
        -- subst s2. apply matches_alt_r. now apply IHr2.
        -- injection Heq as <- ->. apply matches_alt_l.
           constructor; [now apply IHr1 | exact Hb].
    + split.
      * intros H. apply matches_cat_inv in H. destruct H as [s1 [s2 [-> [Ha Hb]]]].
        apply IHr1 in Ha. now apply (matches_cat r1 r2 (String c s1) s2).
      * intros H. apply matches_cat_inv in H. destruct H as [s1 [s2 [Heq [Ha Hb]]]].
        destruct s1 as [|c1 s1]; simpl in Heq.
        -- apply nullable_matches in Ha. congruence.
        -- injection Heq as <- ->. constructor; [now apply IHr1 | exact Hb].
  - split.
    + intros H. apply matches_cat_inv in H. destruct H as [s1 [s2 [-> [Ha Hb]]]].
      apply IHr in Ha. now apply (matches_star_cons r (String c s1) s2).
    + intros H. apply (matches_star_deriv c r (fun s0 => proj2 (IHr s0)) _ H s eq_refl).
Qed.

(** [re_match_str] decides whether a prefix of the subject matches. *)
Lemma re_match_str_prefix (s : string) :
  forall r, re_match_str r s = true <-> exists p q, s = p ++ q /\ matches r p.
Proof.
  induction s as [|c s IH]; intros r; simpl.
  - rewrite orb_false_r, nullable_matches. split.
    + intros H. now exists "", "".
    + intros [p [q [Heq H]]]. symmetry in Heq. apply append_nil_inv in Heq.
      destruct Heq as [-> _]. exact H.
  - rewrite orb_true_iff, nullable_matches, IH. split.
    + intros [H|[p [q [-> H]]]].
      * now exists "", (String c s).
      * exists (String c p), q. split; [reflexivity | now apply deriv_matches].
    + intros [p [q [Heq H]]]. destruct p as [|c' p]; simpl in Heq.
      * now left.
      * injection Heq as <- ->. right. exists p, q. split; [reflexivity|].
        now apply deriv_matches.
Qed.

Lemma matches_star_dot (s : string) : matches (Star Dot) s <-> one_line s = true.
Proof.
  split.
  - intros H. remember (Star Dot) as r eqn:Hr.
    induction H as [| | | | | | |r0 s1 s2 H1 _ H2 IH2]; try discriminate; [reflexivity|].
    injection Hr as ->. inversion H1 as [|c Hc| | | | | |]; subst. simpl.
    apply Ascii.eqb_neq in Hc. rewrite Hc. now apply IH2.
  - induction s as [|c s IH]; simpl; [constructor|].
    intros H. apply andb_true_iff in H. destruct H as [Hc Hs].
    apply negb_true_iff, Ascii.eqb_neq in Hc.
    apply (matches_star_cons Dot (String c "") s); [now constructor | now apply IH].
Qed.

Lemma matches_cat_chr (c : ascii) (r : regex) (s : string) :
  matches (Cat (Chr c) r) s <-> exists rest, s = String c rest /\ matches r rest.
Proof.
  split.
  - intros H. apply matches_cat_inv in H. destruct H as [s1 [s2 [-> [Ha Hb]]]].
    inversion Ha; subst. now exists s2.
  - intros [rest [-> H]]. apply (matches_cat (Chr c) r (String c "") rest); [constructor | exact H].
Qed.

(** [re.match] finds the pattern to match exactly the names that have
    [x003a] on their first line. *)
Lemma column_pattern_matches (s : string) :
  re_match_str (re_compile COLUMN_PATTERN_TO_IGNORE) s = true
  <-> exists before after, s = before ++ "x003a" ++ after /\ one_line before = true.
Proof.
  rewrite re_match_str_prefix.
  change (re_compile COLUMN_PATTERN_TO_IGNORE)
    with (Cat (Star Dot)
            (Cat (Chr "x") (Cat (Chr "0") (Cat (Chr "0") (Cat (Chr "3")
               (Cat (Chr "a") (Cat (Star Dot) Eps))))))).
  split.
  - intros [p [q [-> H]]].
    apply matches_cat_inv in H. destruct H as [s1 [s2 [-> [Ha Hb]]]].
    apply matches_star_dot in Ha.
    repeat (apply matches_cat_chr in Hb; destruct Hb as [? [-> Hb]]).
    exists s1. eexists. split; [|exact Ha].
    rewrite append_assoc. reflexivity.
  - intros [before [after [-> Hline]]].
    exists (before ++ "x003a"), after. split.
    + now rewrite append_assoc.
    + constructor; [now apply matches_star_dot|].
      repeat (apply matches_cat_chr; eexists; split; [reflexivity|]).
      apply (matches_cat (Star Dot) Eps "" ""); constructor.
Qed.

End RegularExpressions.

(** ** [fetch_columns] *)

Lemma fetch_columns_outcome (source : MetadataSource) (list_id : json) :
  outcome (fetch_columns source list_id)
  = (cols <- listed_items (columns_response source list_id) ;;
     for_each cols keep_column []).
Proof.
  unfold fetch_columns, listed_items.
  rewrite outcome_bind, outcome_fetch_data, outcome_bind, outcome_lift.
  cbn [bind result_monad].
  destruct (no_value _) as [[|]|e]; [reflexivity | | reflexivity].
  rewrite outcome_bind, outcome_lift.
  destruct (py_getitem _ "value") as [value|e]; [|reflexivity].
  rewrite outcome_bind, outcome_lift. cbn [bind result_monad].
  now destruct (py_iter value).
Qed.

Lemma for_each_result_invariant {A S : Type} (P : S -> Prop)
    (body : S -> A -> result S) (xs : list A) :
  (forall s x s', In x xs -> P s -> body s x = Ok s' -> P s') ->
  forall s s', P s -> for_each xs body s = Ok s' -> P s'.
Proof.
  induction xs as [|x xs IH]; intros Hstep s s' Hs Hrun.
  - simpl in Hrun. injection Hrun as <-. exact Hs.
  - cbn [for_each bind result_monad] in Hrun.
    destruct (body s x) as [s1|e] eqn:Hx; [|discriminate].
    apply (IH (fun s0 y s0' Hy => Hstep s0 y s0' (or_intror Hy)) s1 s');
      [|exact Hrun].
    apply (Hstep s x s1); [now left | exact Hs | exact Hx].
Qed.

Lemma keep_column_kept (columns columns' : list column) (col : json) :
  Forall (fun c => kept_name (col_name c) = true) columns ->
  keep_column columns col = Ok columns' ->
  Forall (fun c => kept_name (col_name c) = true) columns'.
Proof.
  intros Hcols. unfold keep_column.
  destruct (py_get col "name" (JStr "")) as [name|e]; [|discriminate].
  cbn [bind result_monad]. destruct name as [| | |s| |]; try discriminate.
  fold (kept_name s). destruct (kept_name s) eqn:Hs;
    [|intros H; now injection H as <-].
  destruct (py_get col "id" JNull) as [id|e]; [|discriminate].
  destruct (py_get col "required" (JBool false)) as [required|e]; [|discriminate].
  destruct (get_column_type col) as [details|e]; [|discriminate].
  cbn [bind result_monad]. intros H. injection H as <-.
  apply Forall_app. split; [exact Hcols|]. now repeat constructor.
Qed.

Lemma fetch_columns_kept (source : MetadataSource) (list_id : json)
    (columns : list column) :
  outcome (fetch_columns source list_id) = Ok columns ->
  Forall (fun c => kept_name (col_name c) = true) columns.
Proof.
  rewrite fetch_columns_outcome.
  destruct (listed_items _) as [cols|e]; [|discriminate].
  cbn [bind result_monad].
  apply (for_each_result_invariant
           (fun columns => Forall (fun c => kept_name (col_name c) = true) columns));
    [|constructor].
  intros s x s' _. apply keep_column_kept.
Qed.

(** ** Tables and their edges *)

Lemma Forall2_In_r {A B : Type} (R : A -> B -> Prop) (xs : list A) (ys : list B)
    (y : B) :
  Forall2 R xs ys -> In y ys -> exists x, In x xs /\ R x y.
Proof.
  induction 1 as [|x0 y0 xs ys Hxy _ IH]; [intros []|].
  intros [<-|Hin].
  - exists x0. split; [now left | exact Hxy].
  - destruct (IH Hin) as [x [Hx HR]]. exists x. split; [now right | exact HR].
Qed.

Lemma Forall2_In_l {A B : Type} (R : A -> B -> Prop) (xs : list A) (ys : list B)
    (x : A) :
  Forall2 R xs ys -> In x xs -> exists y, In y ys /\ R x y.
Proof.
  induction 1 as [|x0 y0 xs ys Hxy _ IH]; [intros []|].
  intros [<-|Hin].
  - exists y0. split; [now left | exact Hxy].
  - destruct (IH Hin) as [y [Hy HR]]. exists y. split; [now right | exact HR].
Qed.

Lemma table_of_inv (source : MetadataSource) (entry : pykey * json) (t : table) :
  table_of source entry = Ok t ->
  t_name t = fst entry
  /\ outcome (fetch_columns source (snd entry)) = Ok (t_columns t)
  /\ exists rels,
       traverse (column_relationship (fst entry)) (t_columns t) = Ok rels
       /\ t_relationships t = concat rels.
Proof.
  unfold table_of.
  destruct (outcome (fetch_columns source (snd entry))) as [columns|e];
    [|discriminate].
  cbn [bind result_monad].
  destruct (traverse _ columns) as [rels|e] eqn:Hrels; [|discriminate].
  intros H. injection H as <-. cbn. repeat split. now exists rels.
Qed.

Lemma tables_of_entries (source : MetadataSource) (lists_dict : lists_map)
    (tables : list table) (t : table) :
  traverse (table_of source) lists_dict = Ok tables ->
  In t tables ->
  exists entry, In entry lists_dict /\ table_of source entry = Ok t.
Proof.
  rewrite traverse_Forall2. apply Forall2_In_r.
Qed.

Lemma entries_of_tables (source : MetadataSource) (lists_dict : lists_map)
    (tables : list table) (entry : pykey * json) :
  traverse (table_of source) lists_dict = Ok tables ->
  In entry lists_dict ->
  exists t, In t tables /\ table_of source entry = Ok t.
Proof.
  rewrite traverse_Forall2. apply Forall2_In_l.
Qed.

Lemma scenario_A_graph : outcome (Main.main scenario_A) = Ok (Some graph_A).
Proof. reflexivity. Qed.

Lemma scenario_A_app_graph :
  outcome (App.fetch_sharepoint_lists scenario_A) = Ok lists_A
  /\ outcome (App.generate_uml_graph scenario_A lists_A) = Ok graph_A.
Proof. split; reflexivity. Qed.

(** C5.  A field whose name is in [COLUMNS_TO_IGNORE], or that
    [re.match] finds to match [COLUMN_PATTERN_TO_IGNORE], is in no
    node's label: the label of every node of the assembled graph is
    the table of the columns fetched for its collection, and no column
    among them has that name. *)
Theorem ignored_field_in_no_label (p : program) (source : MetadataSource)
    (lists_dict : lists_map) (g : Digraph) (field_name : string) :
  In field_name COLUMNS_TO_IGNORE
  \/ re_match_str (re_compile COLUMN_PATTERN_TO_IGNORE) field_name = true ->
  outcome (generate_uml_graph_of p source lists_dict) = Ok g ->
  forall name label,
    In (name, label) (nodes g) ->
    exists id columns,
      In (name, id) lists_dict
      /\ outcome (fetch_columns source id) = Ok columns
      /\ label = table_label name columns
      /\ ~ In field_name (map col_name columns).
Proof.
  intros Hignored Hgen name label Hnode.
  rewrite generate_uml_graph_of_assemble in Hgen.
  destruct (assemble_tables _ _ _ _ Hgen) as [tables [Ht [Hn _]]].
  rewrite Hn in Hnode. apply in_map_iff in Hnode.
  destruct Hnode as [t [Heq Hin]]. injection Heq as <- <-.
  destruct (tables_of_entries source lists_dict tables t Ht Hin)
    as [[list_name list_id] [Hentry Htable]].
  destruct (table_of_inv source _ t Htable) as [Hname [Hcols _]].
  cbn [fst snd] in *. exists list_id, (t_columns t).
  rewrite Hname. repeat split; try assumption.
  intros Hfield. apply in_map_iff in Hfield. destruct Hfield as [c [<- Hc]].
  pose proof (fetch_columns_kept source list_id _ Hcols) as Hkept.
  rewrite Forall_forall in Hkept. specialize (Hkept c Hc).
  unfold kept_name in Hkept. apply andb_true_iff in Hkept.
  destruct Hkept as [H1 H2]. destruct Hignored as [Hlist|Hre].
  - apply str_in_In in Hlist. now rewrite Hlist in H1.
  - now rewrite Hre in H2.
Qed.

(** Scenario A: neither [ID] nor [Author_x003a_Name] is a row of [Orders]. *)
Lemma ignored_field_in_no_label_witness :
  exists id columns,
    In (KStr "Orders", id) lists_A
    /\ outcome (fetch_columns scenario_A id) = Ok columns
    /\ table_label (KStr "Orders") columns_A_orders
       = table_label (KStr "Orders") columns
    /\ ~ In "Author_x003a_Name" (map col_name columns).
Proof.
  apply (ignored_field_in_no_label main_py scenario_A lists_A graph_A
           "Author_x003a_Name").
  - right. reflexivity.
  - reflexivity.
  - now left.
Defined.

(** ** Resolution of a target id *)

Lemma find_target_table_dangling (lists_dict : lists_map) (target : json) :
  find_target_table lists_dict target = None <-> dangling lists_dict target.
Proof.
  unfold dangling. induction lists_dict as [|[name id] rest IH]; simpl.
  - split; [constructor | reflexivity].
  - destruct (py_eq id target) eqn:Heq.
    + split; [discriminate|]. intros H. inversion H as [|? ? Hhd _]; subst.
      simpl in Hhd. congruence.
    + rewrite IH. split.
      * intros H. now constructor.
      * intros H. now inversion H.
Qed.

Lemma find_target_table_resolves (lists_dict : lists_map) (target : json)
    (name : pykey) :
  find_target_table lists_dict target = Some name
  <-> resolves_to lists_dict target name.
Proof.
  unfold resolves_to. induction lists_dict as [|[n i] rest IH]; simpl.
  - split; [discriminate|]. intros [earlier [id [later [H _]]]].
    now destruct earlier.
  - destruct (py_eq i target) eqn:Heq.
    + split.
      * intros H. injection H as ->. exists [], i, rest. repeat split; auto.
      * intros [earlier [id [later [Hsplit [Hid Hearlier]]]]].
        destruct earlier as [|e earlier]; simpl in Hsplit.
        -- now injection Hsplit as -> _ _.
        -- injection Hsplit as <- _. inversion Hearlier as [|? ? Hhd _]; subst.
           simpl in Hhd. congruence.
    + rewrite IH. split.
      * intros [earlier [id [later [-> [Hid Hearlier]]]]].
        exists ((n, i) :: earlier), id, later. repeat split; auto.
      * intros [earlier [id [later [Hsplit [Hid Hearlier]]]]].
        destruct earlier as [|e earlier]; simpl in Hsplit.
        -- injection Hsplit as -> -> _. congruence.
        -- injection Hsplit as <- ->. inversion Hearlier; subst.
           exists earlier, id, later. repeat split; auto.
Qed.

Lemma find_target_table_key (lists_dict : lists_map) (target : json) (name : pykey) :
  find_target_table lists_dict target = Some name -> In name (map fst lists_dict).
Proof.
  rewrite find_target_table_resolves. intros [earlier [id [later [-> _]]]].
  rewrite map_app. apply in_or_app. right. now left.
Qed.

Lemma edge_of_inv (lists_dict : lists_map) (rel : relationship)
    (e : pykey * pykey * string) :
  In e (edge_of find_target_table lists_dict rel) ->
  exists target,
    e = (fst (fst rel), target, snd rel)
    /\ find_target_table lists_dict (snd (fst rel)) = Some target
    /\ key_truthy target = true.
Proof.
  destruct rel as [[source_table target_id] column_name]. unfold edge_of.
  cbn [fst snd].
  destruct (find_target_table lists_dict target_id) as [target|]; [|intros []].
  destruct (key_truthy target) eqn:Htruthy; [|intros []].
  intros [<-|[]]. now exists target.
Qed.

Lemma column_relationship_inv (list_name : pykey) (c : column)
    (rels : list relationship) (rel : relationship) :
  column_relationship list_name c = Ok rels ->
  In rel rels ->
  td_type (col_type_details c) = "lookup"
  /\ py_get (td_details (col_type_details c)) "listId" JNull = Ok (snd (fst rel))
  /\ truthy (snd (fst rel)) = true
  /\ rel = (list_name, snd (fst rel), col_name c).
Proof.
  unfold column_relationship.
  destruct (String.eqb _ "lookup") eqn:Htype;
    [|intros H; injection H as <-; intros []].
  apply String.eqb_eq in Htype.
  destruct (py_get _ "listId" JNull) as [target|e]; [|discriminate].
  cbn [bind result_monad].
  destruct (truthy target) eqn:Htruthy; intros H; injection H as <-; [|intros []].
  intros [<-|[]]. cbn. auto.
Qed.

Lemma table_relationship_source (source : MetadataSource) (entry : pykey * json)
    (t : table) (rel : relationship) :
  table_of source entry = Ok t ->
  In rel (t_relationships t) ->
  fst (fst rel) = t_name t.
Proof.
  intros Ht Hrel. destruct (table_of_inv source entry t Ht) as [Hname [_ [rels [Hrels Heq]]]].
  rewrite Heq in Hrel. apply in_concat in Hrel. destruct Hrel as [r [Hr Hin]].
  apply traverse_Forall2 in Hrels.
  destruct (Forall2_In_r _ _ _ r Hrels Hr) as [c [_ Hc]].
  destruct (column_relationship_inv _ c r rel Hc Hin) as [_ [_ [_ ->]]].
  now rewrite Hname.
Qed.

(** C10.  In the assembled graph the nodes are the entries of the
    collection map, one per entry and under its key, and both ends of
    every edge are names of nodes: the source is the collection the
    field belongs to, the target a key of the same map. *)
Theorem edges_join_nodes (p : program) (source : MetadataSource)
    (lists_dict : lists_map) (g : Digraph) :
  outcome (generate_uml_graph_of p source lists_dict) = Ok g ->
  map fst (nodes g) = map fst lists_dict
  /\ forall tail head label,
       In (tail, head, label) (edges g) ->
       In tail (map fst (nodes g)) /\ In head (map fst (nodes g)).
Proof.
  intros Hgen. rewrite generate_uml_graph_of_assemble in Hgen.
  pose proof (assemble_node_names _ _ _ _ Hgen) as Hnames.
  split; [exact Hnames|].
  destruct (assemble_tables _ _ _ _ Hgen) as [tables [Ht [_ He]]].
  intros tail head label Hedge. rewrite Hnames, He in *.
  apply in_flat_map in Hedge. destruct Hedge as [rel [Hrel Hedge]].
  apply edge_of_inv in Hedge. destruct Hedge as [target [Heq [Hfind _]]].
  injection Heq as -> -> ->. split.
  - apply in_flat_map in Hrel. destruct Hrel as [t [Hin Hrel]].
    destruct (tables_of_entries source lists_dict tables t Ht Hin)
      as [entry [Hentry Htable]].
    rewrite (table_relationship_source source entry t rel Htable Hrel).
    rewrite <- (traverse_table_names source lists_dict tables Ht).
    now apply in_map.
  - now apply (find_target_table_key lists_dict (snd (fst rel))).
Qed.

Lemma edges_join_nodes_witness :
  map fst (nodes graph_A) = map fst lists_A
  /\ forall tail head label,
       In (tail, head, label) (edges graph_A) ->
       In tail (map fst (nodes graph_A)) /\ In head (map fst (nodes graph_A)).
Proof.
  apply (edges_join_nodes app_py scenario_A lists_A graph_A). reflexivity.
Defined.

(** ** The edges of a field *)

Lemma table_edges_relationships (source : MetadataSource) (lists_dict : lists_map)
    (entry : pykey * json) (t : table) :
  table_of source entry = Ok t ->
  flat_map (edge_of find_target_table lists_dict) (t_relationships t)
  = table_edges lists_dict t.
Proof.
  intros Ht. destruct (table_of_inv source entry t Ht) as [Hname [_ [rels [Hrels ->]]]].
  unfold table_edges. rewrite Hname. apply traverse_Forall2 in Hrels.
  induction Hrels as [|c r cols rels Hc _ IH]; [reflexivity|].
  cbn [concat flat_map]. rewrite flat_map_app, IH. unfold field_edges at 2.
  now rewrite Hc.
Qed.

Lemma assemble_edges_by_field (source : MetadataSource) (lists_dict ld : lists_map)
    (tables : list table) :
  traverse (table_of source) ld = Ok tables ->
  flat_map (edge_of find_target_table lists_dict) (flat_map t_relationships tables)
  = flat_map (table_edges lists_dict) tables.
Proof.
  rewrite traverse_Forall2.
  induction 1 as [|entry t ld' ts Ht _ IH]; [reflexivity|].
  cbn [flat_map]. rewrite flat_map_app, IH.
  now rewrite (table_edges_relationships source lists_dict entry t Ht).
Qed.

(** The graph is returned as soon as the tables are built and the
    nodes are made, which asks for names that are strings: resolving
    the relationships raises nothing. *)
Lemma generate_uml_graph_of_tables (p : program) (source : MetadataSource)
    (lists_dict : lists_map) (tables : list table) :
  traverse (table_of source) lists_dict = Ok tables ->
  Forall (fun entry => string_key (fst entry) = true) lists_dict ->
  outcome (generate_uml_graph_of p source lists_dict)
  = Ok {| nodes := map table_node tables;
          edges := flat_map (table_edges lists_dict) tables |}.
Proof.
  intros Ht Hnames. rewrite generate_uml_graph_of_assemble. unfold assemble.
  rewrite (proj2 (node_tables_tables source lists_dict tables) (conj Ht Hnames)).
  cbn [bind result_monad].
  now rewrite (assemble_edges_by_field source lists_dict lists_dict tables Ht).
Qed.

(** Whatever the relationships are, the assembly raises exactly when a
    table cannot be built or a node cannot be made. *)
Lemma generate_uml_graph_of_node_tables (p : program) (source : MetadataSource)
    (lists_dict : lists_map) :
  outcome (generate_uml_graph_of p source lists_dict)
  = match traverse (node_table source) lists_dict with
    | Ok tables => Ok {| nodes := map table_node tables;
                         edges := flat_map (table_edges lists_dict) tables |}
    | Raise e => Raise e
    end.
Proof.
  destruct (traverse (node_table source) lists_dict) as [tables|e] eqn:Hn.
  - apply node_tables_tables in Hn. destruct Hn as [Ht Hnames].
    now apply generate_uml_graph_of_tables.
  - rewrite generate_uml_graph_of_assemble. unfold assemble. now rewrite Hn.
Qed.

(** Resolving the relationships logs nothing. *)
Lemma generate_with_logged (lookup_target : lists_map -> json -> option pykey)
    (source : MetadataSource) (lists_dict : lists_map) :
  logged (generate_with source lookup_target lists_dict)
  = logged (for_each lists_dict (add_table source) (empty_graph, [])).
Proof.
  unfold generate_with. rewrite logged_bind.
  destruct (outcome _) as [[graph rels]|e]; cbn; now rewrite app_nil_r.
Qed.

Lemma generate_uml_graph_of_logged (p : program) (source : MetadataSource)
    (lists_dict : lists_map) :
  logged (generate_uml_graph_of p source lists_dict)
  = logged (for_each lists_dict (add_table source) (empty_graph, [])).
Proof.
  destruct p; apply generate_with_logged.
Qed.

Lemma field_edges_dangling (lists_dict : lists_map) (list_name : pykey)
    (c : column) (target : json) :
  py_get (td_details (col_type_details c)) "listId" JNull = Ok target ->
  dangling lists_dict target ->
  field_edges lists_dict list_name c = [].
Proof.
  intros Hget Hdangling. unfold field_edges, column_relationship.
  destruct (String.eqb _ "lookup"); [|reflexivity].
  rewrite Hget. cbn [bind result_monad].
  destruct (truthy target); [|reflexivity].
  cbn [flat_map edge_of].
  apply find_target_table_dangling in Hdangling. now rewrite Hdangling.
Qed.

Lemma field_edges_resolved (lists_dict : lists_map) (list_name : pykey)
    (c : column) (name : pykey) :
  lookup_to lists_dict c name ->
  field_edges lists_dict list_name c = [(list_name, name, col_name c)].
Proof.
  intros [target [Htype [Hget [Htruthy [Hres Hname]]]]].
  unfold field_edges, column_relationship.
  rewrite Htype, String.eqb_refl, Hget. cbn [bind result_monad].
  rewrite Htruthy. cbn [flat_map edge_of].
  apply find_target_table_resolves in Hres. now rewrite Hres, Hname.
Qed.

(** C2.  A lookup field whose target id is the id of no entry of the
    collection map contributes no edge, so the edges of its collection
    are those of its other fields; the graph is returned all the same
    once the tables are built and the nodes are made (the names of the
    map being strings), with a node per collection and the edges of
    all fields: resolving the relationships raises nothing, so the
    assembly raises only when a table or a node fails, and it leaves
    no record in the log. *)
Theorem dangling_lookup_is_dropped (p : program) (source : MetadataSource)
    (lists_dict : lists_map) (tables : list table) (list_name : pykey)
    (c : column) (target : json) :
  traverse (table_of source) lists_dict = Ok tables ->
  Forall (fun entry => string_key (fst entry) = true) lists_dict ->
  td_type (col_type_details c) = "lookup" ->
  py_get (td_details (col_type_details c)) "listId" JNull = Ok target ->
  dangling lists_dict target ->
  field_edges lists_dict list_name c = []
  /\ (forall before after,
         flat_map (field_edges lists_dict list_name) (before ++ c :: after)
         = flat_map (field_edges lists_dict list_name) (before ++ after))
  /\ outcome (generate_uml_graph_of p source lists_dict)
     = Ok {| nodes := map table_node tables;
             edges := flat_map (table_edges lists_dict) tables |}
  /\ (forall any_map,
         outcome (generate_uml_graph_of p source any_map)
         = match traverse (node_table source) any_map with
           | Ok ts => Ok {| nodes := map table_node ts;
                            edges := flat_map (table_edges any_map) ts |}
           | Raise e => Raise e
           end)
  /\ logged (generate_uml_graph_of p source lists_dict)
     = logged (for_each lists_dict (add_table source) (empty_graph, [])).
Proof.
  intros Ht Hnames _ Hget Hdangling.
  pose proof (field_edges_dangling lists_dict list_name c target Hget Hdangling)
    as Hnone.
  split; [exact Hnone|]. split; [|split; [|split]].
  - intros before after. rewrite !flat_map_app. cbn [flat_map]. now rewrite Hnone.
  - now apply generate_uml_graph_of_tables.
  - intros any_map. apply generate_uml_graph_of_node_tables.
  - apply generate_uml_graph_of_logged.
Qed.

(** Scenario A: [ArchiveRef] refers to a list that is not retained. *)
Lemma dangling_lookup_is_dropped_witness :
  field_edges lists_A (KStr "Orders")
    (kept_column "ArchiveRef" "lookup" (JObj [("listId", JStr "Z9")])) = []
  /\ outcome (generate_uml_graph_of main_py scenario_A lists_A) = Ok graph_A.
Proof.
  pose proof (dangling_lookup_is_dropped main_py scenario_A lists_A tables_A
                (KStr "Orders")
                (kept_column "ArchiveRef" "lookup" (JObj [("listId", JStr "Z9")]))
                (JStr "Z9") eq_refl) as H.
  assert (Hnames : Forall (fun entry => string_key (fst entry) = true) lists_A)
    by (repeat constructor).
  assert (Hd : dangling lists_A (JStr "Z9")) by (repeat constructor).
  destruct (H Hnames eq_refl eq_refl Hd) as [H1 [_ [H3 _]]].
  split; [exact H1 | exact H3].
Defined.

(** ** One edge per resolved lookup *)

Lemma scenario_unnamed_graph :
  outcome (Main.main scenario_unnamed) = Ok (Some graph_unnamed)
  /\ outcome (App.fetch_sharepoint_lists scenario_unnamed) = Ok lists_unnamed
  /\ outcome (App.generate_uml_graph scenario_unnamed lists_unnamed)
     = Ok graph_unnamed.
Proof. repeat split; reflexivity. Qed.

(** C8, as the specification has it, fails: a relationship whose target
    id is the id of a retained collection can be left without an edge,
    namely when the display name of that collection is empty. *)
Lemma resolved_relationship_without_edge :
  ~ (forall (p : program) (source : MetadataSource) (lists_dict : lists_map)
            (tables : list table) (g : Digraph) (rel : relationship)
            (target : pykey),
        traverse (table_of source) lists_dict = Ok tables ->
        outcome (generate_uml_graph_of p source lists_dict) = Ok g ->
        In rel (flat_map t_relationships tables) ->
        resolves_to lists_dict (snd (fst rel)) target ->
        In (fst (fst rel), target, snd rel) (edges g)).
Proof.
  intros Hclaim.
  assert (Hres : resolves_to lists_unnamed (JStr "L0") (KStr "")).
  { exists [], (JStr "L0"), [(KStr "Orders", JStr "O1")].
    repeat split. constructor. }
  specialize (Hclaim main_py scenario_unnamed lists_unnamed tables_unnamed
                graph_unnamed (KStr "Orders", JStr "L0", "Ref") (KStr "")
                eq_refl eq_refl (or_introl eq_refl) Hres).
  destruct Hclaim.
Qed.

Lemma edge_of_resolved (lists_dict : lists_map) (rel : relationship) (name : pykey) :
  resolves_to lists_dict (snd (fst rel)) name ->
  edge_of find_target_table lists_dict rel
  = if key_truthy name then [(fst (fst rel), name, snd rel)] else [].
Proof.
  destruct rel as [[source_table target] column_name]. cbn [fst snd].
  intros Hres. apply find_target_table_resolves in Hres.
  unfold edge_of. now rewrite Hres.
Qed.

Lemma edge_of_dangling (lists_dict : lists_map) (rel : relationship) :
  dangling lists_dict (snd (fst rel)) ->
  edge_of find_target_table lists_dict rel = [].
Proof.
  destruct rel as [[source_table target] column_name]. cbn [fst snd].
  intros Hd. apply find_target_table_dangling in Hd.
  unfold edge_of. now rewrite Hd.
Qed.

(** C8, amended.  The edges of the assembled graph are, in the order of
    the relationships, one edge for each relationship whose target id
    resolves to a collection of the map with a truthy (non-empty)
    display name, from the source collection to that collection and
    labelled with the field name, and none for the other
    relationships: every such relationship has its edge in the graph.
    So when two fields of one collection are lookups that resolve to
    such collections, the edge list holds an edge for each, at two
    places: nothing is merged. *)
Theorem one_edge_per_resolved_lookup (p : program) (source : MetadataSource)
    (lists_dict : lists_map) (g : Digraph) :
  outcome (generate_uml_graph_of p source lists_dict) = Ok g ->
  (exists tables,
      traverse (table_of source) lists_dict = Ok tables
      /\ edges g = flat_map (edge_of find_target_table lists_dict)
                     (flat_map t_relationships tables)
      /\ forall rel name,
           In rel (flat_map t_relationships tables) ->
           resolves_to lists_dict (snd (fst rel)) name ->
           key_truthy name = true ->
           In (fst (fst rel), name, snd rel) (edges g))
  /\ (forall rel name,
         resolves_to lists_dict (snd (fst rel)) name ->
         edge_of find_target_table lists_dict rel
         = if key_truthy name then [(fst (fst rel), name, snd rel)] else [])
  /\ (forall rel,
         dangling lists_dict (snd (fst rel)) ->
         edge_of find_target_table lists_dict rel = [])
  /\ (forall list_name list_id before between after c1 c2 name1 name2,
         In (list_name, list_id) lists_dict ->
         outcome (fetch_columns source list_id)
         = Ok (before ++ c1 :: between ++ c2 :: after) ->
         lookup_to lists_dict c1 name1 ->
         lookup_to lists_dict c2 name2 ->
         exists e1 e2 e3,
           edges g = e1 ++ (list_name, name1, col_name c1)
                        :: e2 ++ (list_name, name2, col_name c2) :: e3).
Proof.
  intros Hgen.
  rewrite generate_uml_graph_of_assemble in Hgen.
  destruct (assemble_tables _ _ _ _ Hgen) as [tables [Ht [_ He]]].
  split.
  { exists tables. split; [exact Ht|]. split; [exact He|].
    intros rel name Hrel Hres Hname. rewrite He. apply in_flat_map.
    exists rel. split; [exact Hrel|].
    rewrite (edge_of_resolved lists_dict rel name Hres), Hname. now left. }
  split; [intros rel name; apply edge_of_resolved|].
  split; [intros rel; apply edge_of_dangling|].
  intros list_name list_id before between after c1 c2 name1 name2 Hentry Hcols H1 H2.
  rewrite He, (assemble_edges_by_field source lists_dict lists_dict tables Ht).
  destruct (entries_of_tables source lists_dict tables _ Ht Hentry) as [t [Hin Htable]].
  destruct (table_of_inv source _ t Htable) as [Hname [Hcols' _]].
  cbn [fst snd] in Hname, Hcols'. rewrite Hcols in Hcols'. injection Hcols' as Hcols'.
  destruct (in_split t tables Hin) as [tables1 [tables2 ->]].
  rewrite flat_map_app. cbn [flat_map]. unfold table_edges at 2.
  rewrite <- Hcols', Hname, flat_map_app. cbn [flat_map].
  rewrite flat_map_app. cbn [flat_map].
  rewrite (field_edges_resolved lists_dict list_name c1 name1 H1).
  rewrite (field_edges_resolved lists_dict list_name c2 name2 H2).
  exists (flat_map (table_edges lists_dict) tables1
          ++ flat_map (field_edges lists_dict list_name) before),
         (flat_map (field_edges lists_dict list_name) between),
         (flat_map (field_edges lists_dict list_name) after
          ++ flat_map (table_edges lists_dict) tables2).
  repeat (rewrite <- app_assoc; cbn [app]). reflexivity.
Qed.

(** Scenario D: two lookups of [Orders], to [Customers] and to [Products]. *)
Lemma one_edge_per_resolved_lookup_witness :
  outcome (generate_uml_graph_of main_py scenario_D lists_D) = Ok graph_D
  /\ exists e1 e2 e3,
       edges graph_D = e1 ++ (KStr "Orders", KStr "Customers", "CustomerRef")
                          :: e2 ++ (KStr "Orders", KStr "Products", "ProductRef") :: e3.
Proof.
  split; [reflexivity|].
  refine (proj2 (proj2 (proj2
            (one_edge_per_resolved_lookup main_py scenario_D lists_D graph_D eq_refl)))
            (KStr "Orders") (JStr "O1")
            [] [kept_column "Title" "text" (JObj [])] []
            (kept_column "CustomerRef" "lookup" (JObj [("listId", JStr "C1")]))
            (kept_column "ProductRef" "lookup" (JObj [("listId", JStr "P1")]))
            (KStr "Customers") (KStr "Products") _ eq_refl _ _).
  - now left.
  - exists (JStr "C1"). repeat split.
    exists [(KStr "Orders", JStr "O1")], (JStr "C1"), [(KStr "Products", JStr "P1")].
    repeat split. repeat constructor.
  - exists (JStr "P1"). repeat split.
    exists [(KStr "Orders", JStr "O1"); (KStr "Customers", JStr "C1")], (JStr "P1"), [].
    repeat split. repeat constructor.
Defined.

(** ** A field listing that fails *)

Lemma no_value_failed (response : option json) :
  listing_failed response ->
  no_value match response with Some body => body | None => JNull end = Ok true.
Proof.
  intros [->|[d [-> Hvalue]]]; [reflexivity|].
  unfold no_value. destruct (truthy (JObj d)); [|reflexivity].
  cbn [negb py_contains bind result_monad]. now rewrite Hvalue.
Qed.

Lemma fetch_columns_failed (source : MetadataSource) (list_id : json) :
  listing_failed (columns_response source list_id) ->
  fetch_columns source list_id
  = (match columns_response source list_id with
     | None => [Error_request_failed]
     | Some _ => []
     end ++ [Error_fetch_columns_failed list_id], Ok []).
Proof.
  intros Hfailed. unfold fetch_columns.
  pose proof (no_value_failed _ Hfailed) as Hno.
  destruct (columns_response source list_id) as [body|];
    cbn [fetch_data bind M_monad ret log lift app]; rewrite Hno; reflexivity.
Qed.

Lemma table_of_failed (source : MetadataSource) (entry : pykey * json) :
  listing_failed (columns_response source (snd entry)) ->
  table_of source entry = Ok (empty_table (fst entry)).
Proof.
  intros Hfailed. unfold table_of.
  now rewrite (fetch_columns_failed source (snd entry) Hfailed).
Qed.

Lemma table_of_empty_listing (source : MetadataSource) (entry : pykey * json) :
  columns_response source (snd entry) = Some (JObj [("value", JArr [])]) ->
  table_of source entry = Ok (empty_table (fst entry)).
Proof.
  intros Hempty. unfold table_of. rewrite fetch_columns_outcome, Hempty.
  reflexivity.
Qed.

Lemma table_of_same_response (source source' : MetadataSource)
    (entry : pykey * json) :
  columns_response source' (snd entry) = columns_response source (snd entry) ->
  table_of source' entry = table_of source entry.
Proof.
  intros Hsame. unfold table_of. now rewrite !fetch_columns_outcome, Hsame.
Qed.

Lemma traverse_ext_in {A B : Type} (f g : A -> result B) (xs : list A) :
  (forall x, In x xs -> f x = g x) -> traverse f xs = traverse g xs.
Proof.
  induction xs as [|x xs IH]; intros Hext; [reflexivity|].
  cbn [traverse]. rewrite (Hext x (or_introl eq_refl)), IH; [reflexivity|].
  intros y Hy. apply Hext. now right.
Qed.

Lemma traverse_total {A B : Type} (f : A -> result B) (xs : list A) :
  (forall x, In x xs -> exists y, f x = Ok y) -> exists ys, traverse f xs = Ok ys.
Proof.
  induction xs as [|x xs IH]; intros Hall; [now exists []|].
  destruct (Hall x (or_introl eq_refl)) as [y Hy].
  destruct IH as [ys Hys]; [intros z Hz; apply Hall; now right|].
  exists (y :: ys). cbn [traverse bind result_monad]. now rewrite Hy, Hys.
Qed.

Lemma scenario_C_graph :
  Main.main scenario_C
  = ([ Error_request_failed; Error_fetch_columns_failed (JStr "T1");
       Info_generating_table (KStr "Tasks");
       Info_generating_table (KStr "Orders"); Info_diagram_saved ],
     Ok (Some graph_C)).
Proof. reflexivity. Qed.

Lemma add_table_logged (source : MetadataSource) (acc : Digraph * list relationship)
    (entry : pykey * json) (rec : log_record) :
  In rec (logged (fetch_columns source (snd entry))) ->
  In rec (logged (add_table source acc entry)).
Proof.
  destruct acc as [graph rels], entry as [list_name list_id]. cbn [snd].
  intros Hin. unfold add_table. rewrite logged_bind. apply in_or_app. now left.
Qed.

Lemma add_tables_logged (source : MetadataSource) (entry : pykey * json)
    (rec : log_record) (lists_dict : lists_map) :
  In rec (logged (fetch_columns source (snd entry))) ->
  In entry lists_dict ->
  forall acc acc',
    outcome (for_each lists_dict (add_table source) acc) = Ok acc' ->
    In rec (logged (for_each lists_dict (add_table source) acc)).
Proof.
  intros Hrec. induction lists_dict as [|x rest IH]; intros Hin acc acc' Hrun;
    [destruct Hin|].
  cbn [for_each] in *. rewrite outcome_bind in Hrun. rewrite logged_bind.
  apply in_or_app. destruct Hin as [->|Hin].
  - left. now apply add_table_logged.
  - right. destruct (outcome (add_table source acc x)) as [acc1|e]; [|discriminate].
    now apply (IH Hin acc1 acc').
Qed.

(** C3.  When the field listing of a collection of the map fails (the
    request fails, or the answer is an object without a [value] key),
    [fetch_columns] returns the empty list for it and logs the
    failure.  The graph, when it is built, has the node of that
    collection, with a table of no rows, and the failure in its log;
    it is the graph that would be built had the source answered an
    empty listing instead, so nothing else changes; and it is built
    whenever the names of the map are strings, as the nodes need, and
    the table of every collection whose listing did not fail can be
    built. *)
Theorem failed_listing_gives_empty_table (p : program) (source : MetadataSource)
    (lists_dict : lists_map) (list_name : pykey) (list_id : json) :
  In (list_name, list_id) lists_dict ->
  listing_failed (columns_response source list_id) ->
  outcome (fetch_columns source list_id) = Ok []
  /\ In (Error_fetch_columns_failed list_id) (logged (fetch_columns source list_id))
  /\ (forall g,
         outcome (generate_uml_graph_of p source lists_dict) = Ok g ->
         In (list_name, table_label list_name []) (nodes g)
         /\ In (Error_fetch_columns_failed list_id)
               (logged (generate_uml_graph_of p source lists_dict)))
  /\ (forall source',
         (forall id,
             columns_response source' id = columns_response source id
             \/ (listing_failed (columns_response source id)
                 /\ columns_response source' id = Some (JObj [("value", JArr [])]))) ->
         outcome (generate_uml_graph_of p source' lists_dict)
         = outcome (generate_uml_graph_of p source lists_dict))
  /\ (Forall (fun entry => string_key (fst entry) = true) lists_dict ->
      (forall entry,
          In entry lists_dict ->
          listing_failed (columns_response source (snd entry))
          \/ exists t, table_of source entry = Ok t) ->
      exists g, outcome (generate_uml_graph_of p source lists_dict) = Ok g).
Proof.
  intros Hentry Hfailed.
  pose proof (fetch_columns_failed source list_id Hfailed) as Hfetch.
  assert (Hlog : In (Error_fetch_columns_failed list_id)
                    (logged (fetch_columns source list_id))).
  { rewrite Hfetch. cbn [logged fst]. apply in_or_app. right. now left. }
  split; [now rewrite Hfetch|]. split; [exact Hlog|]. split; [|split].
  - intros g Hgen. split.
    + rewrite generate_uml_graph_of_assemble in Hgen.
      destruct (assemble_tables _ _ _ _ Hgen) as [tables [Ht [Hn _]]].
      destruct (entries_of_tables source lists_dict tables _ Ht Hentry)
        as [t [Hin Htable]].
      rewrite (table_of_failed source (list_name, list_id) Hfailed) in Htable.
      injection Htable as <-. rewrite Hn.
      apply (in_map table_node) in Hin. exact Hin.
    + rewrite generate_uml_graph_of_logged.
      rewrite generate_uml_graph_of_assemble in Hgen.
      rewrite <- (generate_with_assemble find_target_table) in Hgen.
      unfold generate_with in Hgen. rewrite outcome_bind in Hgen.
      destruct (outcome (for_each lists_dict (add_table source) (empty_graph, [])))
        as [acc'|e] eqn:Hrun; [|discriminate].
      now apply (add_tables_logged source (list_name, list_id) _ lists_dict
                   Hlog Hentry (empty_graph, []) acc').
  - intros source' Hsame. rewrite !generate_uml_graph_of_assemble.
    unfold assemble. f_equal. apply traverse_ext_in. intros entry _.
    unfold node_table. f_equal.
    destruct (Hsame (snd entry)) as [Heq|[Hf Hempty]].
    + now apply table_of_same_response.
    + now rewrite (table_of_failed source entry Hf),
        (table_of_empty_listing source' entry Hempty).
  - intros Hnames Hothers.
    destruct (traverse_total (table_of source) lists_dict) as [tables Ht].
    { intros entry Hin. destruct (Hothers entry Hin) as [Hf|Hok]; [|exact Hok].
      eexists. now apply table_of_failed. }
    eexists. now apply (generate_uml_graph_of_tables p source lists_dict tables).
Qed.

(** Scenario C: the [Tasks] node is there, with an empty table. *)
Lemma failed_listing_gives_empty_table_witness :
  outcome (generate_uml_graph_of main_py scenario_C lists_C) = Ok graph_C
  /\ In (KStr "Tasks", table_label (KStr "Tasks") []) (nodes graph_C).
Proof.
  split; [reflexivity|].
  refine (proj1 (proj1 (proj2 (proj2
            (failed_listing_gives_empty_table main_py scenario_C lists_C
               (KStr "Tasks") (JStr "T1") _ _))) graph_C eq_refl)).
  - now left.
  - now left.
Defined.

(** * Further properties *)

(** ** The collection map, in the order of the listing *)

Lemma distinct_keys_fresh (before : lists_map) (key : pykey) (value : json)
    (after : lists_map) :
  distinct_keys (before ++ (key, value) :: after) ->
  forall k, In k (map fst before) -> key_eqb k key = false.
Proof.
  induction before as [|[k0 v0] before IH]; simpl; [intros _ k []|].
  intros Hd k [<-|Hin].
  - inversion Hd as [|? ? ? Hk _]; subst. apply Hk.
    rewrite map_app. apply in_or_app. right. now left.
  - inversion Hd; subst. now apply IH.
Qed.

Lemma dict_set_fresh (d : lists_map) (key : pykey) (value : json) :
  (forall k, In k (map fst d) -> key_eqb k key = false) ->
  dict_set d key value = d ++ [(key, value)].
Proof.
  induction d as [|[k0 v0] d IH]; intros Hfresh; [reflexivity|].
  simpl. rewrite (Hfresh k0); [|now left].
  rewrite IH; [reflexivity|]. intros k Hk. apply Hfresh. now right.
Qed.

Lemma keep_list_entry (ignore : list string) (lists_dict : lists_map) (item : json) :
  hashable_name item = true ->
  (forall k, In k (map fst lists_dict) ->
             forall e, In e (entry_of ignore item) -> key_eqb k (fst e) = false) ->
  keep_list ignore lists_dict item
  = (warnings_of [item], Ok (lists_dict ++ entry_of ignore item)).
Proof.
  intros Hhash Hfresh. unfold warnings_of. cbn [filter].
  destruct (is_collection_descriptor item) eqn:Hdesc.
  - destruct item as [| | | | |d]; try discriminate.
    cbn [is_collection_descriptor] in Hdesc. apply andb_true_iff in Hdesc.
    destruct Hdesc as [Hn Hi]. unfold keep_list. rewrite Hn, Hi. cbn [andb].
    unfold dict_has in Hn, Hi. unfold entry_of in *. unfold py_getitem.
    cbn [hashable_name] in Hhash.
    destruct (dict_get d "displayName") as [displayName|]; [|discriminate].
    destruct (dict_get d "id") as [id|]; [|discriminate].
    cbn [lift bind M_monad app].
    destruct (py_in_strs displayName ignore).
    + cbn. now rewrite app_nil_r.
    + cbn [negb]. destruct displayName; try discriminate; cbn [hash_key] in *;
        cbn [lift bind M_monad ret app map negb];
        (rewrite dict_set_fresh; [reflexivity|]);
        intros k Hk; apply (Hfresh k Hk _ (or_introl eq_refl)).
  - cbn [negb map]. rewrite keep_list_malformed by assumption.
    replace (entry_of ignore item) with (@nil (pykey * json));
      [now rewrite app_nil_r|].
    destruct item as [| | | | |d]; try reflexivity.
    cbn [is_collection_descriptor] in Hdesc. unfold dict_has in Hdesc.
    unfold entry_of.
    destruct (dict_get d "displayName"); [|reflexivity].
    destruct (dict_get d "id"); [discriminate | reflexivity].
Qed.

Lemma keep_lists_entries (ignore : list string) (items : list json) :
  Forall (fun item => hashable_name item = true) items ->
  forall lists_dict,
    distinct_keys (lists_dict ++ flat_map (entry_of ignore) items) ->
    for_each items (keep_list ignore) lists_dict
    = (warnings_of items, Ok (lists_dict ++ flat_map (entry_of ignore) items)).
Proof.
  induction 1 as [|item items Hitem _ IH]; intros ld Hd.
  - cbn. now rewrite app_nil_r.
  - cbn [for_each flat_map] in *.
    assert (Hfresh : forall k, In k (map fst ld) ->
              forall e, In e (entry_of ignore item) -> key_eqb k (fst e) = false).
    { intros k Hk [key value] He.
      destruct (in_split _ _ He) as [l1 [l2 Heq]]. rewrite Heq in Hd.
      rewrite <- !app_assoc in Hd. cbn [app] in Hd. rewrite app_assoc in Hd.
      apply (distinct_keys_fresh _ key value _ Hd).
      rewrite map_app. apply in_or_app. now left. }
    rewrite (keep_list_entry ignore ld item Hitem Hfresh).
    cbn [bind M_monad]. rewrite IH by now rewrite <- app_assoc.
    rewrite <- app_assoc. unfold warnings_of. cbn [filter].
    destruct (negb (is_collection_descriptor item)); reflexivity.
Qed.

(** X1.  When the listing of collections is a list of items whose
    display names can be dict keys, and no two of the collections it
    retains have the same display name, [fetch_sharepoint_lists]
    returns the retained collections in the order of the listing,
    each under its display name with its id, and logs one warning per
    item that is no collection descriptor, in that order, and nothing
    else. *)
Theorem fetch_sharepoint_lists_in_order (p : program) (source : MetadataSource)
    (response : pydict) (items : list json) :
  lists_response source = Some (JObj response) ->
  dict_get response "value" = Some (JArr items) ->
  Forall (fun item => hashable_name item = true) items ->
  distinct_keys (flat_map (entry_of (LISTS_TO_IGNORE_of p)) items) ->
  fetch_sharepoint_lists_of p source
  = (warnings_of items, Ok (flat_map (entry_of (LISTS_TO_IGNORE_of p)) items)).
Proof.
  intros Hresp Hvalue Hhash Hd. rewrite fetch_sharepoint_lists_of_eq.
  unfold fetch_sharepoint_lists. rewrite Hresp. cbn [fetch_data ret M_monad bind app].
  assert (Hno : no_value (JObj response) = Ok false).
  { unfold no_value. destruct response; [discriminate|].
    cbn [truthy negb py_contains bind result_monad]. unfold dict_has.
    now rewrite Hvalue. }
  rewrite Hno. cbn [lift app py_getitem]. rewrite Hvalue. cbn [py_iter app].
  now rewrite (keep_lists_entries _ items Hhash []).
Qed.

Lemma fetch_sharepoint_lists_in_order_witness :
  fetch_sharepoint_lists_of main_py scenario_B = ([], Ok [(KStr "Tasks", JStr "T1")]).
Proof.
  apply (fetch_sharepoint_lists_in_order main_py scenario_B
           [("value", JArr [collection "Documents" "D0"; collection "Tasks" "T1"])]
           [collection "Documents" "D0"; collection "Tasks" "T1"]);
    try reflexivity.
  - repeat constructor.
  - cbn. constructor; [intros k' []|constructor].
Defined.

(** ** No usable listing of collections *)

(** X2.  When the request for the collections fails, or answers an
    object without a [value] key, [main] of [main.py] logs that the
    fetch failed and that no list was found and returns without a
    graph; no field listing is asked for, whatever the source would
    answer to it. *)
Theorem main_without_listing (source : MetadataSource) :
  listing_failed (lists_response source) ->
  Main.main source
  = (match lists_response source with
     | None => [Error_request_failed]
     | Some _ => []
     end ++ [Error_fetch_lists_failed; Error_no_lists_found], Ok None).
Proof.
  intros Hfailed. pose proof (no_value_failed _ Hfailed) as Hno.
  unfold Main.main, main, fetch_sharepoint_lists.
  destruct (lists_response source) as [body|];
    cbn [fetch_data bind M_monad ret log lift app]; rewrite Hno; reflexivity.
Qed.

Lemma main_without_listing_witness :
  Main.main {| lists_response := Some (JObj [("error", JStr "denied")]);
               columns_response := fun _ => Some (listing []) |}
  = ([Error_fetch_lists_failed; Error_no_lists_found], Ok None).
Proof.
  apply (main_without_listing
           {| lists_response := Some (JObj [("error", JStr "denied")]);
              columns_response := fun _ => Some (listing []) |}).
  right. eexists. split; reflexivity.
Defined.

(** ** The two programs *)

Lemma add_edges_ext (lookup1 lookup2 : lists_map -> json -> option pykey)
    (lists_dict : lists_map) (rels : list relationship) :
  (forall target, lookup1 lists_dict target = lookup2 lists_dict target) ->
  forall graph,
    fold_left (add_edge lookup1 lists_dict) rels graph
    = fold_left (add_edge lookup2 lists_dict) rels graph.
Proof.
  intros Hext. induction rels as [|[[s t] c] rels IH]; intros graph; [reflexivity|].
  cbn [fold_left]. rewrite IH. unfold add_edge at 2 4. now rewrite Hext.
Qed.

(** X3.  [generate_uml_graph] of [main.py], which finds the target
    table with [next] over a generator, and [generate_uml_graph] of
    [app.py], which finds it with a loop and a [break], return the
    same graph or raise the same exception, and log the same lines,
    on every collection map and source. *)
Theorem generate_uml_graph_programs_agree (source : MetadataSource)
    (lists_dict : lists_map) :
  Main.generate_uml_graph source lists_dict = App.generate_uml_graph source lists_dict.
Proof.
  unfold Main.generate_uml_graph, App.generate_uml_graph,
    generate_uml_graph_main, generate_uml_graph, generate_with.
  destruct (for_each lists_dict (add_table source) (empty_graph, []))
    as [l [[graph rels]|e]]; [|reflexivity].
  cbn [bind M_monad ret]. do 2 f_equal.
  apply add_edges_ext. intros target. apply next_target_table_find.
Qed.

Lemma without_name_set_same (name : string) (d : lists_map) (value : json) :
  without_name name (dict_set d (KStr name) value) = without_name name d.
Proof.
  unfold without_name. induction d as [|[k v] d IH]; simpl.
  - now rewrite String.eqb_refl.
  - destruct (key_eqb k (KStr name)) eqn:Hk; simpl; rewrite Hk; simpl.
    + reflexivity.
    + now rewrite IH.
Qed.

Lemma without_name_set_other (name : string) (d : lists_map) (key : pykey)
    (value : json) :
  key_eqb key (KStr name) = false ->
  without_name name (dict_set d key value) = dict_set (without_name name d) key value.
Proof.
  intros Hkey. unfold without_name. induction d as [|[k v] d IH]; simpl.
  - now rewrite Hkey.
  - destruct (key_eqb k key) eqn:Hk; simpl.
    + assert (Hkn : key_eqb k (KStr name) = false).
      { destruct (key_eqb k (KStr name)) eqn:H; [|reflexivity].
        rewrite key_eqb_sym in Hk.
        now rewrite (key_eqb_trans key k (KStr name) Hk H) in Hkey. }
      rewrite Hkn. simpl. now rewrite Hk.
    + destruct (key_eqb k (KStr name)); simpl; [exact IH|].
      now rewrite Hk, IH.
Qed.

Lemma py_in_strs_main (x : json) :
  py_in_strs x Main.LISTS_TO_IGNORE
  = py_in_strs x App.LISTS_TO_IGNORE
    || match x with
       | JStr s => String.eqb s "Web Template Extensions"
       | _ => false
       end.
Proof.
  destruct x as [| | |s| |]; try reflexivity.
  unfold py_in_strs, str_in, Main.LISTS_TO_IGNORE, App.LISTS_TO_IGNORE.
  cbn [existsb]. now rewrite !orb_false_r, !orb_assoc.
Qed.

Lemma keep_list_main_app (lists_dict : lists_map) (item : json) :
  keep_list Main.LISTS_TO_IGNORE
    (without_name "Web Template Extensions" lists_dict) item
  = map_outcome (without_name "Web Template Extensions")
      (keep_list App.LISTS_TO_IGNORE lists_dict item).
Proof.
  destruct item as [| | | | |d]; try reflexivity.
  unfold keep_list, dict_has, py_getitem.
  destruct (dict_get d "displayName") as [displayName|]; [|reflexivity].
  destruct (dict_get d "id") as [id|]; [|reflexivity].
  cbn [andb lift bind M_monad app]. rewrite py_in_strs_main.
  destruct (py_in_strs displayName App.LISTS_TO_IGNORE); [reflexivity|].
  cbn [orb negb].
  destruct displayName as [|b|n|s|xs|o]; try reflexivity;
    unfold map_outcome;
    cbn [negb lift bind M_monad app hash_key ret logged outcome fst snd].
  - now rewrite without_name_set_other.
  - now rewrite without_name_set_other.
  - now rewrite without_name_set_other.
  - destruct (String.eqb s "Web Template Extensions") eqn:Hs.
    + apply String.eqb_eq in Hs. subst s.
      cbn [negb ret M_monad logged outcome fst snd].
      now rewrite without_name_set_same.
    + cbn [negb lift bind M_monad app hash_key ret logged outcome fst snd].
      rewrite without_name_set_other; [reflexivity|]. exact Hs.
Qed.

Lemma keep_lists_main_app (items : list json) :
  forall lists_dict,
    for_each items (keep_list Main.LISTS_TO_IGNORE)
      (without_name "Web Template Extensions" lists_dict)
    = map_outcome (without_name "Web Template Extensions")
        (for_each items (keep_list App.LISTS_TO_IGNORE) lists_dict).
Proof.
  induction items as [|item items IH]; intros ld; [reflexivity|].
  cbn [for_each]. rewrite keep_list_main_app.
  destruct (keep_list App.LISTS_TO_IGNORE ld item) as [l [ld'|e]];
    cbn [map_outcome logged outcome fst snd bind M_monad]; [|reflexivity].
  rewrite IH.
  destruct (for_each items (keep_list App.LISTS_TO_IGNORE) ld') as [l' [ld''|e]];
    reflexivity.
Qed.

(** X4.  The two programs differ in one ignored name.  On every source,
    [fetch_sharepoint_lists] of [main.py] logs what that of [app.py]
    logs, raises when it raises, and otherwise returns its map without
    the entry of [Web Template Extensions], the other entries being the
    same and in the same order. *)
Theorem fetch_sharepoint_lists_main_app (source : MetadataSource) :
  Main.fetch_sharepoint_lists source
  = map_outcome (without_name "Web Template Extensions")
      (App.fetch_sharepoint_lists source).
Proof.
  unfold Main.fetch_sharepoint_lists, App.fetch_sharepoint_lists,
    fetch_sharepoint_lists.
  destruct (fetch_data (lists_response source)) as [l [lists_data|e]];
    [|reflexivity].
  cbn [bind M_monad lift].
  destruct (no_value lists_data) as [[|]|e]; [reflexivity| |reflexivity].
  destruct (py_getitem lists_data "value") as [value|e]; [|reflexivity].
  destruct (py_iter value) as [items|e]; [|reflexivity].
  change (@nil (pykey * json)) with (without_name "Web Template Extensions" []) at 1.
  rewrite keep_lists_main_app.
  destruct (for_each items (keep_list App.LISTS_TO_IGNORE) []) as [l' [ld|e]];
    reflexivity.
Qed.

(** ** The columns, in the order of the listing *)

Lemma keep_column_column_of (columns : list column) (item : json) :
  bad_descriptor item = None ->
  keep_column columns item = Ok (columns ++ column_of item).
Proof.
  destruct item as [| | | | |d]; try discriminate.
  cbn [bad_descriptor]. unfold keep_column, column_of, py_get, name_of.
  destruct (get_column_type_loop_total d type_mappings) as [details Hd].
  fold (get_column_type (JObj d)) in Hd.
  destruct (dict_get d "name") as [[| | |s| |]|]; try discriminate; intros _;
    cbn [bind result_monad].
  - fold (kept_name s). destruct (kept_name s); [|now rewrite app_nil_r].
    rewrite Hd. now destruct (dict_get d "id"), (dict_get d "required").
  - fold (kept_name ""). destruct (kept_name ""); [|now rewrite app_nil_r].
    rewrite Hd. now destruct (dict_get d "id"), (dict_get d "required").
Qed.

Lemma keep_columns_column_of (items : list json) :
  Forall (fun item => bad_descriptor item = None) items ->
  forall columns,
    for_each items keep_column columns = Ok (columns ++ flat_map column_of items).
Proof.
  induction 1 as [|item items Hitem _ IH]; intros columns.
  - cbn. now rewrite app_nil_r.
  - cbn [for_each flat_map bind result_monad].
    rewrite (keep_column_column_of columns item Hitem), IH.
    now rewrite app_assoc.
Qed.

Lemma column_of_names (items : list json) :
  Forall (fun item => bad_descriptor item = None) items ->
  map col_name (flat_map column_of items) = filter kept_name (map name_of items).
Proof.
  induction 1 as [|item items Hitem _ IH]; [reflexivity|].
  cbn [flat_map map filter]. rewrite map_app, IH.
  destruct item as [| | | | |d]; try discriminate.
  unfold column_of.
  destruct (get_column_type_loop_total d type_mappings) as [details Hd].
  fold (get_column_type (JObj d)) in Hd. rewrite Hd.
  now destruct (kept_name (name_of (JObj d))).
Qed.

(** X5.  When every item of a listing of columns is a dict whose
    [name], if it has one, is a string, [fetch_columns] raises
    nothing, and the names of the columns it returns are the names of
    the listed fields that are not in [COLUMNS_TO_IGNORE] and do not
    match the pattern, in the order of the listing and with their
    repetitions, a field without a name counting as the empty name;
    each column carries the classification, the [id] and the
    [required] flag of its descriptor. *)
Theorem fetch_columns_in_order (source : MetadataSource) (list_id : json)
    (items : list json) :
  listed_items (columns_response source list_id) = Ok items ->
  Forall (fun item => bad_descriptor item = None) items ->
  outcome (fetch_columns source list_id) = Ok (flat_map column_of items)
  /\ map col_name (flat_map column_of items) = filter kept_name (map name_of items).
Proof.
  intros Hitems Hgood. split.
  - rewrite fetch_columns_outcome, Hitems. cbn [bind result_monad].
    now rewrite (keep_columns_column_of items Hgood []).
  - now apply column_of_names.
Qed.

Lemma fetch_columns_in_order_witness :
  outcome (fetch_columns scenario_A (JStr "O1")) = Ok columns_A_orders
  /\ map col_name columns_A_orders
     = filter kept_name ["Title"; "ID"; "Author_x003a_Name"; "CustomerRef"; "ArchiveRef"].
Proof.
  apply (fetch_columns_in_order scenario_A (JStr "O1")
           [text_column "Title"; JObj [("name", JStr "ID"); ("number", JObj [])];
            lookup_column "Author_x003a_Name" "U1"; lookup_column "CustomerRef" "C1";
            lookup_column "ArchiveRef" "Z9"]).
  - reflexivity.
  - repeat constructor.
Defined.

Lemma for_each_result_app {A S : Type} (body : S -> A -> result S) (xs ys : list A) :
  forall s : S,
    for_each (xs ++ ys) body s
    = match for_each xs body s with
      | Ok s' => for_each ys body s'
      | Raise e => Raise e
      end.
Proof.
  induction xs as [|x xs IH]; intros s; [reflexivity|].
  cbn [app for_each bind result_monad].
  destruct (body s x) as [s1|e]; [apply IH | reflexivity].
Qed.

Lemma keep_column_bad (columns : list column) (item : json) (e : exn) :
  bad_descriptor item = Some e -> keep_column columns item = Raise e.
Proof.
  destruct item as [| | | | |d]; cbn [bad_descriptor];
    try (intros H; injection H as <-; reflexivity).
  unfold keep_column, py_get.
  destruct (dict_get d "name") as [[| | |s| |]|]; try discriminate;
    intros H; injection H as <-; reflexivity.
Qed.

(** X6.  [fetch_columns] has no guard on the items of the listing: the
    first item that is not a dict makes it raise [AttributeError], and
    the first dict whose [name] is not a string makes it raise
    [TypeError], whatever the items after it; no column is returned. *)
Theorem fetch_columns_bad_descriptor (source : MetadataSource) (list_id : json)
    (good : list json) (bad : json) (rest : list json) (e : exn) :
  listed_items (columns_response source list_id) = Ok (good ++ bad :: rest) ->
  Forall (fun item => bad_descriptor item = None) good ->
  bad_descriptor bad = Some e ->
  outcome (fetch_columns source list_id) = Raise e
  /\ (e = AttributeError \/ e = TypeError).
Proof.
  intros Hitems Hgood Hbad. split.
  - rewrite fetch_columns_outcome, Hitems. cbn [bind result_monad].
    rewrite for_each_result_app, (keep_columns_column_of good Hgood []).
    cbn [for_each bind result_monad].
    now rewrite (keep_column_bad _ bad e Hbad).
  - destruct bad as [| | | | |d]; cbn [bad_descriptor] in Hbad;
      try (injection Hbad as <-; now left).
    destruct (dict_get d "name") as [[| | |s| |]|]; try discriminate;
      injection Hbad as <-; now right.
Qed.

Lemma fetch_columns_bad_descriptor_witness :
  outcome (fetch_columns
             {| lists_response := None;
                columns_response := fun _ =>
                  Some (listing [text_column "Title"; JObj [("name", JNum 7)];
                                 JStr "Status"]) |}
             (JStr "T1"))
  = Raise TypeError
  /\ (TypeError = AttributeError \/ TypeError = TypeError).
Proof.
  apply (fetch_columns_bad_descriptor _ (JStr "T1")
           [text_column "Title"] (JObj [("name", JNum 7)]) [JStr "Status"]).
  - reflexivity.
  - repeat constructor.
  - reflexivity.
Defined.

(** ** Exceptions *)

Lemma column_relationship_details (list_name : pykey) (c : column) :
  if lookup_details_ok c
  then exists rels, column_relationship list_name c = Ok rels
  else column_relationship list_name c = Raise AttributeError.
Proof.
  unfold lookup_details_ok, column_relationship.
  destruct (String.eqb (td_type (col_type_details c)) "lookup");
    [|now exists []].
  destruct (td_details (col_type_details c)) as [| | | | |d]; try reflexivity.
  cbn [py_get]. destruct (dict_get d "listId"); cbn [bind result_monad]; eauto.
Qed.

Lemma column_relationships_details (list_name : pykey) (columns : list column) :
  if forallb lookup_details_ok columns
  then exists rels, traverse (column_relationship list_name) columns = Ok rels
  else traverse (column_relationship list_name) columns = Raise AttributeError.
Proof.
  induction columns as [|c columns IH]; [now exists []|].
  cbn [forallb traverse bind result_monad].
  pose proof (column_relationship_details list_name c) as Hc.
  destruct (lookup_details_ok c); cbn [andb].
  - destruct Hc as [r ->]. destruct (forallb lookup_details_ok columns).
    + destruct IH as [rs ->]. eauto.
    + now rewrite IH.
  - now rewrite Hc.
Qed.

(** X7.  Once the columns of a collection are fetched, building its
    table raises exactly when one of them is a lookup whose details
    are not a dict ([.get("listId")] has nothing to be called on), and
    the exception is then [AttributeError]; otherwise the table is
    built, with the fetched columns. *)
Theorem table_of_lookup_details (source : MetadataSource) (list_name : pykey)
    (list_id : json) (columns : list column) :
  outcome (fetch_columns source list_id) = Ok columns ->
  if forallb lookup_details_ok columns
  then exists rels,
         table_of source (list_name, list_id)
         = Ok {| t_name := list_name; t_columns := columns;
                 t_relationships := rels |}
  else table_of source (list_name, list_id) = Raise AttributeError.
Proof.
  intros Hcols. unfold table_of. cbn [fst snd]. rewrite Hcols.
  cbn [bind result_monad].
  pose proof (column_relationships_details list_name columns) as H.
  destruct (forallb lookup_details_ok columns).
  - destruct H as [rels ->]. eauto.
  - now rewrite H.
Qed.

Lemma table_of_lookup_details_witness :
  table_of {| lists_response := None;
              columns_response := fun _ =>
                Some (listing [JObj [("name", JStr "Ref"); ("lookup", JNull)]]) |}
           (KStr "Orders", JStr "O1")
  = Raise AttributeError.
Proof.
  apply (table_of_lookup_details
           {| lists_response := None;
              columns_response := fun _ =>
                Some (listing [JObj [("name", JStr "Ref"); ("lookup", JNull)]]) |}
           (KStr "Orders") (JStr "O1") [kept_column "Ref" "lookup" JNull]).
  reflexivity.
Defined.

Lemma main_raises (source : MetadataSource) (lists_dict : lists_map) (e : exn) :
  lists_dict <> [] ->
  outcome (fetch_sharepoint_lists Main.LISTS_TO_IGNORE source) = Ok lists_dict ->
  outcome (generate_uml_graph_main source lists_dict) = Raise e ->
  outcome (Main.main source) = Raise e.
Proof.
  intros Hne Hfetch Hgen. unfold Main.main, main. rewrite outcome_bind, Hfetch.
  destruct lists_dict as [|entry rest]; [now elim Hne|].
  now rewrite outcome_bind, Hgen.
Qed.

(** X8.  Nothing in [generate_uml_graph] or [main] catches an
    exception.  Take a collection whose table cannot be built or,
    the table being built, whose node cannot be made, the name
    being no string; the collections before it have their table
    built and their node made, their names being strings.  Then the
    assembly raises the exception of that collection, whatever the
    collections after it, and so does [main] of [main.py]; no graph is
    returned.  The exception is that of the table, or [TypeError] for
    the node. *)
Theorem generate_uml_graph_raises (p : program) (source : MetadataSource)
    (before after : lists_map) (entry : pykey * json) (tables : list table)
    (e : exn) :
  traverse (table_of source) before = Ok tables ->
  Forall (fun entry => string_key (fst entry) = true) before ->
  node_table source entry = Raise e ->
  outcome (generate_uml_graph_of p source (before ++ entry :: after)) = Raise e
  /\ (outcome (fetch_sharepoint_lists_of main_py source)
      = Ok (before ++ entry :: after) ->
      outcome (Main.main source) = Raise e)
  /\ (table_of source entry = Raise e
      \/ (exists t, table_of source entry = Ok t)
         /\ string_key (fst entry) = false /\ e = TypeError).
Proof.
  intros Hbefore Hnames Hentry.
  assert (Hgen : forall q, outcome (generate_uml_graph_of q source
                                      (before ++ entry :: after)) = Raise e).
  { intros q. rewrite generate_uml_graph_of_assemble. unfold assemble.
    rewrite traverse_app.
    rewrite (proj2 (node_tables_tables source before tables) (conj Hbefore Hnames)).
    cbn [traverse bind result_monad]. now rewrite Hentry. }
  split; [apply Hgen|]. split.
  - intros Hfetch. apply (main_raises source (before ++ entry :: after)).
    + now destruct before.
    + exact Hfetch.
    + exact (Hgen main_py).
  - unfold node_table in Hentry.
    destruct (table_of source entry) as [t|e1]; cbn [bind result_monad] in Hentry.
    + destruct (string_key (fst entry)); [discriminate|].
      injection Hentry as <-. right. eauto.
    + now left.
Qed.

(** A lookup whose facet is [null], in the second of three collections. *)
Lemma generate_uml_graph_raises_witness :
  outcome (Main.main
             {| lists_response :=
                  Some (listing [collection "Tasks" "T1"; collection "Orders" "O1";
                                 collection "Customers" "C1"]);
                columns_response := fun list_id =>
                  if py_eq list_id (JStr "O1")
                  then Some (listing [JObj [("name", JStr "Ref"); ("lookup", JNull)]])
                  else Some (listing []) |})
  = Raise AttributeError.
Proof.
  refine (proj1 (proj2 (generate_uml_graph_raises main_py _
                   [(KStr "Tasks", JStr "T1")] [(KStr "Customers", JStr "C1")]
                   (KStr "Orders", JStr "O1") [empty_table (KStr "Tasks")]
                   AttributeError _ _ _)) _);
    [reflexivity | repeat constructor | reflexivity | reflexivity].
Defined.

Lemma listed_items_raises (response : option json) (e : exn) :
  listed_items response = Raise e -> e = TypeError.
Proof.
  unfold listed_items, no_value.
  destruct response as [[|b|n|s|xs|d]|]; cbn [truthy negb py_contains bind result_monad].
  - discriminate.
  - destruct b; cbn; congruence.
  - destruct (n =? 0)%Z; cbn; congruence.
  - destruct (String.eqb s ""); cbn [negb]; [discriminate|].
    cbn [bind result_monad]. destruct (is_substring "value" s); cbn; congruence.
  - destruct xs; [discriminate|]. cbn [negb bind result_monad].
    destruct (existsb _ _); cbn; congruence.
  - destruct d as [|kv d]; [discriminate|]. cbn [negb bind result_monad].
    set (d' := kv :: d). unfold dict_has, py_getitem.
    destruct (dict_get d' "value") as [value|]; cbn [negb bind result_monad];
      [|discriminate].
    destruct value; cbn; congruence.
  - discriminate.
Qed.

Lemma for_each_raises {A S : Type} (P : exn -> Prop) (body : S -> A -> M S)
    (xs : list A) :
  (forall s x e, outcome (body s x) = Raise e -> P e) ->
  forall s e, outcome (for_each xs body s) = Raise e -> P e.
Proof.
  intros Hbody. induction xs as [|x xs IH]; intros s e; [discriminate|].
  cbn [for_each]. rewrite outcome_bind.
  destruct (outcome (body s x)) as [s1|e1] eqn:Hx.
  - apply IH.
  - intros H. injection H as <-. now apply (Hbody s x).
Qed.

Lemma for_each_result_raises {A S : Type} (P : exn -> Prop)
    (body : S -> A -> result S) (xs : list A) :
  (forall s x e, body s x = Raise e -> P e) ->
  forall s e, for_each xs body s = Raise e -> P e.
Proof.
  intros Hbody. induction xs as [|x xs IH]; intros s e; [discriminate|].
  cbn [for_each bind result_monad].
  destruct (body s x) as [s1|e1] eqn:Hx.
  - apply IH.
  - intros H. injection H as <-. now apply (Hbody s x).
Qed.

Lemma traverse_raises {A B : Type} (P : exn -> Prop) (f : A -> result B)
    (xs : list A) :
  (forall x e, f x = Raise e -> P e) ->
  forall e, traverse f xs = Raise e -> P e.
Proof.
  intros Hf. induction xs as [|x xs IH]; intros e; [discriminate|].
  cbn [traverse bind result_monad].
  destruct (f x) as [y|e1] eqn:Hx.
  - destruct (traverse f xs) as [ys|e2]; [discriminate|].
    intros H. injection H as <-. now apply IH.
  - intros H. injection H as <-. now apply (Hf x).
Qed.

Lemma fetch_sharepoint_lists_raises (ignore : list string)
    (source : MetadataSource) (e : exn) :
  outcome (fetch_sharepoint_lists ignore source) = Raise e -> e = TypeError.
Proof.
  rewrite fetch_sharepoint_lists_outcome.
  destruct (listed_items (lists_response source)) as [items|e1] eqn:Hitems.
  - cbn [bind result_monad].
    apply (for_each_raises (fun e0 => e0 = TypeError) (keep_list ignore) items).
    clear. intros ld item e. rewrite keep_list_outcome.
    destruct item as [| | | | |d]; try discriminate.
    destruct (dict_get d "displayName") as [displayName|]; [|discriminate].
    destruct (dict_get d "id"); [|discriminate].
    destruct (py_in_strs displayName ignore); [discriminate|].
    destruct displayName; cbn; congruence.
  - cbn [bind result_monad]. intros H. injection H as <-.
    now apply (listed_items_raises _ _ Hitems).
Qed.

Lemma keep_column_raises (columns : list column) (col : json) (e : exn) :
  keep_column columns col = Raise e -> e = TypeError \/ e = AttributeError.
Proof.
  unfold keep_column. destruct col as [| | | | |d]; cbn [py_get bind result_monad];
    try (intros H; injection H as <-; now right).
  destruct (get_column_type_loop_total d type_mappings) as [details Hd].
  fold (get_column_type (JObj d)) in Hd.
  destruct (dict_get d "name") as [[| | |s| |]|]; cbn [bind result_monad];
    try (intros H; injection H as <-; now left).
  - destruct (_ && _); [|discriminate]. rewrite Hd.
    destruct (dict_get d "id"), (dict_get d "required"); discriminate.
  - destruct (_ && _); [|discriminate]. rewrite Hd.
    destruct (dict_get d "id"), (dict_get d "required"); discriminate.
Qed.

Lemma table_of_raises (source : MetadataSource) (entry : pykey * json) (e : exn) :
  table_of source entry = Raise e -> e = TypeError \/ e = AttributeError.
Proof.
  unfold table_of. rewrite fetch_columns_outcome.
  destruct (listed_items _) as [cols|e1] eqn:Hcols; cbn [bind result_monad].
  - destruct (for_each cols keep_column []) as [columns|e1] eqn:Hkeep;
      cbn [bind result_monad].
    + destruct (traverse _ columns) as [rels|e1] eqn:Hrels; [discriminate|].
      intros H. injection H as <-. right. revert e1 Hrels.
      apply (traverse_raises (fun e0 => e0 = AttributeError)). intros c e2 Hc.
      pose proof (column_relationship_details (fst entry) c) as Hd.
      destruct (lookup_details_ok c); [destruct Hd as [r Hr]|]; congruence.
    + intros H. injection H as <-. revert Hkeep.
      apply (for_each_result_raises (fun e0 => e0 = TypeError \/ e0 = AttributeError)).
      intros s x e2. apply keep_column_raises.
  - intros H. injection H as <-. left. now apply (listed_items_raises _ _ Hcols).
Qed.

Lemma node_table_raises (source : MetadataSource) (entry : pykey * json) (e : exn) :
  node_table source entry = Raise e -> e = TypeError \/ e = AttributeError.
Proof.
  unfold node_table.
  destruct (table_of source entry) as [t|e1] eqn:Ht; cbn [bind result_monad].
  - destruct (string_key (fst entry)); [discriminate|].
    intros H. injection H as <-. now left.
  - intros H. injection H as <-. now apply (table_of_raises source entry).
Qed.

(** X9.  Every lookup of a key in the pipeline is behind a membership
    test or goes through [.get]: fetching the collections raises
    nothing but [TypeError], and the assembly and [main] of [main.py]
    raise nothing but [TypeError] and [AttributeError], so never
    [KeyError], whatever the source answers. *)
Theorem pipeline_raises_no_key_error (p : program) (source : MetadataSource)
    (lists_dict : lists_map) (e : exn) :
  outcome (fetch_sharepoint_lists_of p source) = Raise e
  \/ outcome (generate_uml_graph_of p source lists_dict) = Raise e
  \/ outcome (Main.main source) = Raise e ->
  (outcome (fetch_sharepoint_lists_of p source) = Raise e -> e = TypeError)
  /\ (e = TypeError \/ e = AttributeError).
Proof.
  assert (Hfetch : forall q e0,
             outcome (fetch_sharepoint_lists_of q source) = Raise e0 -> e0 = TypeError).
  { intros q e0. rewrite fetch_sharepoint_lists_of_eq.
    apply fetch_sharepoint_lists_raises. }
  assert (Hgen : forall q ld e0,
             outcome (generate_uml_graph_of q source ld) = Raise e0 ->
             e0 = TypeError \/ e0 = AttributeError).
  { intros q ld e0. rewrite generate_uml_graph_of_assemble. unfold assemble.
    destruct (traverse (node_table source) ld) as [tables|e1] eqn:Ht; [discriminate|].
    cbn [bind result_monad]. intros H. injection H as <-. revert e1 Ht.
    apply (traverse_raises (fun e0 => e0 = TypeError \/ e0 = AttributeError)).
    apply node_table_raises. }
  intros Hraise. split; [apply Hfetch|].
  destruct Hraise as [H|[H|H]].
  - left. now apply (Hfetch p).
  - now apply (Hgen p lists_dict).
  - unfold Main.main, main in H. rewrite outcome_bind in H.
    destruct (outcome (fetch_sharepoint_lists Main.LISTS_TO_IGNORE source))
      as [[|entry rest]|e1] eqn:Hf.
    + discriminate.
    + rewrite outcome_bind in H.
      destruct (outcome (generate_uml_graph_main source (entry :: rest)))
        as [g|e1] eqn:Hg; [discriminate|].
      injection H as <-. apply (Hgen main_py (entry :: rest)). exact Hg.
    + injection H as <-. left. apply (Hfetch main_py). exact Hf.
Qed.

Lemma pipeline_raises_no_key_error_witness :
  outcome (fetch_sharepoint_lists_of main_py
             {| lists_response := Some (JStr "no value");
                columns_response := fun _ => None |})
  = Raise TypeError
  /\ (TypeError = TypeError \/ TypeError = AttributeError).
Proof.
  split; [reflexivity|].
  refine (proj2 (pipeline_raises_no_key_error main_py
                   {| lists_response := Some (JStr "no value");
                      columns_response := fun _ => None |} [] TypeError _)).
  left. reflexivity.
Defined.

(** ** Where the edges come from *)

(** X10.  Every edge of the assembled graph comes from a column: its
    tail is a collection of the map, its label the name of a column
    fetched for that collection and classified as a lookup, whose
    details have a truthy [listId], and its head is the first
    collection of the map, in its order, whose id equals that
    [listId], a collection whose name is truthy. *)
Theorem edge_provenance (p : program) (source : MetadataSource)
    (lists_dict : lists_map) (g : Digraph) (tail head : pykey) (label : string) :
  outcome (generate_uml_graph_of p source lists_dict) = Ok g ->
  In (tail, head, label) (edges g) ->
  exists list_id columns c target,
    In (tail, list_id) lists_dict
    /\ outcome (fetch_columns source list_id) = Ok columns
    /\ In c columns
    /\ col_name c = label
    /\ td_type (col_type_details c) = "lookup"
    /\ py_get (td_details (col_type_details c)) "listId" JNull = Ok target
    /\ truthy target = true
    /\ resolves_to lists_dict target head
    /\ key_truthy head = true.
Proof.
  intros Hgen Hedge. rewrite generate_uml_graph_of_assemble in Hgen.
  destruct (assemble_tables _ _ _ _ Hgen) as [tables [Ht [_ He]]].
  rewrite He in Hedge. apply in_flat_map in Hedge.
  destruct Hedge as [rel [Hrel Hedge]].
  apply edge_of_inv in Hedge. destruct Hedge as [target [Heq [Hfind Htruthy]]].
  apply in_flat_map in Hrel. destruct Hrel as [t [Hin Hrel]].
  destruct (tables_of_entries source lists_dict tables t Ht Hin)
    as [[list_name list_id] [Hentry Htable]].
  destruct (table_of_inv source _ t Htable) as [Hname [Hcols [rels [Hrels Hconcat]]]].
  cbn [fst snd] in *. rewrite Hconcat in Hrel. apply in_concat in Hrel.
  destruct Hrel as [r [Hr Hrel]]. apply traverse_Forall2 in Hrels.
  destruct (Forall2_In_r _ _ _ r Hrels Hr) as [c [Hc Hcr]].
  destruct (column_relationship_inv _ c r rel Hcr Hrel) as [Htype [Hget [Htarget Hrel']]].
  rewrite Hrel' in Heq. cbn [fst snd] in Heq. injection Heq as -> -> ->.
  exists list_id, (t_columns t), c, (snd (fst rel)).
  repeat split; try assumption.
  now apply find_target_table_resolves.
Qed.

Lemma edge_provenance_witness :
  exists list_id columns c target,
    In (KStr "Orders", list_id) lists_A
    /\ outcome (fetch_columns scenario_A list_id) = Ok columns
    /\ In c columns
    /\ col_name c = "CustomerRef"
    /\ td_type (col_type_details c) = "lookup"
    /\ py_get (td_details (col_type_details c)) "listId" JNull = Ok target
    /\ truthy target = true
    /\ resolves_to lists_A target (KStr "Customers")
    /\ key_truthy (KStr "Customers") = true.
Proof.
  apply (edge_provenance main_py scenario_A lists_A graph_A
           (KStr "Orders") (KStr "Customers") "CustomerRef").
  - reflexivity.
  - now left.
Defined.

(** ** One node per collection *)

Lemma distinct_keys_NoDup (d : lists_map) : distinct_keys d -> NoDup (map fst d).
Proof.
  induction 1 as [|k v d Hk _ IH]; simpl; constructor; [|exact IH].
  intros Hin. specialize (Hk k Hin). now rewrite key_eqb_refl in Hk.
Qed.

(** X11.  The map that [fetch_sharepoint_lists] returns has no two
    equal keys, and the graph assembled from it has one node per key:
    no two nodes of the graph have the same name, however many
    collections of one display name the source lists. *)
Theorem node_names_distinct (p : program) (source : MetadataSource)
    (lists_dict : lists_map) (g : Digraph) :
  outcome (fetch_sharepoint_lists_of p source) = Ok lists_dict ->
  outcome (generate_uml_graph_of p source lists_dict) = Ok g ->
  NoDup (map fst (nodes g)) /\ length (nodes g) = length lists_dict.
Proof.
  intros Hfetch Hgen. rewrite fetch_sharepoint_lists_of_eq in Hfetch.
  rewrite generate_uml_graph_of_assemble in Hgen.
  pose proof (assemble_node_names _ _ _ _ Hgen) as Hnames. split.
  - rewrite Hnames. apply distinct_keys_NoDup.
    exact (fetch_sharepoint_lists_distinct _ source lists_dict Hfetch).
  - rewrite <- (length_map fst (nodes g)), Hnames. apply length_map.
Qed.

Lemma node_names_distinct_witness :
  outcome (fetch_sharepoint_lists_of main_py scenario_same_name)
  = Ok [(KStr "Tasks", JStr "T2"); (KStr "Orders", JStr "O1")]
  /\ NoDup [KStr "Tasks"; KStr "Orders"].
Proof.
  split; [reflexivity|].
  refine (proj1 (node_names_distinct main_py scenario_same_name
                   [(KStr "Tasks", JStr "T2"); (KStr "Orders", JStr "O1")]
                   {| nodes := [ (KStr "Tasks", table_label (KStr "Tasks") []);
                                 (KStr "Orders", table_label (KStr "Orders") []) ];
                      edges := [] |} _ _)); reflexivity.
Defined.

(** ** The field filter *)

(** X12.  [fetch_columns] keeps a field name exactly when it is not one
    of the names of [COLUMNS_TO_IGNORE] and [x003a] does not occur on
    its first line: [re.match] anchors the pattern at the start and
    [.] stops at a newline, so a name that has [x003a] only after a
    newline is kept. *)
Theorem kept_name_spec (s : string) :
  (kept_name s = true
   <-> ~ In s COLUMNS_TO_IGNORE
       /\ ~ exists before after,
              s = (before ++ "x003a" ++ after)%string /\ one_line before = true)
  /\ kept_name (String newline "x003a") = true.
Proof.
  split; [|reflexivity].
  unfold kept_name. rewrite andb_true_iff, !negb_true_iff.
  rewrite str_in_false, <- column_pattern_matches.
  now rewrite not_true_iff_false.
Qed.

(** ** The log of the assembly *)

Lemma fetch_columns_no_info (source : MetadataSource) (list_id : json) :
  filter is_info (logged (fetch_columns source list_id)) = [].
Proof.
  unfold fetch_columns.
  destruct (columns_response source list_id) as [body|];
    cbn [fetch_data bind M_monad ret log lift app].
  - destruct (no_value body) as [[|]|e]; try reflexivity.
    destruct (py_getitem body "value") as [value|e]; [|reflexivity].
    cbn [app]. destruct (py_iter value) as [cols|e]; [|reflexivity].
    cbn [app]. now destruct (for_each cols keep_column []).
  - now destruct (no_value JNull) as [[|]|e].
Qed.

Lemma add_table_info (source : MetadataSource) (acc acc' : Digraph * list relationship)
    (entry : pykey * json) :
  outcome (add_table source acc entry) = Ok acc' ->
  filter is_info (logged (add_table source acc entry))
  = [Info_generating_table (fst entry)].
Proof.
  destruct acc as [graph rels], entry as [list_name list_id]. unfold add_table.
  rewrite outcome_bind, logged_bind, filter_app, fetch_columns_no_info.
  destruct (outcome (fetch_columns source list_id)) as [columns|e]; [|discriminate].
  rewrite outcome_bind, logged_bind. cbn [log outcome logged fst snd app].
  rewrite outcome_bind, logged_bind, outcome_lift. cbn [lift logged fst app].
  destruct (for_each columns (add_row list_name) _) as [[label rels']|e];
    [|discriminate].
  intros _. cbn [bind result_monad fst snd].
  now destruct (graph_node graph list_name _).
Qed.

Lemma add_tables_info (source : MetadataSource) (lists_dict : lists_map) :
  forall acc acc',
    outcome (for_each lists_dict (add_table source) acc) = Ok acc' ->
    filter is_info (logged (for_each lists_dict (add_table source) acc))
    = map Info_generating_table (map fst lists_dict).
Proof.
  induction lists_dict as [|entry rest IH]; intros acc acc' Hrun; [reflexivity|].
  cbn [for_each] in *. rewrite outcome_bind in Hrun.
  rewrite logged_bind, filter_app.
  destruct (outcome (add_table source acc entry)) as [acc1|e] eqn:Hstep;
    [|discriminate].
  rewrite (add_table_info source acc acc1 entry Hstep), (IH acc1 acc' Hrun).
  reflexivity.
Qed.

(** X13.  An assembly that returns a graph has logged one
    [Generating table for ...] line per collection of the map, in the
    order of the map, among the errors of the field listings that
    failed. *)
Theorem generate_uml_graph_info_lines (p : program) (source : MetadataSource)
    (lists_dict : lists_map) (g : Digraph) :
  outcome (generate_uml_graph_of p source lists_dict) = Ok g ->
  filter is_info (logged (generate_uml_graph_of p source lists_dict))
  = map Info_generating_table (map fst lists_dict).
Proof.
  intros Hgen. rewrite generate_uml_graph_of_logged.
  rewrite generate_uml_graph_of_assemble in Hgen.
  rewrite <- (generate_with_assemble find_target_table) in Hgen.
  unfold generate_with in Hgen. rewrite outcome_bind in Hgen.
  destruct (outcome (for_each lists_dict (add_table source) (empty_graph, [])))
    as [acc'|e] eqn:Hrun; [|discriminate].
  now apply (add_tables_info source lists_dict (empty_graph, []) acc').
Qed.

Lemma generate_uml_graph_info_lines_witness :
  filter is_info (logged (generate_uml_graph_of main_py scenario_C lists_C))
  = [Info_generating_table (KStr "Tasks"); Info_generating_table (KStr "Orders")].
Proof.
  apply (generate_uml_graph_info_lines main_py scenario_C lists_C graph_C).
  reflexivity.
Defined.

(** ** The classifier outside descriptors *)

Lemma get_column_type_loop_raises (items : list (string * string)) (column : json)
    (e : exn) :
  (forall d, column <> JObj d) ->
  get_column_type_loop items column = Raise e -> e = TypeError.
Proof.
  intros Hnot. induction items as [|[key value] items IH]; [discriminate|].
  cbn [get_column_type_loop bind result_monad].
  destruct column as [| | |s|xs|d]; cbn [py_contains py_getitem];
    try (intros H; injection H as <-; reflexivity).
  - destruct (is_substring key s); [|exact IH].
    intros H. now injection H as <-.
  - destruct (existsb _ xs); [|exact IH].
    intros H. now injection H as <-.
  - now elim (Hnot d).
Qed.

(** X14.  [get_column_type] tests [key in column] before it reads
    [column[key]]: it raises on no dict, and on a value that is not a
    dict it raises nothing but [TypeError] (never [KeyError]): on a
    number, a boolean or [None] at the first test, on a string or a
    list when a classifier key occurs in it. *)
Theorem get_column_type_raises (column : json) (e : exn) :
  get_column_type column = Raise e ->
  e = TypeError /\ forall d, column <> JObj d.
Proof.
  intros Hraise.
  assert (Hnot : forall d, column <> JObj d).
  { intros d ->. destruct (get_column_type_loop_total d type_mappings) as [t Ht].
    unfold get_column_type in Hraise. congruence. }
  split; [|exact Hnot].
  now apply (get_column_type_loop_raises type_mappings column e Hnot).
Qed.

Lemma get_column_type_raises_witness :
  TypeError = TypeError /\ forall d, JArr [JStr "id"; JStr "number"] <> JObj d.
Proof.
  apply (get_column_type_raises (JArr [JStr "id"; JStr "number"]) TypeError).
  reflexivity.
Defined.

(** ** A source that answers as documented *)

Lemma lookup_facet_details (d : pydict) (details : type_details) :
  get_column_type (JObj d) = Ok details ->
  lookup_facet_ok (JObj d) = true ->
  td_type details = "lookup" ->
  exists o, td_details details = JObj o.
Proof.
  unfold get_column_type, type_mappings, lookup_facet_ok, dict_has.
  cbn [get_column_type_loop py_contains py_getitem bind result_monad].
  unfold dict_has.
  destruct (dict_get d "text");
    [intros H; injection H as <-; discriminate|].
  destruct (dict_get d "lookup") as [facet|].
  - intros H. injection H as <-. cbn.
    destruct facet; try discriminate. eauto.
  - repeat match goal with
           | |- context [dict_get d ?k] =>
               destruct (dict_get d k);
               [intros H; injection H as <-; discriminate|]
           end.
    intros H. injection H as <-. discriminate.
Qed.

Lemma column_of_lookup_details (item : json) :
  lookup_facet_ok item = true ->
  forallb lookup_details_ok (column_of item) = true.
Proof.
  intros Hfacet. destruct item as [| | | | |d]; try reflexivity.
  unfold column_of. destruct (kept_name _); [|reflexivity].
  destruct (get_column_type (JObj d)) as [details|e] eqn:Hd; [|reflexivity].
  cbn [forallb andb]. rewrite andb_true_r. unfold lookup_details_ok.
  cbn [col_type_details].
  destruct (String.eqb (td_type details) "lookup") eqn:Htype; [|reflexivity].
  apply String.eqb_eq in Htype.
  destruct (lookup_facet_details d details Hd Hfacet Htype) as [o ->].
  reflexivity.
Qed.

Lemma columns_of_lookup_details (items : list json) :
  Forall (fun item => lookup_facet_ok item = true) items ->
  forallb lookup_details_ok (flat_map column_of items) = true.
Proof.
  induction 1 as [|item items Hitem _ IH]; [reflexivity|].
  cbn [flat_map]. rewrite forallb_app, IH, andb_true_r.
  now apply column_of_lookup_details.
Qed.

Lemma conformant_table (source : MetadataSource) (entry : pykey * json) :
  conformant source -> exists t, table_of source entry = Ok t.
Proof.
  intros [_ Hcols]. destruct entry as [list_name list_id].
  destruct (Hcols list_id) as [cols [Hlisted [Hgood Hfacets]]].
  assert (Hfetch : outcome (fetch_columns source list_id)
                   = Ok (flat_map column_of cols)).
  { rewrite fetch_columns_outcome, Hlisted. cbn [bind result_monad].
    now rewrite (keep_columns_column_of cols Hgood []). }
  unfold table_of. cbn [fst snd]. rewrite Hfetch. cbn [bind result_monad].
  pose proof (column_relationships_details list_name (flat_map column_of cols)) as H.
  rewrite (columns_of_lookup_details cols Hfacets) in H.
  destruct H as [rels ->]. eauto.
Qed.

Lemma string_name_hashable (item : json) :
  string_name item = true -> hashable_name item = true.
Proof.
  destruct item as [| | | | |d]; try reflexivity. cbn [string_name hashable_name].
  now destruct (dict_get d "displayName") as [[| | | | |]|].
Qed.

Lemma keep_lists_string_keys (ignore : list string) (items : list json) :
  Forall (fun item => string_name item = true) items ->
  forall lists_dict lists_dict',
    Forall (fun entry => string_key (fst entry) = true) lists_dict ->
    outcome (for_each items (keep_list ignore) lists_dict) = Ok lists_dict' ->
    Forall (fun entry => string_key (fst entry) = true) lists_dict'.
Proof.
  intros Hitems.
  apply (for_each_invariant
           (fun ld => Forall (fun entry => string_key (fst entry) = true) ld)).
  intros ld item ld' Hitem Hld. rewrite keep_list_outcome.
  rewrite Forall_forall in Hitems. specialize (Hitems item Hitem).
  destruct item as [| | | | |d]; try (intros H; now injection H as <-).
  cbn [string_name] in Hitems.
  destruct (dict_get d "displayName") as [displayName|];
    [|intros H; now injection H as <-].
  destruct (dict_get d "id") as [id|]; [|intros H; now injection H as <-].
  destruct (py_in_strs displayName ignore); [intros H; now injection H as <-|].
  destruct displayName as [| | |name| |]; try discriminate.
  cbn [hash_key bind result_monad]. intros H. injection H as <-.
  rewrite Forall_forall in *. intros [k v] Hin. cbn [fst].
  assert (Hk : In k (map fst (dict_set ld (KStr name) id)))
    by (apply (in_map fst) in Hin; exact Hin).
  apply dict_set_keys in Hk. destruct Hk as [Hk| ->]; [|reflexivity].
  apply in_map_iff in Hk. destruct Hk as [[k0 v0] [<- Hin0]].
  exact (Hld (k0, v0) Hin0).
Qed.

(** X15.  On a source that answers as documented (the listings are
    unusable or lists of items, the display names are strings, the
    field descriptors are dicts with string names, and the lookup
    facets are dicts), nothing raises: [fetch_sharepoint_lists]
    returns a map, whose names are strings, the assembly returns a
    graph for that map, as for every map whose names are strings, and
    [main] of [main.py] returns. *)
Theorem conformant_source_never_raises (p : program) (source : MetadataSource) :
  conformant source ->
  (exists lists_dict,
      outcome (fetch_sharepoint_lists_of p source) = Ok lists_dict
      /\ Forall (fun entry => string_key (fst entry) = true) lists_dict
      /\ exists g, outcome (generate_uml_graph_of p source lists_dict) = Ok g)
  /\ (forall lists_dict,
         Forall (fun entry => string_key (fst entry) = true) lists_dict ->
         exists g, outcome (generate_uml_graph_of p source lists_dict) = Ok g)
  /\ exists r, outcome (Main.main source) = Ok r.
Proof.
  intros Hconf.
  assert (Hfetch : forall q, exists ld,
             outcome (fetch_sharepoint_lists_of q source) = Ok ld
             /\ Forall (fun entry => string_key (fst entry) = true) ld).
  { intros q. destruct Hconf as [[items [Hitems Hnames]] _].
    rewrite fetch_sharepoint_lists_of_eq, fetch_sharepoint_lists_outcome, Hitems.
    cbn [bind result_monad].
    destruct (keep_lists_total (LISTS_TO_IGNORE_of q) items) with (lists_dict := @nil (pykey * json))
      as [ld Hld].
    { revert Hnames. apply Forall_impl. apply string_name_hashable. }
    exists ld. split; [exact Hld|].
    now apply (keep_lists_string_keys (LISTS_TO_IGNORE_of q) items Hnames [] ld). }
  assert (Hgen : forall q ld,
             Forall (fun entry => string_key (fst entry) = true) ld ->
             exists g, outcome (generate_uml_graph_of q source ld) = Ok g).
  { intros q ld Hkeys.
    destruct (traverse_total (table_of source) ld) as [tables Ht].
    { intros entry _. now apply conformant_table. }
    eexists. now apply (generate_uml_graph_of_tables q source ld tables). }
  split; [|split; [apply Hgen|]].
  - destruct (Hfetch p) as [ld [Hld Hkeys]]. exists ld. auto.
  - destruct (Hfetch main_py) as [ld [Hld Hkeys]].
    cbn [fetch_sharepoint_lists_of] in Hld.
    unfold Main.fetch_sharepoint_lists in Hld.
    unfold Main.main, main. rewrite outcome_bind, Hld.
    destruct ld as [|entry rest]; [now eexists|].
    destruct (Hgen main_py (entry :: rest) Hkeys) as [g Hg].
    cbn [generate_uml_graph_of] in Hg. unfold Main.generate_uml_graph in Hg.
    rewrite outcome_bind, Hg. now eexists.
Qed.

Lemma conformant_source_never_raises_witness :
  exists r, outcome (Main.main scenario_C) = Ok r.
Proof.
  refine (proj2 (proj2 (conformant_source_never_raises main_py scenario_C _))).
  split.
  - eexists. split; [reflexivity | repeat constructor].
  - intros list_id. unfold scenario_C, columns_response.
    destruct (py_eq list_id (JStr "T1")).
    + exists []. repeat split; constructor.
    + eexists. split; [reflexivity|]. split; repeat constructor.
Defined.

(** ** Lookups into ignored collections *)

Lemma fetch_sharepoint_lists_ids (ignore : list string) (source : MetadataSource)
    (items : list json) (lists_dict : lists_map) (id : json) :
  listed_items (lists_response source) = Ok items ->
  outcome (fetch_sharepoint_lists ignore source) = Ok lists_dict ->
  In id (map snd lists_dict) ->
  exists d displayName,
    In (JObj d) items
    /\ dict_get d "id" = Some id
    /\ dict_get d "displayName" = Some displayName
    /\ py_in_strs displayName ignore = false.
Proof.
  intros Hitems. rewrite fetch_sharepoint_lists_outcome, Hitems.
  cbn [bind result_monad]. intros Hrun. revert id. revert Hrun.
  apply (for_each_invariant
           (fun ld => forall id, In id (map snd ld) ->
              exists d displayName,
                In (JObj d) items
                /\ dict_get d "id" = Some id
                /\ dict_get d "displayName" = Some displayName
                /\ py_in_strs displayName ignore = false)).
  - intros ld item ld' Hitem Hld. rewrite keep_list_outcome.
    destruct item as [| | | | |d]; try (intros H; now injection H as <-).
    destruct (dict_get d "displayName") as [displayName|] eqn:Hname;
      [|intros H; now injection H as <-].
    destruct (dict_get d "id") as [id0|] eqn:Hid; [|intros H; now injection H as <-].
    destruct (py_in_strs displayName ignore) eqn:Hign;
      [intros H; now injection H as <-|].
    destruct (hash_key displayName) as [k|e]; [|discriminate].
    cbn [bind result_monad]. intros H. injection H as <-.
    intros id Hin. apply dict_set_values in Hin. destruct Hin as [Hin| ->].
    + now apply Hld.
    + exists d, displayName. auto.
  - intros id [].
Qed.

(** X16.  An id enters the collection map only with a collection that
    is retained.  So when the only collections of the listing that
    have the id a lookup refers to are ignored ones, the id is the id
    of no entry of the map and the lookup gives no edge, although the
    source listed its target. *)
Theorem lookup_into_ignored_collection (p : program) (source : MetadataSource)
    (items : list json) (lists_dict : lists_map) (list_name : pykey) (c : column)
    (target : json) :
  listed_items (lists_response source) = Ok items ->
  outcome (fetch_sharepoint_lists_of p source) = Ok lists_dict ->
  py_get (td_details (col_type_details c)) "listId" JNull = Ok target ->
  only_ignored (LISTS_TO_IGNORE_of p) items target ->
  dangling lists_dict target
  /\ find_target_table lists_dict target = None
  /\ field_edges lists_dict list_name c = [].
Proof.
  intros Hitems Hfetch Hget Honly. rewrite fetch_sharepoint_lists_of_eq in Hfetch.
  assert (Hd : dangling lists_dict target).
  { unfold dangling. apply Forall_forall. intros [k id] Hin. cbn [snd].
    destruct (py_eq id target) eqn:Heq; [|reflexivity].
    destruct (fetch_sharepoint_lists_ids _ source items lists_dict id Hitems Hfetch)
      as [d [displayName [Hd [Hid [Hname Hign]]]]].
    { apply (in_map snd) in Hin. exact Hin. }
    destruct (Honly d id Hd Hid Heq) as [name [Hname' Hin']].
    rewrite Hname in Hname'. injection Hname' as ->.
    cbn [py_in_strs] in Hign. apply str_in_false in Hign. now elim Hign. }
  split; [exact Hd | split].
  - now apply find_target_table_dangling.
  - now apply (field_edges_dangling lists_dict list_name c target).
Qed.

Lemma lookup_into_ignored_collection_witness :
  dangling [(KStr "Tasks", JStr "T1")] (JStr "D0")
  /\ find_target_table [(KStr "Tasks", JStr "T1")] (JStr "D0") = None
  /\ field_edges [(KStr "Tasks", JStr "T1")] (KStr "Tasks")
       (kept_column "Attachment" "lookup" (JObj [("listId", JStr "D0")])) = [].
Proof.
  apply (lookup_into_ignored_collection main_py scenario_B
           [collection "Documents" "D0"; collection "Tasks" "T1"]
           [(KStr "Tasks", JStr "T1")] (KStr "Tasks")
           (kept_column "Attachment" "lookup" (JObj [("listId", JStr "D0")]))
           (JStr "D0")); try reflexivity.
  intros d id [Hd|[Hd|[]]] Hid Heq.
  - injection Hd as <-. exists "Documents". split; [reflexivity | now left].
  - injection Hd as <-. cbn in Hid. injection Hid as <-. discriminate.
Defined.
